(** * The market-making core of [src/strategy/autotrader.cc]

    A shallow embedding of the [AutoTrader] class (declared in
    [autotrader.h], implemented in [autotrader.cc]) and the properties of
    its event handlers.

    Conventions of the embedding:
    - [unsigned long] is a [Z] reduced modulo [2^64] ([wrap64]),
      [unsigned int] a [Z] reduced modulo [2^32] ([wrap32]), and
      [signed long] a [Z] brought back into [-2^63, 2^63) ([sint64]);
      the reduction is written at every operation of the source that can
      leave the range.
      Overflow of a [signed long] is taken as two's complement wrap; the
      invariants below show it does not occur where it matters.
    - the two [std::unordered_map<unsigned long, Order>] ledgers are
      [gmap Z Order]; a range-[for] over a ledger is a left fold over
      [map_to_list].  The order of traversal of an [unordered_map] is not
      specified; the ledger a scan leaves does not depend on it
      ([foldl_pull_any_order]), the concrete runs below use ledgers whose
      live orders have distinct prices, and the general statements hold for
      every ledger.
    - a handler is a function from the object's state to the new state and
      the requests it sent to the exchange, in the order they were sent.
      The [RLOG] lines have no effect on either and are left out. *)

From Stdlib Require Import ZArith Lia String.
From stdpp Require Import base numbers option list gmap fin_maps fin_map_dom.

Local Open Scope Z_scope.

(** ** Machine integers *)

Definition wrap64 (z : Z) : Z := z mod 2 ^ 64.
Definition wrap32 (z : Z) : Z := z mod 2 ^ 32.
Definition sint64 (z : Z) : Z := (z + 2 ^ 63) mod 2 ^ 64 - 2 ^ 63.

(** ** Types of the framework and of [autotrader.h] *)

Inductive Instrument := FUTURE | ETF.
Inductive Side := SELL | BUY.
Inductive Lifespan := FILL_AND_KILL | GOOD_FOR_DAY.

Definition Instrument_eqb (a b : Instrument) : bool :=
  match a, b with
  | FUTURE, FUTURE | ETF, ETF => true
  | _, _ => false
  end.

(** [struct Order] *)
Record Order := mkOrder {
  price : Z;
  remainingVolume : Z;
  filledVolume : Z;
  cancelling : bool
}.

(** [std::unordered_map::operator[]] value-initialises a missing entry. *)
#[global] Instance Order_inhabited : Inhabited Order :=
  populate (mkOrder 0 0 0 false).

(** [order.cancelling = true] *)
Definition set_cancelling (o : Order) : Order :=
  mkOrder (price o) (remainingVolume o) (filledVolume o) true.

(** The requests a handler hands to the base class. *)
Inductive Request :=
| SendCancelOrder (clientOrderId : Z)
| SendInsertOrder (clientOrderId : Z) (side : Side) (price volume : Z)
                  (lifespan : Lifespan)
| SendHedgeOrder (clientOrderId : Z) (side : Side) (price volume : Z).

(** The private members of [class AutoTrader]. *)
Record AutoTrader := mkAutoTrader {
  mNextMessageId : Z;
  mOrderBookSequence : Z;
  mETFOrderPositionSell : Z;
  mETFOrderPositionBuy : Z;
  mETFOrderAskCount : Z;
  mETFOrderBidCount : Z;
  mETFPosition : Z;
  mAsks : gmap Z Order;
  mBids : gmap Z Order
}.

(** The member initialisers of [autotrader.h]. *)
Definition initial : AutoTrader :=
  mkAutoTrader 1 0 0 0 0 0 0 ∅ ∅.

(** [std::array<unsigned long, TOP_LEVEL_COUNT>]; only index 0 is read. *)
Definition at0 (a : list Z) : Z := nth 0 a 0.

(** [m.count(k)] of an [unordered_map]. *)
Definition count (m : gmap Z Order) (k : Z) : Z :=
  match m !! k with Some _ => 1 | None => 0 end.

(** An [Order*] as the repricing passes use it: the address of a global
    sentinel or of the entry of the scanned ledger under a key. *)
Inductive OrderPtr := PtrSentinel | PtrEntry (orderId : Z).

Definition deref (sentinel : Order) (m : gmap Z Order) (p : OrderPtr) : Order :=
  match p with
  | PtrSentinel => sentinel
  | PtrEntry k => default sentinel (m !! k)
  end.

(** A write of [cancelling = true] through such a pointer.  The passes write
    only under [orderId != 0], where the pointer is an entry (see
    [sell_scan_ptr] and [buy_scan_ptr]); the sentinels are never written. *)
Definition store_cancelling (m : gmap Z Order) (p : OrderPtr) : gmap Z Order :=
  match p with
  | PtrSentinel => m
  | PtrEntry k => alter set_cancelling k m
  end.

(** The local variables of a repricing pass while it scans its ledger. *)
Record Scan := mkScan {
  sc_ledger : gmap Z Order;
  sc_sent : list Request;
  sc_orderId : Z;
  sc_order : OrderPtr;
  sc_alreadyExists : bool
}.

Definition MAX_ORDER_DEPTH : Z := 5.
Definition LOT_SIZE : Z := 10.
Definition POSITION_LIMIT : Z := 100.
Definition TICK_SIZE_IN_CENTS : Z := 100.

(** A book side with one level: the best price or volume, then zeros. *)
Definition levels (best : Z) : list Z := [best; 0; 0; 0; 0].

(** Values for [MAXIMUM_ASK] and [MINIMUM_BID] (2^31 - 1 and 1, as in Ready
    Trader Go), used only to run the model on concrete event sequences. *)
Definition MAX_ASK : Z := 2147483647.
Definition MIN_BID : Z := 1.

Section WithFramework.

(** [MAXIMUM_ASK] and [MINIMUM_BID] come from [ready_trader_go/types.h],
    which is not part of the sources at hand; they stay parameters. *)
Variable MAXIMUM_ASK : Z.
Variable MINIMUM_BID : Z.

Definition MIN_BID_NEARST_TICK : Z :=
  (MINIMUM_BID + TICK_SIZE_IN_CENTS) ÷ TICK_SIZE_IN_CENTS * TICK_SIZE_IN_CENTS.
Definition MAX_ASK_NEAREST_TICK : Z :=
  MAXIMUM_ASK ÷ TICK_SIZE_IN_CENTS * TICK_SIZE_IN_CENTS.

Definition MAX_ORDER : Order := mkOrder MAXIMUM_ASK 0 0 false.
Definition MIN_ORDER : Order := mkOrder 0 0 0 false.

(** *** [RepriceSellOrders] *)

(** Line 100. *)
Definition newAskPrice (askPrices : list Z) : Z :=
  if negb (at0 askPrices =? 0) then wrap64 (at0 askPrices + 100)
  else MAXIMUM_ASK.

(** The body of the loop of lines 106-121 for one entry. *)
Definition sell_scan_step (target : Z) (st : Scan) (entry : Z * Order) : Scan :=
  let '(orderId, order) := entry in
  if cancelling order then st
  else
    let ex := if price order =? target then true else sc_alreadyExists st in
    if price order <? target then
      mkScan (alter set_cancelling orderId (sc_ledger st))
             (sc_sent st ++ [SendCancelOrder orderId])
             (sc_orderId st) (sc_order st) ex
    else if price (deref MIN_ORDER (sc_ledger st) (sc_order st)) <=? price order then
      mkScan (sc_ledger st) (sc_sent st) orderId (PtrEntry orderId) ex
    else
      mkScan (sc_ledger st) (sc_sent st) (sc_orderId st) (sc_order st) ex.

Definition sell_scan (target : Z) (asks : gmap Z Order) : Scan :=
  foldl (sell_scan_step target) (mkScan asks [] 0 PtrSentinel false)
        (map_to_list asks).

(** Lines 125-129 for the sell side, 172-176 for the buy side. *)
Definition make_room (sentinel : Order) (orderCount : Z) (st : Scan) : Scan :=
  if negb (sc_orderId st =? 0)
     && negb (cancelling (deref sentinel (sc_ledger st) (sc_order st)))
     && (MAX_ORDER_DEPTH - 1 <=? orderCount)
  then mkScan (store_cancelling (sc_ledger st) (sc_order st))
              (sc_sent st ++ [SendCancelOrder (sc_orderId st)])
              (sc_orderId st) (sc_order st) (sc_alreadyExists st)
  else st.

Definition RepriceSellOrders (askPrices askVolumes : list Z) (s : AutoTrader)
  : AutoTrader * list Request :=
  let target := newAskPrice askPrices in
  let st := make_room MIN_ORDER (mETFOrderAskCount s)
                      (sell_scan target (mAsks s)) in
  if sc_alreadyExists st
     || (sint64 (sint64 (mETFPosition s - mETFOrderPositionSell s) - LOT_SIZE)
         <? - POSITION_LIMIT)
     || (MAX_ORDER_DEPTH <=? mETFOrderAskCount s)
     || (at0 askPrices =? 0)
  then
    (mkAutoTrader (mNextMessageId s) (mOrderBookSequence s)
                  (mETFOrderPositionSell s) (mETFOrderPositionBuy s)
                  (mETFOrderAskCount s) (mETFOrderBidCount s)
                  (mETFPosition s) (sc_ledger st) (mBids s),
     sc_sent st)
  else
    let orderId := mNextMessageId s in
    (mkAutoTrader (wrap64 (orderId + 1)) (mOrderBookSequence s)
                  (sint64 (mETFOrderPositionSell s + LOT_SIZE))
                  (mETFOrderPositionBuy s)
                  (wrap32 (mETFOrderAskCount s + 1)) (mETFOrderBidCount s)
                  (mETFPosition s)
                  (<[orderId := mkOrder target LOT_SIZE 0 false]> (sc_ledger st))
                  (mBids s),
     sc_sent st ++ [SendInsertOrder orderId SELL target LOT_SIZE GOOD_FOR_DAY]).

(** *** [RepriceBuyOrders] *)

(** Line 151. *)
Definition newBidPrice (bidPrices : list Z) : Z :=
  if negb (at0 bidPrices =? 0) then wrap64 (at0 bidPrices - 100)
  else 0.

(** The body of the loop of lines 156-170 for one entry. *)
Definition buy_scan_step (target : Z) (st : Scan) (entry : Z * Order) : Scan :=
  let '(orderId, order) := entry in
  if cancelling order then st
  else
    let ex := if price order =? target then true else sc_alreadyExists st in
    if target <? price order then
      mkScan (alter set_cancelling orderId (sc_ledger st))
             (sc_sent st ++ [SendCancelOrder orderId])
             (sc_orderId st) (sc_order st) ex
    else if price order <=? price (deref MAX_ORDER (sc_ledger st) (sc_order st)) then
      mkScan (sc_ledger st) (sc_sent st) orderId (PtrEntry orderId) ex
    else
      mkScan (sc_ledger st) (sc_sent st) (sc_orderId st) (sc_order st) ex.

Definition buy_scan (target : Z) (bids : gmap Z Order) : Scan :=
  foldl (buy_scan_step target) (mkScan bids [] 0 PtrSentinel false)
        (map_to_list bids).

Definition RepriceBuyOrders (bidPrices bidVolumes : list Z) (s : AutoTrader)
  : AutoTrader * list Request :=
  let target := newBidPrice bidPrices in
  let st := make_room MAX_ORDER (mETFOrderBidCount s)
                      (buy_scan target (mBids s)) in
  if sc_alreadyExists st
     || (POSITION_LIMIT
         <? sint64 (sint64 (mETFPosition s + mETFOrderPositionBuy s) + LOT_SIZE))
     || (MAX_ORDER_DEPTH <=? mETFOrderBidCount s)
     || (at0 bidPrices =? 0)
  then
    (mkAutoTrader (mNextMessageId s) (mOrderBookSequence s)
                  (mETFOrderPositionSell s) (mETFOrderPositionBuy s)
                  (mETFOrderAskCount s) (mETFOrderBidCount s)
                  (mETFPosition s) (mAsks s) (sc_ledger st),
     sc_sent st)
  else
    let orderId := mNextMessageId s in
    (mkAutoTrader (wrap64 (orderId + 1)) (mOrderBookSequence s)
                  (mETFOrderPositionSell s)
                  (sint64 (mETFOrderPositionBuy s + LOT_SIZE))
                  (mETFOrderAskCount s) (wrap32 (mETFOrderBidCount s + 1))
                  (mETFPosition s)
                  (mAsks s)
                  (<[orderId := mkOrder target LOT_SIZE 0 false]> (sc_ledger st)),
     sc_sent st ++ [SendInsertOrder orderId BUY target LOT_SIZE GOOD_FOR_DAY]).

(** *** [OrderBookMessageHandler] *)

Definition OrderBookMessageHandler (instrument : Instrument) (sequenceNumber : Z)
    (askPrices askVolumes bidPrices bidVolumes : list Z) (s : AutoTrader)
  : AutoTrader * list Request :=
  if sequenceNumber <=? mOrderBookSequence s then (s, [])
  else
    let s1 := mkAutoTrader (mNextMessageId s) sequenceNumber
                (mETFOrderPositionSell s) (mETFOrderPositionBuy s)
                (mETFOrderAskCount s) (mETFOrderBidCount s)
                (mETFPosition s) (mAsks s) (mBids s) in
    if negb (Instrument_eqb instrument FUTURE) then (s1, [])
    else
      let '(s2, sent_sell) := RepriceSellOrders askPrices askVolumes s1 in
      let '(s3, sent_buy) := RepriceBuyOrders bidPrices bidVolumes s2 in
      (s3, sent_sell ++ sent_buy).

(** *** [OrderStatusMessageHandler] *)

Definition OrderStatusMessageHandler (clientOrderId fillVolume remainingVolume' fees : Z)
    (s : AutoTrader) : AutoTrader * list Request :=
  let isSellOrder := negb (count (mAsks s) clientOrderId =? 0) in
  if negb isSellOrder && (count (mBids s) clientOrderId =? 0) then (s, [])
  else
    let sideMap := if isSellOrder then mAsks s else mBids s in
    let order := sideMap !!! clientOrderId in
    let dFilled := wrap64 (fillVolume - filledVolume order) in
    let hedged := 0 <? dFilled in
    let position :=
      if hedged
      then sint64 (mETFPosition s
                   + (if isSellOrder then wrap64 (- dFilled) else dFilled))
      else mETFPosition s in
    let sent :=
      if hedged
      then [SendHedgeOrder (mNextMessageId s)
              (if isSellOrder then BUY else SELL)
              (if isSellOrder then MAX_ASK_NEAREST_TICK else MIN_BID_NEARST_TICK)
              dFilled]
      else [] in
    let nextId :=
      if hedged then wrap64 (mNextMessageId s + 1) else mNextMessageId s in
    let dRemaining := wrap64 (remainingVolume order - remainingVolume') in
    let positionSell :=
      if isSellOrder then sint64 (mETFOrderPositionSell s - dRemaining)
      else mETFOrderPositionSell s in
    let positionBuy :=
      if isSellOrder then mETFOrderPositionBuy s
      else sint64 (mETFOrderPositionBuy s - dRemaining) in
    let settled := negb (0 <? remainingVolume') in
    let sideMap' :=
      if settled then delete clientOrderId sideMap
      else <[clientOrderId :=
               mkOrder (price order) remainingVolume' fillVolume (cancelling order)]>
             sideMap in
    let askCount :=
      if settled && isSellOrder then wrap32 (mETFOrderAskCount s - 1)
      else mETFOrderAskCount s in
    let bidCount :=
      if settled && negb isSellOrder then wrap32 (mETFOrderBidCount s - 1)
      else mETFOrderBidCount s in
    (mkAutoTrader nextId (mOrderBookSequence s) positionSell positionBuy
                  askCount bidCount position
                  (if isSellOrder then sideMap' else mAsks s)
                  (if isSellOrder then mBids s else sideMap'),
     sent).

(** *** [ErrorMessageHandler] *)

Definition ErrorMessageHandler (clientOrderId : Z) (errorMessage : string)
    (s : AutoTrader) : AutoTrader * list Request :=
  if negb (clientOrderId =? 0)
     && ((count (mAsks s) clientOrderId =? 1)
         || (count (mBids s) clientOrderId =? 1))
  then OrderStatusMessageHandler clientOrderId 0 0 0 s
  else (s, []).

(** *** The handlers that only log *)

Definition DisconnectHandler (s : AutoTrader) : AutoTrader * list Request :=
  (s, []).

Definition HedgeFilledMessageHandler (clientOrderId price volume : Z)
    (s : AutoTrader) : AutoTrader * list Request := (s, []).

Definition OrderFilledMessageHandler (clientOrderId price volume : Z)
    (s : AutoTrader) : AutoTrader * list Request := (s, []).

Definition TradeTicksMessageHandler (instrument : Instrument) (sequenceNumber : Z)
    (askPrices askVolumes bidPrices bidVolumes : list Z) (s : AutoTrader)
  : AutoTrader * list Request := (s, []).

(** ** Events and reachable states *)

Inductive Event :=
| BookUpdate (instrument : Instrument) (sequenceNumber : Z)
             (askPrices askVolumes bidPrices bidVolumes : list Z)
| TradeTicks (instrument : Instrument) (sequenceNumber : Z)
             (askPrices askVolumes bidPrices bidVolumes : list Z)
| OrderStatus (clientOrderId fillVolume remainingVolume' fees : Z)
| OrderFilled (clientOrderId price volume : Z)
| HedgeFilled (clientOrderId price volume : Z)
| OrderError (clientOrderId : Z) (errorMessage : string)
| Disconnect.

(** The dispatch of the base class: one event, one handler. *)
Definition handle (e : Event) : AutoTrader -> AutoTrader * list Request :=
  match e with
  | BookUpdate i n ap av bp bv => OrderBookMessageHandler i n ap av bp bv
  | TradeTicks i n ap av bp bv => TradeTicksMessageHandler i n ap av bp bv
  | OrderStatus id f r fees => OrderStatusMessageHandler id f r fees
  | OrderFilled id p v => OrderFilledMessageHandler id p v
  | HedgeFilled id p v => HedgeFilledMessageHandler id p v
  | OrderError id msg => ErrorMessageHandler id msg
  | Disconnect => DisconnectHandler
  end.

(** Events are processed one at a time, in delivery order. *)
Fixpoint run (es : list Event) (s : AutoTrader) : AutoTrader * list Request :=
  match es with
  | [] => (s, [])
  | e :: es' =>
      let '(s1, sent1) := handle e s in
      let '(s2, sent2) := run es' s1 in
      (s2, sent1 ++ sent2)
  end.

Inductive reachable : AutoTrader -> Prop :=
| reachable_initial : reachable initial
| reachable_step s e : reachable s -> reachable (fst (handle e s)).

(** ** Predicates of the properties *)

(** The resting-order bound, with the link between a ledger and its counter
    that makes it inductive. *)
Definition depth_ok (s : AutoTrader) : Prop :=
  Z.of_nat (size (mAsks s)) <= mETFOrderAskCount s <= MAX_ORDER_DEPTH
  /\ Z.of_nat (size (mBids s)) <= mETFOrderBidCount s <= MAX_ORDER_DEPTH.

(** The order an order-status update is applied to: the sell ledger is
    looked up first (line 212), then the buy ledger (line 213). *)
Definition tracked (s : AutoTrader) (id : Z) : option Order :=
  match mAsks s !! id with
  | Some o => Some o
  | None => mBids s !! id
  end.

(** An order-status update as an exchange that keeps its books sends it: the
    remaining volume is not negative, the fill volume does not go back, and
    what was newly filled was taken out of the remaining volume. *)
Definition status_consistent (s : AutoTrader) (id fillVolume remainingVolume' : Z)
  : Prop :=
  match tracked s id with
  | Some o =>
      0 <= remainingVolume'
      /\ filledVolume o <= fillVolume
      /\ fillVolume - filledVolume o <= remainingVolume o - remainingVolume'
  | None => True
  end.

(** An error is handled as the status update (0, 0); it is taken for an
    order with no recorded fill, or for an id that is not tracked. *)
Definition error_consistent (s : AutoTrader) (id : Z) : Prop :=
  match tracked s id with
  | Some o => filledVolume o = 0
  | None => True
  end.

Definition event_consistent (s : AutoTrader) (e : Event) : Prop :=
  match e with
  | OrderStatus id f r _ => status_consistent s id f r
  | OrderError id _ => error_consistent s id
  | _ => True
  end.

Inductive reachable_consistent : AutoTrader -> Prop :=
| reachable_consistent_initial : reachable_consistent initial
| reachable_consistent_step s e :
    reachable_consistent s -> event_consistent s e ->
    reachable_consistent (fst (handle e s)).

(** The volume the orders of a ledger still have to trade. *)
Definition committed (m : gmap Z Order) : Z :=
  map_fold (fun _ o acc => remainingVolume o + acc) 0 m.

Definition volumes_ok (m : gmap Z Order) : Prop :=
  forall id o, m !! id = Some o -> 0 <= remainingVolume o.

(** The position limit, with what makes it inductive: the committed-volume
    counters cover the volume of the orders in the ledgers. *)
Definition limit_ok (s : AutoTrader) : Prop :=
  volumes_ok (mAsks s) /\ volumes_ok (mBids s)
  /\ committed (mAsks s) <= mETFOrderPositionSell s
  /\ committed (mBids s) <= mETFOrderPositionBuy s
  /\ mETFPosition s + mETFOrderPositionBuy s <= POSITION_LIMIT
  /\ - POSITION_LIMIT <= mETFPosition s - mETFOrderPositionSell s.

(** Sequence numbers that go up strictly, starting above [last]. *)
Fixpoint increasing_from (last : Z) (ns : list Z) : Prop :=
  match ns with
  | [] => True
  | n :: ns' => last < n /\ increasing_from n ns'
  end.

(** The state the engine settles in when every book update since the start
    reports the same books: one sell quote under id 1 and, when the best bid
    is not zero, one buy quote under id 2. *)
Definition settled_on (ap bp : list Z) (n : Z) : AutoTrader :=
  if at0 bp =? 0
  then mkAutoTrader 2 n 10 0 1 0 0
         {[1 := mkOrder (newAskPrice ap) LOT_SIZE 0 false]} ∅
  else mkAutoTrader 3 n 10 10 1 1 0
         {[1 := mkOrder (newAskPrice ap) LOT_SIZE 0 false]}
         {[2 := mkOrder (newBidPrice bp) LOT_SIZE 0 false]}.

(** Concrete events and event sequences. *)

Definition bid_10000 : Event :=
  BookUpdate FUTURE 1 (levels 0) (levels 0) (levels 10000) (levels 50).
Definition ask_10000 : Event :=
  BookUpdate FUTURE 1 (levels 10000) (levels 50) (levels 0) (levels 0).

(** A buy quote of ten lots is placed, then three of them are filled. *)
Definition partly_filled_buy : list Event :=
  [bid_10000; OrderStatus 1 3 7 0].

(** A buy quote of ten lots is placed, then reported filled for 200 lots. *)
Definition overfilled_buy : list Event :=
  [bid_10000; OrderStatus 1 200 10 0].

(** The best ask steps down from 10000 to 9700 and stays there. *)
Definition falling_then_stable_ask : list Event :=
  [ask_10000;
   BookUpdate FUTURE 2 (levels 9900) (levels 50) (levels 0) (levels 0);
   BookUpdate FUTURE 3 (levels 9800) (levels 50) (levels 0) (levels 0);
   BookUpdate FUTURE 4 (levels 9700) (levels 50) (levels 0) (levels 0);
   BookUpdate FUTURE 5 (levels 9700) (levels 50) (levels 0) (levels 0);
   BookUpdate FUTURE 6 (levels 9700) (levels 50) (levels 0) (levels 0);
   BookUpdate FUTURE 7 (levels 9700) (levels 50) (levels 0) (levels 0);
   BookUpdate FUTURE 8 (levels 9700) (levels 50) (levels 0) (levels 0);
   BookUpdate FUTURE 9 (levels 9700) (levels 50) (levels 0) (levels 0);
   BookUpdate FUTURE 10 (levels 9700) (levels 50) (levels 0) (levels 0);
   BookUpdate FUTURE 11 (levels 9700) (levels 50) (levels 0) (levels 0)].

(** The same update over and over, under the given sequence numbers. *)
Definition repeated_updates (ap av bp bv : list Z) (ns : list Z) : list Event :=
  map (fun n => BookUpdate FUTURE n ap av bp bv) ns.

(** What a scan does to one order, read off the loop bodies: a live sell
    order priced below the target, or a live buy order priced above it, is
    pulled; every other order is left as it is. *)
Definition live_below (target : Z) (o : Order) : bool :=
  negb (cancelling o) && (price o <? target).
Definition live_above (target : Z) (o : Order) : bool :=
  negb (cancelling o) && (target <? price o).

Definition pull_if (P : Order -> bool) (o : Order) : Order :=
  if P o then set_cancelling o else o.

Definition pull_entry (P : Order -> bool) (m : gmap Z Order) (e : Z * Order)
  : gmap Z Order :=
  if P e.2 then alter set_cancelling e.1 m else m.

Definition cancels_of (P : Order -> bool) (l : list (Z * Order)) : list Request :=
  flat_map (fun e => if P e.2 then [SendCancelOrder e.1] else []) l.

Definition is_insert (r : Request) : bool :=
  match r with SendInsertOrder _ _ _ _ _ => true | _ => false end.

(** ** Predicates of the further properties *)

(** A live order at the target: what sets [askAlreadyExists] (line 111) and
    [bidAlreadyExists] (line 160). *)
Definition live_at (target : Z) (o : Order) : bool :=
  negb (cancelling o) && (price o =? target).

(** No two live orders of a ledger share a price. *)
Definition quotes_distinct (m : gmap Z Order) : Prop :=
  forall i j oi oj,
    m !! i = Some oi -> m !! j = Some oj ->
    cancelling oi = false -> cancelling oj = false ->
    price oi = price oj -> i = j.

Definition is_cancel (r : Request) : bool :=
  match r with SendCancelOrder _ => true | _ => false end.

Definition is_hedge (r : Request) : bool :=
  match r with SendHedgeOrder _ _ _ _ => true | _ => false end.

(** The message ids the requests of a list draw from the counter
    [mNextMessageId], in order: an insert or a hedge order must carry the
    current value [n] of the counter and moves it on by one; a cancel
    request names an existing order and draws nothing.  The result is the
    counter after the list, if every request carried the right id. *)
Fixpoint ids_after (n : Z) (l : list Request) : option Z :=
  match l with
  | [] => Some n
  | SendCancelOrder _ :: l' => ids_after n l'
  | SendInsertOrder id _ _ _ _ :: l' =>
      if id =? n then ids_after (wrap64 (n + 1)) l' else None
  | SendHedgeOrder id _ _ _ :: l' =>
      if id =? n then ids_after (wrap64 (n + 1)) l' else None
  end.

(** The placement gates of lines 131-134 and 180-183, with the flag of the
    scan read as "a live order at the target exists". *)
Definition sell_gate_open (ap : list Z) (s : AutoTrader) : Prop :=
  at0 ap <> 0
  /\ mETFOrderAskCount s < MAX_ORDER_DEPTH
  /\ - POSITION_LIMIT <= mETFPosition s - mETFOrderPositionSell s - LOT_SIZE
  /\ forall k o, mAsks s !! k = Some o -> cancelling o = false ->
                 price o <> newAskPrice ap.

Definition buy_gate_open (bp : list Z) (s : AutoTrader) : Prop :=
  at0 bp <> 0
  /\ mETFOrderBidCount s < MAX_ORDER_DEPTH
  /\ mETFPosition s + mETFOrderPositionBuy s + LOT_SIZE <= POSITION_LIMIT
  /\ forall k o, mBids s !! k = Some o -> cancelling o = false ->
                 price o <> newBidPrice bp.

(** The volume the hedge orders of a list sell, net of what they buy. *)
Fixpoint net_hedged (l : list Request) : Z :=
  match l with
  | [] => 0
  | SendHedgeOrder _ SELL _ v :: l' => v + net_hedged l'
  | SendHedgeOrder _ BUY _ v :: l' => - v + net_hedged l'
  | _ :: l' => net_hedged l'
  end.

(** A state together with all the requests sent on the way to it, under
    the events of [event_consistent]. *)
Inductive consistent_trace : AutoTrader -> list Request -> Prop :=
| consistent_trace_initial : consistent_trace initial []
| consistent_trace_step s sent e :
    consistent_trace s sent -> event_consistent s e ->
    consistent_trace (fst (handle e s)) (sent ++ snd (handle e s)).

(** States of concrete runs: one sell quote placed, one buy quote placed. *)
Definition quoted_sell : AutoTrader := fst (handle ask_10000 initial).
Definition quoted_buy : AutoTrader := fst (handle bid_10000 initial).

(** ** Predicates of the convergence under a stable best ask *)

(** Line 80: a book update that is not stale stores its sequence number. *)
Definition with_sequence (n : Z) (s : AutoTrader) : AutoTrader :=
  mkAutoTrader (mNextMessageId s) n
    (mETFOrderPositionSell s) (mETFOrderPositionBuy s)
    (mETFOrderAskCount s) (mETFOrderBidCount s)
    (mETFPosition s) (mAsks s) (mBids s).

(** A sell ledger settled on a target: the order [o] under id [k] is live
    and priced at the target, and every other live order is priced above
    the target.  So exactly one live order is priced at the target and none
    below it. *)
Definition settled_at (target : Z) (m : gmap Z Order) (k : Z) (o : Order)
  : Prop :=
  m !! k = Some o /\ cancelling o = false /\ price o = target
  /\ forall k' o', m !! k' = Some o' -> cancelling o' = false ->
                   k' = k \/ target < price o'.

(** The states from which the sell side settles on the target of a best
    ask: either a live sell order rests at the target and fewer than 4 sell
    orders are counted, or the placement gate of lines 131-134 is open and
    fewer than 3 are counted, so that the make-room rule of line 125 stays
    off once the new quote is counted. *)
Definition sell_can_settle (ap : list Z) (s : AutoTrader) : Prop :=
  at0 ap <> 0
  /\ quotes_distinct (mAsks s)
  /\ 0 <= mETFOrderAskCount s
  /\ ((exists k o, mAsks s !! k = Some o /\ live_at (newAskPrice ap) o = true)
      /\ mETFOrderAskCount s < MAX_ORDER_DEPTH - 1
      \/ sell_gate_open ap s /\ mETFOrderAskCount s < MAX_ORDER_DEPTH - 2).

(** The states from which the buy side comes to rest after one pass: fewer
    than 3 buy orders are counted, or fewer than 4 and the pass places
    nothing. *)
Definition buy_can_calm (bp : list Z) (s : AutoTrader) : Prop :=
  0 <= mETFOrderBidCount s
  /\ (mETFOrderBidCount s < MAX_ORDER_DEPTH - 2
      \/ mETFOrderBidCount s < MAX_ORDER_DEPTH - 1 /\ ~ buy_gate_open bp s).

(** A buy side at rest under a best bid: the make-room rule is off, no live
    order is priced above the target, and the placement gate is closed. *)
Definition buy_quiet (bp : list Z) (s : AutoTrader) : Prop :=
  mETFOrderBidCount s < MAX_ORDER_DEPTH - 1
  /\ (forall k o, mBids s !! k = Some o ->
                  live_above (newBidPrice bp) o = false)
  /\ ~ buy_gate_open bp s.

(** The events under which the best ask of the traded instrument stays at
    [P]: book updates of the traded instrument that report [P], with any
    bids, volumes and sequence numbers, book updates of other instruments,
    and the events whose handlers only log.  Order-status updates and
    errors are not among them. *)
Definition keeps_ask (P : Z) (e : Event) : Prop :=
  match e with
  | BookUpdate i _ ap _ _ _ => i = FUTURE -> at0 ap = P
  | OrderStatus _ _ _ _ => False
  | OrderError _ _ => False
  | _ => True
  end.

(** A sell quote is filled in full, then the best ask rises. *)
Definition filled_then_rising_ask : list Event :=
  [BookUpdate FUTURE 1 (levels 10000) (levels 50) (levels 9800) (levels 50);
   OrderStatus 1 10 0 0;
   BookUpdate FUTURE 2 (levels 10100) (levels 50) (levels 9900) (levels 50)].

(** The state after that run: position -10, one sell quote at 10200 and two
    buy quotes, at 9700 and 9800. *)
Definition refilled : AutoTrader := fst (run filled_then_rising_ask initial).

(** ** Properties *)

(** *** Machine integers *)

Lemma wrap64_small z : 0 <= z < 2 ^ 64 -> wrap64 z = z.
Proof. intros H. unfold wrap64. by rewrite Z.mod_small. Qed.

Lemma wrap64_range z : 0 <= wrap64 z < 2 ^ 64.
Proof. unfold wrap64. apply Z.mod_pos_bound. lia. Qed.

Lemma sint64_range z : - 2 ^ 63 <= sint64 z < 2 ^ 63.
Proof.
  unfold sint64. pose proof (Z.mod_pos_bound (z + 2 ^ 63) (2 ^ 64)). lia.
Qed.

Lemma sint64_small z : - 2 ^ 63 <= z < 2 ^ 63 -> sint64 z = z.
Proof. intros H. unfold sint64. rewrite Z.mod_small; lia. Qed.

Lemma sint64_idemp z : sint64 (sint64 z) = sint64 z.
Proof. apply sint64_small, sint64_range. Qed.

(** *** The scans keep the keys of the ledger *)

Lemma sell_scan_step_dom target st entry :
  dom (sc_ledger (sell_scan_step target st entry)) = dom (sc_ledger st).
Proof.
  destruct entry as [orderId order]. unfold sell_scan_step.
  repeat case_match; simpl; try done; apply dom_alter_L.
Qed.

Lemma buy_scan_step_dom target st entry :
  dom (sc_ledger (buy_scan_step target st entry)) = dom (sc_ledger st).
Proof.
  destruct entry as [orderId order]. unfold buy_scan_step.
  repeat case_match; simpl; try done; apply dom_alter_L.
Qed.

Lemma foldl_scan_dom (step : Scan -> Z * Order -> Scan) l :
  (forall st e, dom (sc_ledger (step st e)) = dom (sc_ledger st)) ->
  forall st, dom (sc_ledger (foldl step st l)) = dom (sc_ledger st).
Proof.
  intros Hstep. induction l as [|e l IH]; intros st; simpl; [done|].
  by rewrite IH, Hstep.
Qed.

Lemma sell_scan_dom target asks : dom (sc_ledger (sell_scan target asks)) = dom asks.
Proof.
  unfold sell_scan. rewrite foldl_scan_dom; [done|]. apply sell_scan_step_dom.
Qed.

Lemma buy_scan_dom target bids : dom (sc_ledger (buy_scan target bids)) = dom bids.
Proof.
  unfold buy_scan. rewrite foldl_scan_dom; [done|]. apply buy_scan_step_dom.
Qed.

Lemma make_room_dom sentinel n st :
  dom (sc_ledger (make_room sentinel n st)) = dom (sc_ledger st).
Proof.
  unfold make_room. case_match; simpl; [|done].
  destruct (sc_order st); simpl; [done|]. apply dom_alter_L.
Qed.

Lemma size_eq_of_dom (m1 m2 : gmap Z Order) : dom m1 = dom m2 -> size m1 = size m2.
Proof. intros H. by rewrite <- !size_dom, H. Qed.

Lemma sell_pass_size target n asks :
  size (sc_ledger (make_room MIN_ORDER n (sell_scan target asks))) = size asks.
Proof. apply size_eq_of_dom. by rewrite make_room_dom, sell_scan_dom. Qed.

Lemma buy_pass_size target n bids :
  size (sc_ledger (make_room MAX_ORDER n (buy_scan target bids))) = size bids.
Proof. apply size_eq_of_dom. by rewrite make_room_dom, buy_scan_dom. Qed.

Lemma size_insert_le (m : gmap Z Order) k o :
  (size (<[k := o]> m) <= S (size m))%nat.
Proof.
  destruct (m !! k) eqn:Hk.
  - rewrite map_size_insert_Some by eauto. lia.
  - rewrite map_size_insert_None by done. lia.
Qed.

Lemma size_delete_Some (m : gmap Z Order) k o :
  m !! k = Some o -> size m = S (size (delete k m)).
Proof.
  intros Hk. rewrite <- (insert_delete_id m k o) at 1 by done.
  by rewrite map_size_insert_None by apply lookup_delete_eq.
Qed.

(** *** The resting-order bound is inductive *)

Lemma RepriceSellOrders_depth ap av s :
  depth_ok s -> depth_ok (fst (RepriceSellOrders ap av s)).
Proof.
  unfold depth_ok, RepriceSellOrders, MAX_ORDER_DEPTH. intros [[Ha1 Ha2] Hb].
  case_match eqn:Hgate; simpl.
  - rewrite sell_pass_size. auto.
  - apply orb_false_iff in Hgate as [Hgate _].
    apply orb_false_iff in Hgate as [_ Hdepth].
    apply Z.leb_gt in Hdepth. split; [|done].
    pose proof (size_insert_le
      (sc_ledger (make_room MIN_ORDER (mETFOrderAskCount s)
                    (sell_scan (newAskPrice ap) (mAsks s))))
      (mNextMessageId s) (mkOrder (newAskPrice ap) LOT_SIZE 0 false)) as Hle.
    rewrite sell_pass_size in Hle.
    unfold wrap32. rewrite Z.mod_small by lia. lia.
Qed.

Lemma RepriceBuyOrders_depth bp bv s :
  depth_ok s -> depth_ok (fst (RepriceBuyOrders bp bv s)).
Proof.
  unfold depth_ok, RepriceBuyOrders, MAX_ORDER_DEPTH. intros [Ha [Hb1 Hb2]].
  case_match eqn:Hgate; simpl.
  - rewrite buy_pass_size. auto.
  - apply orb_false_iff in Hgate as [Hgate _].
    apply orb_false_iff in Hgate as [_ Hdepth].
    apply Z.leb_gt in Hdepth. split; [done|].
    pose proof (size_insert_le
      (sc_ledger (make_room MAX_ORDER (mETFOrderBidCount s)
                    (buy_scan (newBidPrice bp) (mBids s))))
      (mNextMessageId s) (mkOrder (newBidPrice bp) LOT_SIZE 0 false)) as Hle.
    rewrite buy_pass_size in Hle.
    unfold wrap32. rewrite Z.mod_small by lia. lia.
Qed.

Lemma OrderBookMessageHandler_depth i n ap av bp bv s :
  depth_ok s -> depth_ok (fst (OrderBookMessageHandler i n ap av bp bv s)).
Proof.
  intros H. unfold OrderBookMessageHandler.
  case_match; [done|]. case_match; [done|].
  set (s1 := mkAutoTrader _ _ _ _ _ _ _ _ _).
  assert (depth_ok s1) as Hs1 by done.
  pose proof (RepriceSellOrders_depth ap av s1 Hs1) as Hs2.
  destruct (RepriceSellOrders ap av s1) as [s2 o2]; simpl in Hs2.
  pose proof (RepriceBuyOrders_depth bp bv s2 Hs2) as Hs3.
  destruct (RepriceBuyOrders bp bv s2) as [s3 o3]; simpl in Hs3. done.
Qed.

Lemma OrderStatusMessageHandler_depth id f r fees s :
  depth_ok s -> depth_ok (fst (OrderStatusMessageHandler id f r fees s)).
Proof.
  unfold depth_ok, OrderStatusMessageHandler, count, MAX_ORDER_DEPTH.
  intros [[Ha1 Ha2] [Hb1 Hb2]].
  destruct (mAsks s !! id) as [oa|] eqn:Hasks; simpl.
  - destruct (0 <? r); simpl.
    + rewrite map_size_insert_Some by eauto. done.
    + pose proof (size_delete_Some _ _ _ Hasks) as Hd.
      unfold wrap32. rewrite Z.mod_small by lia. lia.
  - destruct (mBids s !! id) as [ob|] eqn:Hbids; simpl; [|done].
    destruct (0 <? r); simpl.
    + rewrite map_size_insert_Some by eauto. done.
    + pose proof (size_delete_Some _ _ _ Hbids) as Hd.
      unfold wrap32. rewrite Z.mod_small by lia. lia.
Qed.

Lemma handle_depth e s : depth_ok s -> depth_ok (fst (handle e s)).
Proof.
  intros H. destruct e; simpl; try done.
  - by apply OrderBookMessageHandler_depth.
  - by apply OrderStatusMessageHandler_depth.
  - unfold ErrorMessageHandler. case_match; [|done].
    by apply OrderStatusMessageHandler_depth.
Qed.

Lemma reachable_depth s : reachable s -> depth_ok s.
Proof.
  induction 1 as [|s e _ IH]; [|by apply handle_depth].
  unfold depth_ok, initial, MAX_ORDER_DEPTH; simpl.
  rewrite map_size_empty. lia.
Qed.

(** C2: in every reachable state the ledgers [mAsks] and [mBids] hold at most
    [MAX_ORDER_DEPTH] = 5 orders each, and the counters [mETFOrderAskCount]
    and [mETFOrderBidCount] are at most 5. *)
Theorem resting_orders_capped s :
  reachable s ->
  Z.of_nat (size (mAsks s)) <= 5 /\ Z.of_nat (size (mBids s)) <= 5
  /\ mETFOrderAskCount s <= 5 /\ mETFOrderBidCount s <= 5.
Proof.
  intros H. apply reachable_depth in H.
  unfold depth_ok, MAX_ORDER_DEPTH in H. lia.
Qed.

(** *** What a scan does to the ledger and what it sends *)

Lemma sell_scan_step_ledger target st e :
  sc_ledger (sell_scan_step target st e)
  = pull_entry (live_below target) (sc_ledger st) e.
Proof.
  destruct e as [k o]. unfold sell_scan_step, pull_entry, live_below; simpl.
  destruct (cancelling o); simpl; [done|].
  destruct (price o <? target); simpl; [done|]. by case_match.
Qed.

Lemma buy_scan_step_ledger target st e :
  sc_ledger (buy_scan_step target st e)
  = pull_entry (live_above target) (sc_ledger st) e.
Proof.
  destruct e as [k o]. unfold buy_scan_step, pull_entry, live_above; simpl.
  destruct (cancelling o); simpl; [done|].
  destruct (target <? price o); simpl; [done|]. by case_match.
Qed.

Lemma sell_scan_step_sent target st e :
  sc_sent (sell_scan_step target st e)
  = sc_sent st ++ cancels_of (live_below target) [e].
Proof.
  destruct e as [k o]. unfold sell_scan_step, cancels_of, live_below; simpl.
  destruct (cancelling o); simpl; [by rewrite app_nil_r|].
  destruct (price o <? target); simpl; [done|].
  case_match; simpl; by rewrite app_nil_r.
Qed.

Lemma buy_scan_step_sent target st e :
  sc_sent (buy_scan_step target st e)
  = sc_sent st ++ cancels_of (live_above target) [e].
Proof.
  destruct e as [k o]. unfold buy_scan_step, cancels_of, live_above; simpl.
  destruct (cancelling o); simpl; [by rewrite app_nil_r|].
  destruct (target <? price o); simpl; [done|].
  case_match; simpl; by rewrite app_nil_r.
Qed.

Section Folds.
Variable step : Scan -> Z * Order -> Scan.
Variable P : Order -> bool.
Hypothesis step_ledger : forall st e,
  sc_ledger (step st e) = pull_entry P (sc_ledger st) e.
Hypothesis step_sent : forall st e,
  sc_sent (step st e) = sc_sent st ++ cancels_of P [e].

Lemma foldl_scan_ledger l st :
  sc_ledger (foldl step st l) = foldl (pull_entry P) (sc_ledger st) l.
Proof.
  revert st. induction l as [|e l IH]; intros st; simpl; [done|].
  by rewrite IH, step_ledger.
Qed.

Lemma foldl_scan_sent l st :
  sc_sent (foldl step st l) = sc_sent st ++ cancels_of P l.
Proof.
  revert st. induction l as [|e l IH]; intros st; simpl.
  - by rewrite app_nil_r.
  - rewrite IH, step_sent. unfold cancels_of; simpl.
    by rewrite app_nil_r, <- app_assoc.
Qed.
End Folds.

Lemma set_cancelling_idemp o : set_cancelling (set_cancelling o) = set_cancelling o.
Proof. done. Qed.

Lemma foldl_pull_lookup P l (m : gmap Z Order) k :
  foldl (pull_entry P) m l !! k
  = if existsb (fun e => bool_decide (e.1 = k) && P e.2) l
    then set_cancelling <$> m !! k else m !! k.
Proof.
  revert m. induction l as [|[k' o'] l IH]; intros m; simpl; [done|].
  rewrite IH. unfold pull_entry; simpl.
  destruct (P o'); simpl; rewrite ?andb_true_r, ?andb_false_r; simpl; [|done].
  case_bool_decide as Hk; simpl.
  - subst k'. rewrite lookup_alter_eq.
    destruct (m !! k) as [o|]; simpl; [|by case_match].
    rewrite set_cancelling_idemp. by case_match.
  - by rewrite lookup_alter_ne.
Qed.

Lemma existsb_entries P (m : gmap Z Order) l k o :
  l ≡ₚ map_to_list m ->
  m !! k = Some o ->
  existsb (fun e => bool_decide (e.1 = k) && P e.2) l = P o.
Proof.
  intros Hl Hk. destruct (P o) eqn:HP.
  - apply existsb_exists. exists (k, o). split.
    + apply list_elem_of_In. rewrite Hl. by apply elem_of_map_to_list.
    + simpl. rewrite HP. by rewrite bool_decide_eq_true_2.
  - apply not_true_is_false. intros H.
    apply existsb_exists in H as [[k' o'] [Hin H]]. simpl in H.
    apply andb_true_iff in H as [H1 H2]. apply bool_decide_eq_true_1 in H1.
    subst k'. apply list_elem_of_In in Hin. rewrite Hl in Hin.
    apply elem_of_map_to_list in Hin. congruence.
Qed.

(** The ledger a scan leaves is the same in whatever order the entries of
    the [unordered_map] are visited. *)
Lemma foldl_pull_any_order P (m : gmap Z Order) l :
  l ≡ₚ map_to_list m ->
  foldl (pull_entry P) m l = pull_if P <$> m.
Proof.
  intros Hl. apply map_eq. intros k. rewrite foldl_pull_lookup, lookup_fmap.
  destruct (m !! k) as [o|] eqn:Hk; simpl; [|by case_match].
  rewrite (existsb_entries P m l k o Hl Hk). unfold pull_if. by case_match.
Qed.

Lemma foldl_pull_map_to_list P (m : gmap Z Order) :
  foldl (pull_entry P) m (map_to_list m) = pull_if P <$> m.
Proof. by apply foldl_pull_any_order. Qed.

Lemma sell_scan_ledger target asks :
  sc_ledger (sell_scan target asks) = pull_if (live_below target) <$> asks.
Proof.
  unfold sell_scan.
  rewrite (foldl_scan_ledger _ _ (sell_scan_step_ledger target)); simpl.
  apply foldl_pull_map_to_list.
Qed.

Lemma buy_scan_ledger target bids :
  sc_ledger (buy_scan target bids) = pull_if (live_above target) <$> bids.
Proof.
  unfold buy_scan.
  rewrite (foldl_scan_ledger _ _ (buy_scan_step_ledger target)); simpl.
  apply foldl_pull_map_to_list.
Qed.

Lemma sell_scan_sent target asks :
  sc_sent (sell_scan target asks)
  = cancels_of (live_below target) (map_to_list asks).
Proof.
  unfold sell_scan.
  by rewrite (foldl_scan_sent _ _ (sell_scan_step_sent target)).
Qed.

Lemma buy_scan_sent target bids :
  sc_sent (buy_scan target bids)
  = cancels_of (live_above target) (map_to_list bids).
Proof.
  unfold buy_scan.
  by rewrite (foldl_scan_sent _ _ (buy_scan_step_sent target)).
Qed.

Lemma cancels_of_elem P (m : gmap Z Order) k o :
  m !! k = Some o -> P o = true ->
  In (SendCancelOrder k) (cancels_of P (map_to_list m)).
Proof.
  intros Hk HP. unfold cancels_of. apply in_flat_map. exists (k, o). split.
  - apply list_elem_of_In. by apply elem_of_map_to_list.
  - simpl. rewrite HP. by left.
Qed.

Lemma cancels_of_no_insert P l r :
  In r (cancels_of P l) -> is_insert r = false.
Proof.
  unfold cancels_of. intros H. apply in_flat_map in H as [e [_ H]].
  destruct (P e.2); simpl in H; [|done]. by destruct H as [<-|[]].
Qed.

(** *** The pointer of a scan

    Whenever a scan leaves a nonzero order id, its pointer is the ledger
    entry under that id, so the write of lines 127 and 174 never goes to one
    of the global sentinels. *)

Lemma foldl_scan_ptr (step : Scan -> Z * Order -> Scan) l :
  (forall st e,
     sc_order (step st e) = sc_order st /\ sc_orderId (step st e) = sc_orderId st
     \/ sc_order (step st e) = PtrEntry (sc_orderId (step st e))) ->
  forall st,
    (sc_orderId st <> 0 -> sc_order st = PtrEntry (sc_orderId st)) ->
    sc_orderId (foldl step st l) <> 0 ->
    sc_order (foldl step st l) = PtrEntry (sc_orderId (foldl step st l)).
Proof.
  intros Hstep. induction l as [|e l IH]; intros st Hst; cbn [foldl]; [done|].
  apply IH. destruct (Hstep st e) as [[-> ->]|Hnew]; done.
Qed.

Lemma sell_scan_ptr target asks :
  sc_orderId (sell_scan target asks) <> 0 ->
  sc_order (sell_scan target asks) = PtrEntry (sc_orderId (sell_scan target asks)).
Proof.
  unfold sell_scan. apply foldl_scan_ptr; [|done].
  intros st [k o]. unfold sell_scan_step.
  repeat case_match; cbn [sc_order sc_orderId]; auto.
Qed.

Lemma buy_scan_ptr target bids :
  sc_orderId (buy_scan target bids) <> 0 ->
  sc_order (buy_scan target bids) = PtrEntry (sc_orderId (buy_scan target bids)).
Proof.
  unfold buy_scan. apply foldl_scan_ptr; [|done].
  intros st [k o]. unfold buy_scan_step.
  repeat case_match; cbn [sc_order sc_orderId]; auto.
Qed.

(** *** What a whole pass does *)

Lemma make_room_lookup_pulled sentinel n st k o :
  sc_ledger st !! k = Some (set_cancelling o) ->
  sc_ledger (make_room sentinel n st) !! k = Some (set_cancelling o).
Proof.
  intros Hk. unfold make_room. case_match; simpl; [|done].
  destruct (sc_order st) as [|k']; simpl; [done|].
  rewrite lookup_alter. case_decide; [|done]. subst k'. by rewrite Hk.
Qed.

Lemma make_room_sent sentinel n st r :
  In r (sc_sent (make_room sentinel n st)) ->
  In r (sc_sent st) \/ is_insert r = false.
Proof.
  unfold make_room. case_match; simpl; [|by left].
  intros Hin. apply in_app_or in Hin as [Hin|[<-|[]]]; [by left|by right].
Qed.

Lemma make_room_sent_keeps sentinel n st r :
  In r (sc_sent st) -> In r (sc_sent (make_room sentinel n st)).
Proof.
  unfold make_room. case_match; simpl; [|done].
  intros Hin. apply in_or_app. by left.
Qed.

Lemma sell_pass_lookup_pulled target n asks k o :
  asks !! k = Some o -> live_below target o = true ->
  sc_ledger (make_room MIN_ORDER n (sell_scan target asks)) !! k
  = Some (set_cancelling o).
Proof.
  intros Hk HP. apply make_room_lookup_pulled.
  rewrite sell_scan_ledger, lookup_fmap, Hk; simpl. unfold pull_if. by rewrite HP.
Qed.

Lemma buy_pass_lookup_pulled target n bids k o :
  bids !! k = Some o -> live_above target o = true ->
  sc_ledger (make_room MAX_ORDER n (buy_scan target bids)) !! k
  = Some (set_cancelling o).
Proof.
  intros Hk HP. apply make_room_lookup_pulled.
  rewrite buy_scan_ledger, lookup_fmap, Hk; simpl. unfold pull_if. by rewrite HP.
Qed.

Lemma sell_pass_no_insert target n asks r :
  In r (sc_sent (make_room MIN_ORDER n (sell_scan target asks))) ->
  is_insert r = false.
Proof.
  intros H. apply make_room_sent in H as [H|H]; [|done].
  rewrite sell_scan_sent in H. by apply cancels_of_no_insert in H.
Qed.

Lemma buy_pass_no_insert target n bids r :
  In r (sc_sent (make_room MAX_ORDER n (buy_scan target bids))) ->
  is_insert r = false.
Proof.
  intros H. apply make_room_sent in H as [H|H]; [|done].
  rewrite buy_scan_sent in H. by apply cancels_of_no_insert in H.
Qed.

Lemma RepriceSellOrders_zero ap av s :
  at0 ap = 0 ->
  RepriceSellOrders ap av s
  = (let st := make_room MIN_ORDER (mETFOrderAskCount s)
                 (sell_scan MAXIMUM_ASK (mAsks s)) in
     (mkAutoTrader (mNextMessageId s) (mOrderBookSequence s)
        (mETFOrderPositionSell s) (mETFOrderPositionBuy s)
        (mETFOrderAskCount s) (mETFOrderBidCount s)
        (mETFPosition s) (sc_ledger st) (mBids s),
      sc_sent st)).
Proof.
  intros H0. unfold RepriceSellOrders, newAskPrice. rewrite H0; simpl.
  by rewrite !orb_true_r.
Qed.

Lemma RepriceBuyOrders_zero bp bv s :
  at0 bp = 0 ->
  RepriceBuyOrders bp bv s
  = (let st := make_room MAX_ORDER (mETFOrderBidCount s)
                 (buy_scan 0 (mBids s)) in
     (mkAutoTrader (mNextMessageId s) (mOrderBookSequence s)
        (mETFOrderPositionSell s) (mETFOrderPositionBuy s)
        (mETFOrderAskCount s) (mETFOrderBidCount s)
        (mETFPosition s) (mAsks s) (sc_ledger st),
      sc_sent st)).
Proof.
  intros H0. unfold RepriceBuyOrders, newBidPrice. rewrite H0; simpl.
  by rewrite !orb_true_r.
Qed.

(** The sell pass leaves the buy side alone, and the buy pass the sell side. *)
Lemma RepriceSellOrders_frame ap av s :
  let s' := fst (RepriceSellOrders ap av s) in
  mBids s' = mBids s /\ mETFOrderBidCount s' = mETFOrderBidCount s
  /\ mETFOrderPositionBuy s' = mETFOrderPositionBuy s
  /\ mETFPosition s' = mETFPosition s
  /\ mOrderBookSequence s' = mOrderBookSequence s.
Proof. unfold RepriceSellOrders. by case_match. Qed.

Lemma RepriceBuyOrders_frame bp bv s :
  let s' := fst (RepriceBuyOrders bp bv s) in
  mAsks s' = mAsks s /\ mETFOrderAskCount s' = mETFOrderAskCount s
  /\ mETFOrderPositionSell s' = mETFOrderPositionSell s
  /\ mETFPosition s' = mETFPosition s
  /\ mOrderBookSequence s' = mOrderBookSequence s.
Proof. unfold RepriceBuyOrders. by case_match. Qed.

(** Every insert request of a pass is the one of lines 139 and 188: at the
    target price, for one lot size, and only under a nonzero touch. *)
Lemma RepriceSellOrders_inserts ap av s r :
  In r (snd (RepriceSellOrders ap av s)) -> is_insert r = true ->
  at0 ap <> 0
  /\ r = SendInsertOrder (mNextMessageId s) SELL (newAskPrice ap) LOT_SIZE
          GOOD_FOR_DAY.
Proof.
  unfold RepriceSellOrders. case_match eqn:Hgate; simpl; intros Hin Hr.
  - apply sell_pass_no_insert in Hin. congruence.
  - apply in_app_or in Hin as [Hin|[<-|[]]].
    + apply sell_pass_no_insert in Hin. congruence.
    + apply orb_false_iff in Hgate as [_ Hz]. apply Z.eqb_neq in Hz. done.
Qed.

Lemma RepriceBuyOrders_inserts bp bv s r :
  In r (snd (RepriceBuyOrders bp bv s)) -> is_insert r = true ->
  at0 bp <> 0
  /\ r = SendInsertOrder (mNextMessageId s) BUY (newBidPrice bp) LOT_SIZE
          GOOD_FOR_DAY.
Proof.
  unfold RepriceBuyOrders. case_match eqn:Hgate; simpl; intros Hin Hr.
  - apply buy_pass_no_insert in Hin. congruence.
  - apply in_app_or in Hin as [Hin|[<-|[]]].
    + apply buy_pass_no_insert in Hin. congruence.
    + apply orb_false_iff in Hgate as [_ Hz]. apply Z.eqb_neq in Hz. done.
Qed.

(** A book update that passes both filters is the two passes in a row. *)
Lemma OrderBookMessageHandler_fresh n ap av bp bv s :
  mOrderBookSequence s < n ->
  OrderBookMessageHandler FUTURE n ap av bp bv s
  = (let s1 := mkAutoTrader (mNextMessageId s) n
                 (mETFOrderPositionSell s) (mETFOrderPositionBuy s)
                 (mETFOrderAskCount s) (mETFOrderBidCount s)
                 (mETFPosition s) (mAsks s) (mBids s) in
     let sell := RepriceSellOrders ap av s1 in
     let buy := RepriceBuyOrders bp bv (fst sell) in
     (fst buy, snd sell ++ snd buy)).
Proof.
  intros Hn. unfold OrderBookMessageHandler.
  destruct (n <=? mOrderBookSequence s) eqn:Hle; [apply Z.leb_le in Hle; lia|].
  cbn [Instrument_eqb negb].
  destruct (RepriceSellOrders ap av _) as [s2 o2]; cbn [fst snd].
  by destruct (RepriceBuyOrders bp bv s2) as [s3 o3].
Qed.

(** *** Quote targets and empty touches *)

Lemma newAskPrice_nonzero ap :
  at0 ap <> 0 -> newAskPrice ap = (at0 ap + 100) mod 2 ^ 64.
Proof.
  intros Ha. unfold newAskPrice.
  destruct (at0 ap =? 0) eqn:E; [by apply Z.eqb_eq in E|done].
Qed.

Lemma newAskPrice_zero ap : at0 ap = 0 -> newAskPrice ap = MAXIMUM_ASK.
Proof. intros Ha. unfold newAskPrice. by rewrite Ha. Qed.

Lemma newBidPrice_nonzero bp :
  at0 bp <> 0 -> newBidPrice bp = (at0 bp - 100) mod 2 ^ 64.
Proof.
  intros Hb. unfold newBidPrice.
  destruct (at0 bp =? 0) eqn:E; [by apply Z.eqb_eq in E|done].
Qed.

Lemma newBidPrice_zero bp : at0 bp = 0 -> newBidPrice bp = 0.
Proof. intros Hb. unfold newBidPrice. by rewrite Hb. Qed.

Lemma RepriceSellOrders_zero_keeps ap av s :
  at0 ap = 0 ->
  dom (mAsks (fst (RepriceSellOrders ap av s))) = dom (mAsks s)
  /\ mETFOrderAskCount (fst (RepriceSellOrders ap av s)) = mETFOrderAskCount s
  /\ mETFOrderPositionSell (fst (RepriceSellOrders ap av s))
     = mETFOrderPositionSell s.
Proof.
  intros Ha. rewrite RepriceSellOrders_zero by done. cbn [fst mAsks
    mETFOrderAskCount mETFOrderPositionSell].
  by rewrite make_room_dom, sell_scan_dom.
Qed.

Lemma RepriceBuyOrders_zero_keeps bp bv s :
  at0 bp = 0 ->
  dom (mBids (fst (RepriceBuyOrders bp bv s))) = dom (mBids s)
  /\ mETFOrderBidCount (fst (RepriceBuyOrders bp bv s)) = mETFOrderBidCount s
  /\ mETFOrderPositionBuy (fst (RepriceBuyOrders bp bv s))
     = mETFOrderPositionBuy s.
Proof.
  intros Hb. rewrite RepriceBuyOrders_zero by done. cbn [fst mBids
    mETFOrderBidCount mETFOrderPositionBuy].
  by rewrite make_room_dom, buy_scan_dom.
Qed.

Lemma RepriceSellOrders_zero_pulls ap av s k o :
  at0 ap = 0 -> mAsks s !! k = Some o -> live_below MAXIMUM_ASK o = true ->
  In (SendCancelOrder k) (snd (RepriceSellOrders ap av s))
  /\ mAsks (fst (RepriceSellOrders ap av s)) !! k = Some (set_cancelling o).
Proof.
  intros Ha Hk HP. rewrite RepriceSellOrders_zero by done.
  cbn [fst snd mAsks]. split.
  - apply make_room_sent_keeps. rewrite sell_scan_sent.
    by apply (cancels_of_elem _ _ _ o).
  - by apply sell_pass_lookup_pulled.
Qed.

Lemma RepriceBuyOrders_zero_pulls bp bv s k o :
  at0 bp = 0 -> mBids s !! k = Some o -> live_above 0 o = true ->
  In (SendCancelOrder k) (snd (RepriceBuyOrders bp bv s))
  /\ mBids (fst (RepriceBuyOrders bp bv s)) !! k = Some (set_cancelling o).
Proof.
  intros Hb Hk HP. rewrite RepriceBuyOrders_zero by done.
  cbn [fst snd mBids]. split.
  - apply make_room_sent_keeps. rewrite buy_scan_sent.
    by apply (cancels_of_elem _ _ _ o).
  - by apply buy_pass_lookup_pulled.
Qed.

(** C8, as the code has it: on a book update that passes the sequence and
    instrument filters, the sell target is the best ask plus 100 in
    [unsigned long] arithmetic: the plain sum whenever that fits 64 bits,
    and the sum less [2^64] from a best ask of [2^64 - 100] on; it is
    [MAXIMUM_ASK] under a zero best ask.  The buy target is the best bid
    minus 100 in [unsigned long] arithmetic: the plain difference from a
    best bid of 100 on, and the difference plus [2^64] for a best bid from 1
    to 99; it is zero under a zero best bid.  Every order the update inserts
    is a sell order at the sell target or a buy order at the buy target, for
    [LOT_SIZE] lots, and its side's touch is nonzero; under a zero touch
    that side's ledger keeps its keys and its counter and committed volume
    keep their values. *)
Theorem quote_targets n ap av bp bv s :
  mOrderBookSequence s < n ->
  (at0 ap <> 0 -> newAskPrice ap = (at0 ap + 100) mod 2 ^ 64)
  /\ (0 < at0 ap -> at0 ap + 100 < 2 ^ 64 -> newAskPrice ap = at0 ap + 100)
  /\ (at0 ap = 0 -> newAskPrice ap = MAXIMUM_ASK)
  /\ (at0 bp <> 0 -> newBidPrice bp = (at0 bp - 100) mod 2 ^ 64)
  /\ (100 <= at0 bp < 2 ^ 64 -> newBidPrice bp = at0 bp - 100)
  /\ (at0 bp = 0 -> newBidPrice bp = 0)
  /\ (forall r,
        In r (snd (OrderBookMessageHandler FUTURE n ap av bp bv s)) ->
        is_insert r = true ->
        exists id,
          (at0 ap <> 0
           /\ r = SendInsertOrder id SELL (newAskPrice ap) LOT_SIZE GOOD_FOR_DAY)
          \/ (at0 bp <> 0
              /\ r = SendInsertOrder id BUY (newBidPrice bp) LOT_SIZE GOOD_FOR_DAY))
  /\ (at0 ap = 0 ->
        dom (mAsks (fst (OrderBookMessageHandler FUTURE n ap av bp bv s)))
        = dom (mAsks s)
        /\ mETFOrderAskCount (fst (OrderBookMessageHandler FUTURE n ap av bp bv s))
           = mETFOrderAskCount s
        /\ mETFOrderPositionSell
             (fst (OrderBookMessageHandler FUTURE n ap av bp bv s))
           = mETFOrderPositionSell s)
  /\ (at0 bp = 0 ->
        dom (mBids (fst (OrderBookMessageHandler FUTURE n ap av bp bv s)))
        = dom (mBids s)
        /\ mETFOrderBidCount (fst (OrderBookMessageHandler FUTURE n ap av bp bv s))
           = mETFOrderBidCount s
        /\ mETFOrderPositionBuy
             (fst (OrderBookMessageHandler FUTURE n ap av bp bv s))
           = mETFOrderPositionBuy s)
  /\ (0 < at0 bp < 100 -> newBidPrice bp = at0 bp - 100 + 2 ^ 64)
  /\ (2 ^ 64 - 100 <= at0 ap < 2 ^ 64 ->
      newAskPrice ap = at0 ap + 100 - 2 ^ 64).
Proof.
  intros Hn. rewrite (OrderBookMessageHandler_fresh n ap av bp bv s Hn).
  cbv zeta. cbn [fst snd].
  generalize (RepriceSellOrders_frame ap av
    (mkAutoTrader (mNextMessageId s) n (mETFOrderPositionSell s)
       (mETFOrderPositionBuy s) (mETFOrderAskCount s) (mETFOrderBidCount s)
       (mETFPosition s) (mAsks s) (mBids s))).
  generalize (RepriceSellOrders_inserts ap av
    (mkAutoTrader (mNextMessageId s) n (mETFOrderPositionSell s)
       (mETFOrderPositionBuy s) (mETFOrderAskCount s) (mETFOrderBidCount s)
       (mETFPosition s) (mAsks s) (mBids s))).
  generalize (RepriceSellOrders_zero_keeps ap av
    (mkAutoTrader (mNextMessageId s) n (mETFOrderPositionSell s)
       (mETFOrderPositionBuy s) (mETFOrderAskCount s) (mETFOrderBidCount s)
       (mETFPosition s) (mAsks s) (mBids s))).
  cbn [mAsks mBids mETFOrderAskCount mETFOrderBidCount mETFOrderPositionSell
       mETFOrderPositionBuy mETFPosition mOrderBookSequence mNextMessageId].
  destruct (RepriceSellOrders ap av _) as [s2 sent2]. cbv zeta. cbn [fst snd].
  intros Hzero2 Hins2 (F1 & F2 & F3 & _).
  pose proof (RepriceBuyOrders_frame bp bv s2) as (G1 & G2 & G3 & _).
  pose proof (RepriceBuyOrders_inserts bp bv s2) as Hins3.
  pose proof (RepriceBuyOrders_zero_keeps bp bv s2) as Hzero3.
  destruct (RepriceBuyOrders bp bv s2) as [s3 sent3]. cbn [fst snd] in *.
  split; [apply newAskPrice_nonzero|].
  split.
  { intros Ha Hfit. rewrite newAskPrice_nonzero by lia.
    apply Z.mod_small. lia. }
  split; [apply newAskPrice_zero|].
  split; [apply newBidPrice_nonzero|].
  split.
  { intros Hb. rewrite newBidPrice_nonzero by lia. apply Z.mod_small. lia. }
  split; [apply newBidPrice_zero|].
  split.
  { intros r Hin Hr. apply in_app_or in Hin as [Hin|Hin].
    - destruct (Hins2 r Hin Hr) as [Ha ->]. eexists. left. split; [exact Ha|].
      reflexivity.
    - destruct (Hins3 r Hin Hr) as [Hb ->]. eexists. right. split; [exact Hb|].
      reflexivity. }
  split.
  { intros Ha. destruct (Hzero2 Ha) as (Z1 & Z2 & Z3).
    rewrite G1, G2, G3. auto. }
  split.
  { intros Hb. destruct (Hzero3 Hb) as (Z1 & Z2 & Z3).
    rewrite Z1, Z2, Z3, F1, F2, F3. auto. }
  split.
  - intros Hb. rewrite newBidPrice_nonzero by lia.
    rewrite <- (Z.mod_add _ 1) by lia. apply Z.mod_small. lia.
  - intros Ha. rewrite newAskPrice_nonzero by lia.
    rewrite <- (Z.mod_add _ (-1)) by lia. apply Z.mod_small. lia.
Qed.

(** C10: on a book update that passes both filters and reports a zero best
    ask, every sell order that is not cancelling and is priced below
    [MAXIMUM_ASK] is sent a cancel request, and the resulting ledger holds
    it under the same id with its price and volumes and with [cancelling]
    true; under a zero best bid the same holds of every buy order that is
    not cancelling and is priced above zero. *)
Theorem empty_touch_pulls_quotes n ap av bp bv s id o :
  mOrderBookSequence s < n ->
  cancelling o = false ->
  (at0 ap = 0 -> mAsks s !! id = Some o -> price o < MAXIMUM_ASK ->
     In (SendCancelOrder id)
        (snd (OrderBookMessageHandler FUTURE n ap av bp bv s))
     /\ mAsks (fst (OrderBookMessageHandler FUTURE n ap av bp bv s)) !! id
        = Some (mkOrder (price o) (remainingVolume o) (filledVolume o) true)
     /\ cancelling
          <$> mAsks (fst (OrderBookMessageHandler FUTURE n ap av bp bv s)) !! id
        = Some true)
  /\ (at0 bp = 0 -> mBids s !! id = Some o -> 0 < price o ->
      In (SendCancelOrder id)
         (snd (OrderBookMessageHandler FUTURE n ap av bp bv s))
      /\ mBids (fst (OrderBookMessageHandler FUTURE n ap av bp bv s)) !! id
         = Some (mkOrder (price o) (remainingVolume o) (filledVolume o) true)
      /\ cancelling
           <$> mBids (fst (OrderBookMessageHandler FUTURE n ap av bp bv s)) !! id
         = Some true).
Proof.
  intros Hn Hlive. rewrite (OrderBookMessageHandler_fresh n ap av bp bv s Hn).
  cbv zeta. cbn [fst snd].
  generalize (RepriceSellOrders_frame ap av
    (mkAutoTrader (mNextMessageId s) n (mETFOrderPositionSell s)
       (mETFOrderPositionBuy s) (mETFOrderAskCount s) (mETFOrderBidCount s)
       (mETFPosition s) (mAsks s) (mBids s))).
  generalize (fun H => RepriceSellOrders_zero_pulls ap av
    (mkAutoTrader (mNextMessageId s) n (mETFOrderPositionSell s)
       (mETFOrderPositionBuy s) (mETFOrderAskCount s) (mETFOrderBidCount s)
       (mETFPosition s) (mAsks s) (mBids s)) id o H).
  cbn [mAsks mBids mETFOrderAskCount mETFOrderBidCount mETFOrderPositionSell
       mETFOrderPositionBuy mETFPosition mOrderBookSequence mNextMessageId].
  destruct (RepriceSellOrders ap av _) as [s2 sent2]. cbv zeta. cbn [fst snd].
  intros Hpull2 (F1 & _).
  pose proof (RepriceBuyOrders_frame bp bv s2) as (G1 & _).
  pose proof (fun H => RepriceBuyOrders_zero_pulls bp bv s2 id o H) as Hpull3.
  destruct (RepriceBuyOrders bp bv s2) as [s3 sent3]. cbn [fst snd] in *.
  split.
  - intros Ha Hid Hprice.
    destruct (Hpull2 Ha Hid) as [Hin Hlk].
    { unfold live_below. rewrite Hlive. cbn [negb andb]. by apply Z.ltb_lt. }
    split; [apply in_or_app; by left|]. rewrite G1.
    split; [exact Hlk|]. by rewrite Hlk.
  - intros Hb Hid Hprice.
    destruct (Hpull3 Hb) as [Hin Hlk].
    { by rewrite F1. }
    { unfold live_above. rewrite Hlive. cbn [negb andb]. by apply Z.ltb_lt. }
    split; [apply in_or_app; by right|].
    split; [exact Hlk|]. by rewrite Hlk.
Qed.

(** *** Committed volume of a ledger *)

Lemma committed_empty : committed ∅ = 0.
Proof. apply map_fold_empty. Qed.

Lemma committed_insert_None (m : gmap Z Order) k o :
  m !! k = None -> committed (<[k := o]> m) = remainingVolume o + committed m.
Proof.
  intros Hk. unfold committed. rewrite map_fold_insert_L; [done| |done].
  intros. lia.
Qed.

Lemma committed_delete (m : gmap Z Order) k o :
  m !! k = Some o -> committed m = remainingVolume o + committed (delete k m).
Proof.
  intros Hk. rewrite <- (insert_delete_id m k o) at 1 by done.
  apply committed_insert_None, lookup_delete_eq.
Qed.

Lemma committed_insert_Some (m : gmap Z Order) k o o' :
  m !! k = Some o ->
  committed (<[k := o']> m) = committed m - remainingVolume o + remainingVolume o'.
Proof.
  intros Hk. rewrite <- insert_delete_eq.
  rewrite committed_insert_None by apply lookup_delete_eq.
  rewrite (committed_delete m k o Hk). lia.
Qed.

Lemma committed_fmap (f : Order -> Order) (m : gmap Z Order) :
  (forall o, remainingVolume (f o) = remainingVolume o) ->
  committed (f <$> m) = committed m.
Proof.
  intros Hf. induction m as [|k o m Hk IH] using map_ind.
  - by rewrite fmap_empty.
  - rewrite fmap_insert, !committed_insert_None, ?Hf, ?IH; try done.
    by rewrite lookup_fmap, Hk.
Qed.

Lemma alter_set_cancelling (m : gmap Z Order) k :
  alter set_cancelling k m
  = match m !! k with
    | Some o => <[k := set_cancelling o]> m
    | None => m
    end.
Proof.
  apply map_eq. intros j. rewrite lookup_alter.
  destruct (m !! k) as [o|] eqn:Hk.
  - rewrite lookup_insert. by case_decide.
  - case_decide; [subst j; by rewrite Hk|done].
Qed.

Lemma committed_alter (m : gmap Z Order) k :
  committed (alter set_cancelling k m) = committed m.
Proof.
  rewrite alter_set_cancelling. destruct (m !! k) as [o|] eqn:Hk; [|done].
  rewrite (committed_insert_Some m k o) by done. simpl. lia.
Qed.

Lemma volumes_ok_alter (m : gmap Z Order) k :
  volumes_ok m -> volumes_ok (alter set_cancelling k m).
Proof.
  intros Hm j o. rewrite lookup_alter. case_decide; [|apply Hm].
  subst j. destruct (m !! k) as [o'|] eqn:Hk; simpl; [|done].
  intros [= <-]. simpl. by apply (Hm k).
Qed.

Lemma volumes_ok_fmap (f : Order -> Order) (m : gmap Z Order) :
  (forall o, remainingVolume (f o) = remainingVolume o) ->
  volumes_ok m -> volumes_ok (f <$> m).
Proof.
  intros Hf Hm j o. rewrite lookup_fmap.
  destruct (m !! j) as [o'|] eqn:Hj; simpl; [|done].
  intros [= <-]. rewrite Hf. by apply (Hm j).
Qed.

Lemma volumes_ok_insert (m : gmap Z Order) k o :
  0 <= remainingVolume o -> volumes_ok m -> volumes_ok (<[k := o]> m).
Proof.
  intros Ho Hm j o'. rewrite lookup_insert. case_decide; [|apply Hm].
  by intros [= <-].
Qed.

Lemma volumes_ok_delete (m : gmap Z Order) k :
  volumes_ok m -> volumes_ok (delete k m).
Proof.
  intros Hm j o. rewrite lookup_delete. case_decide; [done|apply Hm].
Qed.

Lemma committed_nonneg (m : gmap Z Order) : volumes_ok m -> 0 <= committed m.
Proof.
  induction m as [|k o m Hk IH] using map_ind; intros Hm.
  - by rewrite committed_empty.
  - rewrite committed_insert_None by done.
    assert (0 <= remainingVolume o) by (apply (Hm k); apply lookup_insert_eq).
    assert (0 <= committed m); [|lia].
    apply IH. intros j o' Hj. apply (Hm j). rewrite lookup_insert_ne; [done|].
    intros <-. congruence.
Qed.

Lemma committed_lookup_le (m : gmap Z Order) k o :
  volumes_ok m -> m !! k = Some o -> remainingVolume o <= committed m.
Proof.
  intros Hm Hk. rewrite (committed_delete m k o Hk).
  pose proof (committed_nonneg _ (volumes_ok_delete m k Hm)). lia.
Qed.

Lemma committed_insert_le (m : gmap Z Order) k o :
  volumes_ok m -> committed (<[k := o]> m) <= committed m + remainingVolume o.
Proof.
  intros Hm. destruct (m !! k) as [o'|] eqn:Hk.
  - rewrite (committed_insert_Some m k o') by done.
    pose proof (Hm k o' Hk). lia.
  - rewrite committed_insert_None by done. lia.
Qed.

Lemma pull_if_volume P o : remainingVolume (pull_if P o) = remainingVolume o.
Proof. unfold pull_if. by case_match. Qed.

Lemma make_room_committed sentinel n st :
  committed (sc_ledger (make_room sentinel n st)) = committed (sc_ledger st).
Proof.
  unfold make_room. case_match; simpl; [|done].
  destruct (sc_order st); simpl; [done|apply committed_alter].
Qed.

Lemma make_room_volumes_ok sentinel n st :
  volumes_ok (sc_ledger st) -> volumes_ok (sc_ledger (make_room sentinel n st)).
Proof.
  unfold make_room. case_match; simpl; [|done].
  destruct (sc_order st); simpl; [done|apply volumes_ok_alter].
Qed.

Lemma sell_pass_committed target n asks :
  committed (sc_ledger (make_room MIN_ORDER n (sell_scan target asks)))
  = committed asks.
Proof.
  rewrite make_room_committed, sell_scan_ledger.
  apply committed_fmap, pull_if_volume.
Qed.

Lemma buy_pass_committed target n bids :
  committed (sc_ledger (make_room MAX_ORDER n (buy_scan target bids)))
  = committed bids.
Proof.
  rewrite make_room_committed, buy_scan_ledger.
  apply committed_fmap, pull_if_volume.
Qed.

Lemma sell_pass_volumes_ok target n asks :
  volumes_ok asks ->
  volumes_ok (sc_ledger (make_room MIN_ORDER n (sell_scan target asks))).
Proof.
  intros Hm. apply make_room_volumes_ok. rewrite sell_scan_ledger.
  by apply volumes_ok_fmap; [apply pull_if_volume|].
Qed.

Lemma buy_pass_volumes_ok target n bids :
  volumes_ok bids ->
  volumes_ok (sc_ledger (make_room MAX_ORDER n (buy_scan target bids))).
Proof.
  intros Hm. apply make_room_volumes_ok. rewrite buy_scan_ledger.
  by apply volumes_ok_fmap; [apply pull_if_volume|].
Qed.

(** *** An order-status update whose deltas do not wrap *)

Lemma sint64_add_wrap64 a b : sint64 (a + wrap64 b) = sint64 (a + b).
Proof.
  unfold sint64, wrap64. f_equal.
  replace (a + b mod 2 ^ 64 + 2 ^ 63) with ((a + 2 ^ 63) + b mod 2 ^ 64) by lia.
  rewrite Z.add_mod_idemp_r by lia. f_equal. lia.
Qed.

Lemma OrderStatusMessageHandler_sell id f r fees s o :
  mAsks s !! id = Some o ->
  0 <= f - filledVolume o < 2 ^ 64 ->
  0 <= remainingVolume o - r < 2 ^ 64 ->
  - 2 ^ 63 <= mETFPosition s - (f - filledVolume o) < 2 ^ 63 ->
  - 2 ^ 63 <= mETFOrderPositionSell s - (remainingVolume o - r) < 2 ^ 63 ->
  OrderStatusMessageHandler id f r fees s
  = (mkAutoTrader
       (if 0 <? f - filledVolume o then wrap64 (mNextMessageId s + 1)
        else mNextMessageId s)
       (mOrderBookSequence s)
       (mETFOrderPositionSell s - (remainingVolume o - r))
       (mETFOrderPositionBuy s)
       (if 0 <? r then mETFOrderAskCount s else wrap32 (mETFOrderAskCount s - 1))
       (mETFOrderBidCount s)
       (mETFPosition s - (f - filledVolume o))
       (if 0 <? r then <[id := mkOrder (price o) r f (cancelling o)]> (mAsks s)
        else delete id (mAsks s))
       (mBids s),
     if 0 <? f - filledVolume o
     then [SendHedgeOrder (mNextMessageId s) BUY MAX_ASK_NEAREST_TICK
             (f - filledVolume o)]
     else []).
Proof.
  intros Hid Hd Hr HP HS. unfold OrderStatusMessageHandler, count.
  rewrite Hid. cbn [Z.eqb negb andb].
  rewrite (lookup_total_correct _ _ _ Hid).
  rewrite !(wrap64_small (f - filledVolume o)) by done.
  rewrite (wrap64_small (remainingVolume o - r)) by done.
  rewrite (sint64_small (mETFOrderPositionSell s - _)) by done.
  rewrite sint64_add_wrap64.
  replace (mETFPosition s + - (f - filledVolume o))
    with (mETFPosition s - (f - filledVolume o)) by lia.
  rewrite sint64_small by done.
  destruct (0 <? f - filledVolume o) eqn:Hpos; destruct (0 <? r);
    cbn [negb andb]; try reflexivity.
  all: apply Z.ltb_ge in Hpos;
    assert (f - filledVolume o = 0) as -> by lia;
    by rewrite Z.sub_0_r.
Qed.

Lemma OrderStatusMessageHandler_buy id f r fees s o :
  mAsks s !! id = None ->
  mBids s !! id = Some o ->
  0 <= f - filledVolume o < 2 ^ 64 ->
  0 <= remainingVolume o - r < 2 ^ 64 ->
  - 2 ^ 63 <= mETFPosition s + (f - filledVolume o) < 2 ^ 63 ->
  - 2 ^ 63 <= mETFOrderPositionBuy s - (remainingVolume o - r) < 2 ^ 63 ->
  OrderStatusMessageHandler id f r fees s
  = (mkAutoTrader
       (if 0 <? f - filledVolume o then wrap64 (mNextMessageId s + 1)
        else mNextMessageId s)
       (mOrderBookSequence s)
       (mETFOrderPositionSell s)
       (mETFOrderPositionBuy s - (remainingVolume o - r))
       (mETFOrderAskCount s)
       (if 0 <? r then mETFOrderBidCount s else wrap32 (mETFOrderBidCount s - 1))
       (mETFPosition s + (f - filledVolume o))
       (mAsks s)
       (if 0 <? r then <[id := mkOrder (price o) r f (cancelling o)]> (mBids s)
        else delete id (mBids s)),
     if 0 <? f - filledVolume o
     then [SendHedgeOrder (mNextMessageId s) SELL MIN_BID_NEARST_TICK
             (f - filledVolume o)]
     else []).
Proof.
  intros Hasks Hid Hd Hr HP HS. unfold OrderStatusMessageHandler, count.
  rewrite Hasks, Hid. cbn [Z.eqb negb andb].
  rewrite (lookup_total_correct _ _ _ Hid).
  rewrite !(wrap64_small (f - filledVolume o)) by done.
  rewrite (wrap64_small (remainingVolume o - r)) by done.
  rewrite (sint64_small (mETFOrderPositionBuy s - _)) by done.
  rewrite sint64_small by done.
  destruct (0 <? f - filledVolume o) eqn:Hpos; destruct (0 <? r);
    cbn [negb andb]; try reflexivity.
  all: apply Z.ltb_ge in Hpos;
    assert (f - filledVolume o = 0) as -> by lia;
    by rewrite Z.add_0_r.
Qed.

Lemma OrderStatusMessageHandler_untracked id f r fees s :
  mAsks s !! id = None -> mBids s !! id = None ->
  OrderStatusMessageHandler id f r fees s = (s, []).
Proof.
  intros Ha Hb. unfold OrderStatusMessageHandler, count. by rewrite Ha, Hb.
Qed.

(** *** The position limit is inductive under consistent events *)

Lemma limit_ok_bounds s :
  limit_ok s ->
  0 <= mETFOrderPositionSell s <= 200 /\ 0 <= mETFOrderPositionBuy s <= 200
  /\ -100 <= mETFPosition s <= 100.
Proof.
  unfold limit_ok, POSITION_LIMIT. intros (Va & Vb & Ca & Cb & Hu & Hl).
  pose proof (committed_nonneg _ Va). pose proof (committed_nonneg _ Vb). lia.
Qed.

Lemma RepriceSellOrders_limit ap av s :
  limit_ok s -> limit_ok (fst (RepriceSellOrders ap av s)).
Proof.
  intros H. pose proof (limit_ok_bounds s H) as HB. revert H.
  unfold limit_ok, RepriceSellOrders, POSITION_LIMIT, LOT_SIZE.
  intros (Va & Vb & Ca & Cb & Hu & Hl).
  destruct (_ || _ || _ || _) eqn:Hgate;
    cbn [fst mAsks mBids mETFOrderPositionSell mETFOrderPositionBuy mETFPosition].
  - rewrite sell_pass_committed. repeat split; try done.
    by apply sell_pass_volumes_ok.
  - apply orb_false_iff in Hgate as [Hgate _].
    apply orb_false_iff in Hgate as [Hgate _].
    apply orb_false_iff in Hgate as [_ Hgate].
    rewrite (sint64_small (mETFPosition s - mETFOrderPositionSell s)) in Hgate by lia.
    rewrite sint64_small in Hgate by lia. apply Z.ltb_ge in Hgate.
    rewrite sint64_small by lia.
    pose proof (committed_insert_le _ (mNextMessageId s)
      (mkOrder (newAskPrice ap) 10 0 false)
      (sell_pass_volumes_ok (newAskPrice ap) (mETFOrderAskCount s) _ Va)) as Hle.
    rewrite sell_pass_committed in Hle. cbn [remainingVolume] in Hle.
    repeat split; try done; try lia.
    apply volumes_ok_insert; [done|]. by apply sell_pass_volumes_ok.
Qed.

Lemma RepriceBuyOrders_limit bp bv s :
  limit_ok s -> limit_ok (fst (RepriceBuyOrders bp bv s)).
Proof.
  intros H. pose proof (limit_ok_bounds s H) as HB. revert H.
  unfold limit_ok, RepriceBuyOrders, POSITION_LIMIT, LOT_SIZE.
  intros (Va & Vb & Ca & Cb & Hu & Hl).
  destruct (_ || _ || _ || _) eqn:Hgate;
    cbn [fst mAsks mBids mETFOrderPositionSell mETFOrderPositionBuy mETFPosition].
  - rewrite buy_pass_committed. repeat split; try done.
    by apply buy_pass_volumes_ok.
  - apply orb_false_iff in Hgate as [Hgate _].
    apply orb_false_iff in Hgate as [Hgate _].
    apply orb_false_iff in Hgate as [_ Hgate].
    rewrite (sint64_small (mETFPosition s + mETFOrderPositionBuy s)) in Hgate by lia.
    rewrite sint64_small in Hgate by lia. apply Z.ltb_ge in Hgate.
    rewrite sint64_small by lia.
    pose proof (committed_insert_le _ (mNextMessageId s)
      (mkOrder (newBidPrice bp) 10 0 false)
      (buy_pass_volumes_ok (newBidPrice bp) (mETFOrderBidCount s) _ Vb)) as Hle.
    rewrite buy_pass_committed in Hle. cbn [remainingVolume] in Hle.
    repeat split; try done; try lia.
    apply volumes_ok_insert; [done|]. by apply buy_pass_volumes_ok.
Qed.

Lemma OrderBookMessageHandler_limit i n ap av bp bv s :
  limit_ok s -> limit_ok (fst (OrderBookMessageHandler i n ap av bp bv s)).
Proof.
  intros H. unfold OrderBookMessageHandler.
  destruct (n <=? mOrderBookSequence s); [done|].
  destruct (negb (Instrument_eqb i FUTURE)); [done|].
  pose proof (RepriceSellOrders_limit ap av
    (mkAutoTrader (mNextMessageId s) n (mETFOrderPositionSell s)
       (mETFOrderPositionBuy s) (mETFOrderAskCount s) (mETFOrderBidCount s)
       (mETFPosition s) (mAsks s) (mBids s)) H) as Hs2.
  destruct (RepriceSellOrders ap av _) as [s2 o2]. cbn [fst] in Hs2.
  pose proof (RepriceBuyOrders_limit bp bv s2 Hs2) as Hs3.
  by destruct (RepriceBuyOrders bp bv s2) as [s3 o3].
Qed.

Lemma OrderStatusMessageHandler_limit id f r fees s :
  limit_ok s -> status_consistent s id f r ->
  limit_ok (fst (OrderStatusMessageHandler id f r fees s)).
Proof.
  intros H. pose proof (limit_ok_bounds s H) as HB. revert H.
  unfold limit_ok, status_consistent, tracked, POSITION_LIMIT.
  intros (Va & Vb & Ca & Cb & Hu & Hl) Hc.
  destruct (mAsks s !! id) as [o|] eqn:Hasks.
  - destruct Hc as (Hr & Hf & Hd).
    pose proof (committed_lookup_le _ _ _ Va Hasks) as Hle.
    pose proof (Va _ _ Hasks) as Hro.
    rewrite (OrderStatusMessageHandler_sell id f r fees s o) by (done || lia).
    cbn [fst mAsks mBids mETFOrderPositionSell mETFOrderPositionBuy mETFPosition].
    destruct (0 <? r) eqn:Hrpos.
    + rewrite (committed_insert_Some _ _ o) by done. cbn [remainingVolume].
      repeat split; try done; try lia.
      apply volumes_ok_insert; done.
    + apply Z.ltb_ge in Hrpos.
      pose proof (committed_delete _ _ _ Hasks) as Hdel.
      repeat split; try done; try lia.
      by apply volumes_ok_delete.
  - destruct (mBids s !! id) as [o|] eqn:Hbids.
    + destruct Hc as (Hr & Hf & Hd).
      pose proof (committed_lookup_le _ _ _ Vb Hbids) as Hle.
      pose proof (Vb _ _ Hbids) as Hro.
      rewrite (OrderStatusMessageHandler_buy id f r fees s o) by (done || lia).
      cbn [fst mAsks mBids mETFOrderPositionSell mETFOrderPositionBuy mETFPosition].
      destruct (0 <? r) eqn:Hrpos.
      * rewrite (committed_insert_Some _ _ o) by done. cbn [remainingVolume].
        repeat split; try done; try lia.
        apply volumes_ok_insert; done.
      * apply Z.ltb_ge in Hrpos.
        pose proof (committed_delete _ _ _ Hbids) as Hdel.
        repeat split; try done; try lia.
        by apply volumes_ok_delete.
    + by rewrite OrderStatusMessageHandler_untracked.
Qed.

Lemma handle_limit e s :
  limit_ok s -> event_consistent s e -> limit_ok (fst (handle e s)).
Proof.
  intros H Hc. destruct e; cbn [handle]; try done.
  - by apply OrderBookMessageHandler_limit.
  - by apply OrderStatusMessageHandler_limit.
  - unfold ErrorMessageHandler. destruct (_ && _); [|done].
    apply OrderStatusMessageHandler_limit; [done|].
    revert Hc. cbn [event_consistent].
    unfold error_consistent, status_consistent, tracked.
    destruct H as (Va & Vb & _).
    destruct (mAsks s !! clientOrderId) as [o|] eqn:Hasks.
    + intros Hf. pose proof (Va _ _ Hasks). lia.
    + destruct (mBids s !! clientOrderId) as [o|] eqn:Hbids; [|done].
      intros Hf. pose proof (Vb _ _ Hbids). lia.
Qed.

Lemma reachable_consistent_limit s : reachable_consistent s -> limit_ok s.
Proof.
  induction 1 as [|s e _ IH Hc]; [|by apply handle_limit].
  unfold limit_ok, initial, POSITION_LIMIT.
  cbn [mAsks mBids mETFOrderPositionSell mETFOrderPositionBuy mETFPosition].
  rewrite committed_empty. repeat split; try lia; by intros id o.
Qed.

(** C1, as the code has it: in every state reached from the initial state by
    book updates, by order-status updates that are consistent with the ledger
    (the remaining volume is not negative, the fill volume is not below the
    stored one, and the newly filled volume is at most the drop of the
    remaining volume) and by errors for orders with no recorded fill (or
    for untracked ids), [mETFPosition + mETFOrderPositionBuy <= 100] and
    [mETFPosition - mETFOrderPositionSell >= -100]. *)
Theorem position_limit_respected s :
  reachable_consistent s ->
  mETFPosition s + mETFOrderPositionBuy s <= 100
  /\ mETFPosition s - mETFOrderPositionSell s >= -100.
Proof.
  intros H. apply reachable_consistent_limit in H.
  unfold limit_ok, POSITION_LIMIT in H. lia.
Qed.

(** *** Repeated identical book updates from the initial state *)

Lemma sell_pass_empty target n :
  make_room MIN_ORDER n (sell_scan target ∅) = mkScan ∅ [] 0 PtrSentinel false.
Proof. unfold sell_scan. by rewrite map_to_list_empty. Qed.

Lemma buy_pass_empty target n :
  make_room MAX_ORDER n (buy_scan target ∅) = mkScan ∅ [] 0 PtrSentinel false.
Proof. unfold buy_scan. by rewrite map_to_list_empty. Qed.

(** A pass over a ledger that holds one live order at the target, with
    fewer than four orders counted, does nothing. *)
Lemma sell_pass_single target n k o :
  cancelling o = false -> price o = target -> n < MAX_ORDER_DEPTH - 1 ->
  let st := make_room MIN_ORDER n (sell_scan target {[k := o]}) in
  sc_ledger st = {[k := o]} /\ sc_sent st = [] /\ sc_alreadyExists st = true.
Proof.
  intros Hlive Hprice Hn. unfold sell_scan. rewrite map_to_list_singleton.
  cbn [foldl sell_scan_step]. rewrite Hlive, Hprice, Z.eqb_refl, Z.ltb_irrefl.
  cbn [sc_ledger sc_sent sc_order sc_orderId sc_alreadyExists].
  apply Z.ltb_lt in Hn. rewrite Z.ltb_antisym in Hn.
  apply negb_true_iff in Hn.
  destruct (_ <=? target); unfold make_room;
    cbn [sc_ledger sc_sent sc_order sc_orderId sc_alreadyExists];
    rewrite Hn, andb_false_r; done.
Qed.

Lemma buy_pass_single target n k o :
  cancelling o = false -> price o = target -> n < MAX_ORDER_DEPTH - 1 ->
  let st := make_room MAX_ORDER n (buy_scan target {[k := o]}) in
  sc_ledger st = {[k := o]} /\ sc_sent st = [] /\ sc_alreadyExists st = true.
Proof.
  intros Hlive Hprice Hn. unfold buy_scan. rewrite map_to_list_singleton.
  cbn [foldl buy_scan_step]. rewrite Hlive, Hprice, Z.eqb_refl, Z.ltb_irrefl.
  cbn [sc_ledger sc_sent sc_order sc_orderId sc_alreadyExists].
  apply Z.ltb_lt in Hn. rewrite Z.ltb_antisym in Hn.
  apply negb_true_iff in Hn.
  destruct (target <=? _); unfold make_room;
    cbn [sc_ledger sc_sent sc_order sc_orderId sc_alreadyExists];
    rewrite Hn, andb_false_r; done.
Qed.

Lemma RepriceSellOrders_idle ap av s k o :
  mAsks s = {[k := o]} -> cancelling o = false -> price o = newAskPrice ap ->
  mETFOrderAskCount s < MAX_ORDER_DEPTH - 1 ->
  RepriceSellOrders ap av s = (s, []).
Proof.
  intros Hm Hlive Hprice Hn. unfold RepriceSellOrders. rewrite Hm.
  destruct (sell_pass_single (newAskPrice ap) (mETFOrderAskCount s) k o)
    as (-> & -> & ->); [done..|].
  cbn [orb]. rewrite <- Hm. by destruct s.
Qed.

Lemma RepriceBuyOrders_idle bp bv s k o :
  mBids s = {[k := o]} -> cancelling o = false -> price o = newBidPrice bp ->
  mETFOrderBidCount s < MAX_ORDER_DEPTH - 1 ->
  RepriceBuyOrders bp bv s = (s, []).
Proof.
  intros Hm Hlive Hprice Hn. unfold RepriceBuyOrders. rewrite Hm.
  destruct (buy_pass_single (newBidPrice bp) (mETFOrderBidCount s) k o)
    as (-> & -> & ->); [done..|].
  cbn [orb]. rewrite <- Hm. by destruct s.
Qed.

Lemma RepriceBuyOrders_idle_empty bp bv s :
  mBids s = ∅ -> at0 bp = 0 -> RepriceBuyOrders bp bv s = (s, []).
Proof.
  intros Hm Hb. rewrite RepriceBuyOrders_zero by done. cbv zeta.
  rewrite Hm, buy_pass_empty. cbn [sc_ledger sc_sent]. rewrite <- Hm.
  by destruct s.
Qed.

Lemma RepriceSellOrders_first n ap av :
  at0 ap <> 0 ->
  RepriceSellOrders ap av (mkAutoTrader 1 n 0 0 0 0 0 ∅ ∅)
  = (mkAutoTrader 2 n 10 0 1 0 0
       {[1 := mkOrder (newAskPrice ap) LOT_SIZE 0 false]} ∅,
     [SendInsertOrder 1 SELL (newAskPrice ap) LOT_SIZE GOOD_FOR_DAY]).
Proof.
  intros Ha. apply Z.eqb_neq in Ha. unfold RepriceSellOrders.
  cbn [mAsks mBids mETFOrderAskCount mETFOrderBidCount mETFOrderPositionSell
       mETFOrderPositionBuy mETFPosition mOrderBookSequence mNextMessageId].
  rewrite sell_pass_empty, Ha. cbn [sc_ledger sc_sent sc_alreadyExists].
  by rewrite insert_empty.
Qed.

Lemma RepriceBuyOrders_first n bp bv (asks : gmap Z Order) :
  at0 bp <> 0 ->
  RepriceBuyOrders bp bv (mkAutoTrader 2 n 10 0 1 0 0 asks ∅)
  = (mkAutoTrader 3 n 10 10 1 1 0 asks
       {[2 := mkOrder (newBidPrice bp) LOT_SIZE 0 false]},
     [SendInsertOrder 2 BUY (newBidPrice bp) LOT_SIZE GOOD_FOR_DAY]).
Proof.
  intros Hb. apply Z.eqb_neq in Hb. unfold RepriceBuyOrders.
  cbn [mAsks mBids mETFOrderAskCount mETFOrderBidCount mETFOrderPositionSell
       mETFOrderPositionBuy mETFPosition mOrderBookSequence mNextMessageId].
  rewrite buy_pass_empty, Hb. cbn [sc_ledger sc_sent sc_alreadyExists].
  by rewrite insert_empty.
Qed.

Lemma first_update_settles n ap av bp bv :
  0 < n -> at0 ap <> 0 ->
  OrderBookMessageHandler FUTURE n ap av bp bv initial
  = (settled_on ap bp n,
     SendInsertOrder 1 SELL (newAskPrice ap) LOT_SIZE GOOD_FOR_DAY
     :: if at0 bp =? 0 then []
        else [SendInsertOrder 2 BUY (newBidPrice bp) LOT_SIZE GOOD_FOR_DAY]).
Proof.
  intros Hn Ha. rewrite OrderBookMessageHandler_fresh by done.
  cbv zeta. unfold initial.
  cbn [mAsks mBids mETFOrderAskCount mETFOrderBidCount mETFOrderPositionSell
       mETFOrderPositionBuy mETFPosition mOrderBookSequence mNextMessageId].
  rewrite RepriceSellOrders_first by done. cbn [fst snd].
  unfold settled_on. destruct (at0 bp =? 0) eqn:Hb.
  - apply Z.eqb_eq in Hb. by rewrite RepriceBuyOrders_idle_empty.
  - apply Z.eqb_neq in Hb. by rewrite RepriceBuyOrders_first.
Qed.

Lemma settled_update_is_idle n n' ap av bp bv :
  n < n' ->
  OrderBookMessageHandler FUTURE n' ap av bp bv (settled_on ap bp n)
  = (settled_on ap bp n', []).
Proof.
  intros Hn.
  assert (mOrderBookSequence (settled_on ap bp n) < n') as Hseq.
  { unfold settled_on. by destruct (at0 bp =? 0). }
  rewrite OrderBookMessageHandler_fresh by done. clear Hseq.
  cbv zeta. unfold settled_on. destruct (at0 bp =? 0) eqn:Hb;
    cbn [mAsks mBids mETFOrderAskCount mETFOrderBidCount mETFOrderPositionSell
         mETFOrderPositionBuy mETFPosition mOrderBookSequence mNextMessageId].
  - rewrite (RepriceSellOrders_idle ap av _ 1
               (mkOrder (newAskPrice ap) LOT_SIZE 0 false)) by done.
    cbn [fst snd]. apply Z.eqb_eq in Hb.
    by rewrite RepriceBuyOrders_idle_empty.
  - rewrite (RepriceSellOrders_idle ap av _ 1
               (mkOrder (newAskPrice ap) LOT_SIZE 0 false)) by done.
    cbn [fst snd].
    by rewrite (RepriceBuyOrders_idle bp bv _ 2
                  (mkOrder (newBidPrice bp) LOT_SIZE 0 false)).
Qed.

Lemma last_cons_default (ns : list Z) : forall a b,
  List.last (a :: ns) b = List.last ns a.
Proof.
  induction ns as [|z ns IH]; intros a b; [done|].
  change (List.last (a :: z :: ns) b) with (List.last (z :: ns) b).
  by rewrite !IH.
Qed.

Lemma settled_updates_are_idle ap av bp bv ns : forall n,
  increasing_from n ns ->
  run (repeated_updates ap av bp bv ns) (settled_on ap bp n)
  = (settled_on ap bp (List.last ns n), []).
Proof.
  induction ns as [|n' ns IH]; intros n Hinc; [done|].
  destruct Hinc as [Hn Hinc]. cbn [repeated_updates map run handle].
  rewrite settled_update_is_idle by done.
  change (map _ ns) with (repeated_updates ap av bp bv ns).
  rewrite (IH n' Hinc). cbn [app]. by rewrite last_cons_default.
Qed.

(** From the initial state: when every book update is for the traded
    instrument, carries strictly increasing sequence numbers and reports
    the same books with a nonzero best ask P, the sell ledger ends as
    exactly one order, not cancelling, priced at P + 100 (in [unsigned long]
    arithmetic) with 10 lots remaining; every further identical update sends
    no request and changes nothing but [mOrderBookSequence].  The general
    statement, from any state, is at the end of the section. *)
Lemma identical_updates_from_initial ap av bp bv n ns :
  at0 ap <> 0 ->
  increasing_from 0 (n :: ns) ->
  let s := fst (run (repeated_updates ap av bp bv (n :: ns)) initial) in
  s = settled_on ap bp (List.last ns n)
  /\ mAsks s = {[1 := mkOrder ((at0 ap + 100) mod 2 ^ 64) 10 0 false]}
  /\ snd (run (repeated_updates ap av bp bv ns)
            (fst (OrderBookMessageHandler FUTURE n ap av bp bv initial))) = []
  /\ forall n', mOrderBookSequence s < n' ->
       OrderBookMessageHandler FUTURE n' ap av bp bv s
       = (mkAutoTrader (mNextMessageId s) n'
            (mETFOrderPositionSell s) (mETFOrderPositionBuy s)
            (mETFOrderAskCount s) (mETFOrderBidCount s)
            (mETFPosition s) (mAsks s) (mBids s),
          []).
Proof.
  intros Ha [Hn Hinc].
  cbn [repeated_updates map run handle].
  rewrite first_update_settles by done.
  change (map _ ns) with (repeated_updates ap av bp bv ns).
  rewrite (settled_updates_are_idle ap av bp bv ns n Hinc).
  cbn [fst snd]. split; [done|]. split.
  { unfold settled_on. rewrite <- newAskPrice_nonzero by done.
    by destruct (at0 bp =? 0). }
  split; [by rewrite (settled_updates_are_idle ap av bp bv ns n Hinc)|].
  intros n' Hn'.
  assert (List.last ns n < n') as Hlast.
  { revert Hn'. unfold settled_on. by destruct (at0 bp =? 0). }
  rewrite settled_update_is_idle by done.
  unfold settled_on. by destruct (at0 bp =? 0).
Qed.

(** *** Stale and foreign book updates *)

(** C6: a book update whose sequence number is not above the last processed
    one leaves the whole state as it is and sends nothing. *)
Theorem stale_book_update_dropped i n ap av bp bv s :
  n <= mOrderBookSequence s ->
  OrderBookMessageHandler i n ap av bp bv s = (s, []).
Proof.
  intros H. unfold OrderBookMessageHandler.
  destruct (n <=? mOrderBookSequence s) eqn:Hle; [done|].
  apply Z.leb_gt in Hle. lia.
Qed.

(** C9, as the code has it: a book update for an instrument other than
    [FUTURE] sends nothing and changes no member except
    [mOrderBookSequence], which takes the update's sequence number when that
    is above the stored one. *)
Theorem foreign_book_update_only_moves_sequence i n ap av bp bv s :
  i <> FUTURE ->
  OrderBookMessageHandler i n ap av bp bv s
  = (mkAutoTrader (mNextMessageId s) (Z.max n (mOrderBookSequence s))
       (mETFOrderPositionSell s) (mETFOrderPositionBuy s)
       (mETFOrderAskCount s) (mETFOrderBidCount s)
       (mETFPosition s) (mAsks s) (mBids s),
     []).
Proof.
  intros Hi. unfold OrderBookMessageHandler.
  destruct (n <=? mOrderBookSequence s) eqn:Hn.
  - apply Z.leb_le in Hn. rewrite Z.max_r by done. by destruct s.
  - apply Z.leb_gt in Hn. rewrite Z.max_l by lia.
    destruct i; [done|]. reflexivity.
Qed.

(** *** Order-status updates *)

(** C5: delivering the same order-status update again right after the first
    delivery changes nothing and sends nothing, for an order id that is not
    in both ledgers at once. *)
Theorem order_status_idempotent id f r fees s :
  ~ (is_Some (mAsks s !! id) /\ is_Some (mBids s !! id)) ->
  OrderStatusMessageHandler id f r fees
    (fst (OrderStatusMessageHandler id f r fees s))
  = (fst (OrderStatusMessageHandler id f r fees s), []).
Proof.
  intros Hboth. unfold OrderStatusMessageHandler at 2 3. unfold count.
  destruct (mAsks s !! id) as [oa|] eqn:Hasks; simpl.
  - destruct (0 <? r) eqn:Hr; simpl.
    + unfold OrderStatusMessageHandler, count; simpl.
      rewrite lookup_insert_eq; simpl.
      rewrite lookup_total_insert_eq; simpl.
      rewrite Hr, !Z.sub_diag; simpl.
      rewrite Z.sub_0_r, sint64_idemp, insert_insert_eq. reflexivity.
    + assert (mBids s !! id = None) as Hbids.
      { destruct (mBids s !! id) eqn:E; [|done]. exfalso. apply Hboth. eauto. }
      unfold OrderStatusMessageHandler, count; simpl.
      by rewrite lookup_delete_eq, Hbids.
  - destruct (mBids s !! id) as [ob|] eqn:Hbids; simpl.
    + destruct (0 <? r) eqn:Hr; simpl.
      * unfold OrderStatusMessageHandler, count; simpl.
        rewrite Hasks, lookup_insert_eq; simpl.
        rewrite lookup_total_insert_eq; simpl.
        rewrite Hr, !Z.sub_diag; simpl.
        rewrite Z.sub_0_r, sint64_idemp, insert_insert_eq. reflexivity.
      * unfold OrderStatusMessageHandler, count; simpl.
        by rewrite Hasks, lookup_delete_eq.
    + unfold OrderStatusMessageHandler, count. by rewrite Hasks, Hbids.
Qed.

(** C4 at a concrete input: a buy quote has 3 lots filled of 10; a further
    status update for it reports a fill volume of 2, below the stored 3.
    The difference is taken in [unsigned long], so the test [dFilled > 0]
    passes: a hedge order for 2^64 - 1 lots is sent and [mETFPosition] goes
    from 3 to 2. *)
Lemma status_with_lower_fill_hedges :
  let s := fst (run partly_filled_buy initial) in
  mBids s !! 1 = Some (mkOrder 9900 7 3 false)
  /\ mETFPosition s = 3
  /\ OrderStatusMessageHandler 1 2 7 0 s
     = (mkAutoTrader 4 1 0 7 0 1 2 ∅ {[1 := mkOrder 9900 7 2 false]},
        [SendHedgeOrder 3 SELL MIN_BID_NEARST_TICK 18446744073709551615]).
Proof. vm_compute. repeat split; reflexivity. Qed.

(** *** Order errors *)

(** C3 at a concrete input: a buy quote has 3 lots filled of 10, then the
    exchange reports an error for it.  The order leaves the ledger and the
    counters are corrected, but the zero fill volume is below the stored 3:
    a hedge order for 2^64 - 3 lots is sent and [mETFPosition] goes from 3
    to 0. *)
Lemma error_on_partly_filled_order_hedges :
  let s := fst (run partly_filled_buy initial) in
  mBids s !! 1 = Some (mkOrder 9900 7 3 false)
  /\ mETFPosition s = 3
  /\ ErrorMessageHandler 1 "rejected" s
     = (mkAutoTrader 4 1 0 0 0 0 0 ∅ ∅,
        [SendHedgeOrder 3 SELL MIN_BID_NEARST_TICK 18446744073709551613]).
Proof. vm_compute. repeat split; reflexivity. Qed.

(** An error for a tracked, nonzero id is the status update (0, 0). *)
Lemma ErrorMessageHandler_tracked id msg s :
  id <> 0 -> is_Some (tracked s id) ->
  ErrorMessageHandler id msg s = OrderStatusMessageHandler id 0 0 0 s.
Proof.
  intros Hid [o Ho]. unfold ErrorMessageHandler, count.
  apply Z.eqb_neq in Hid. rewrite Hid. cbn [negb andb].
  revert Ho. unfold tracked.
  destruct (mAsks s !! id); [done|]. by intros ->.
Qed.

(** For a buy order with no recorded fill it does what C3 says: the order
    leaves the ledger, the counter and the committed volume are corrected,
    the position stays and nothing is sent. *)
Lemma ErrorMessageHandler_unfilled_buy id msg s o :
  id <> 0 -> mAsks s !! id = None -> mBids s !! id = Some o ->
  filledVolume o = 0 -> 0 <= remainingVolume o < 2 ^ 62 ->
  - 2 ^ 63 <= mETFPosition s < 2 ^ 63 ->
  - 2 ^ 62 <= mETFOrderPositionBuy s < 2 ^ 62 ->
  ErrorMessageHandler id msg s
  = (mkAutoTrader (mNextMessageId s) (mOrderBookSequence s)
       (mETFOrderPositionSell s)
       (mETFOrderPositionBuy s - remainingVolume o)
       (mETFOrderAskCount s) (wrap32 (mETFOrderBidCount s - 1))
       (mETFPosition s) (mAsks s) (delete id (mBids s)),
     []).
Proof.
  intros Hid Ha Hb Hf Hr HP HB.
  rewrite ErrorMessageHandler_tracked;
    [|done|unfold tracked; rewrite Ha, Hb; eauto].
  rewrite (OrderStatusMessageHandler_buy id 0 0 0 s o Ha Hb)
    by (rewrite ?Hf; lia).
  rewrite Hf. change (0 - 0) with 0. change (0 <? 0) with false. cbv iota.
  by rewrite Z.add_0_r, Z.sub_0_r.
Qed.

Lemma ErrorMessageHandler_unfilled_sell id msg s o :
  id <> 0 -> mAsks s !! id = Some o ->
  filledVolume o = 0 -> 0 <= remainingVolume o < 2 ^ 62 ->
  - 2 ^ 63 <= mETFPosition s < 2 ^ 63 ->
  - 2 ^ 62 <= mETFOrderPositionSell s < 2 ^ 62 ->
  ErrorMessageHandler id msg s
  = (mkAutoTrader (mNextMessageId s) (mOrderBookSequence s)
       (mETFOrderPositionSell s - remainingVolume o)
       (mETFOrderPositionBuy s)
       (wrap32 (mETFOrderAskCount s - 1)) (mETFOrderBidCount s)
       (mETFPosition s) (delete id (mAsks s)) (mBids s),
     []).
Proof.
  intros Hid Ha Hf Hr HP HS.
  rewrite ErrorMessageHandler_tracked;
    [|done|unfold tracked; rewrite Ha; eauto].
  rewrite (OrderStatusMessageHandler_sell id 0 0 0 s o Ha)
    by (rewrite ?Hf; lia).
  rewrite Hf. change (0 - 0) with 0. change (0 <? 0) with false. cbv iota.
  by rewrite !Z.sub_0_r.
Qed.

(** *** Runs stay within the reachable states *)

Lemma reachable_run es : forall s, reachable s -> reachable (fst (run es s)).
Proof.
  induction es as [|e es IH]; intros s Hs; [done|]. cbn [run].
  pose proof (reachable_step s e Hs) as Hs1.
  destruct (handle e s) as [s1 sent1]. cbn [fst] in Hs1.
  specialize (IH s1 Hs1). by destruct (run es s1).
Qed.

(** ** Further properties of the handlers *)

(** *** More on the scans *)

Lemma set_cancelling_live o : cancelling o = true -> set_cancelling o = o.
Proof. destruct o as [p r f c]. cbn. by intros ->. Qed.

Lemma sell_scan_step_exists target st e :
  sc_alreadyExists (sell_scan_step target st e)
  = sc_alreadyExists st || live_at target e.2.
Proof.
  destruct e as [k o]. unfold sell_scan_step, live_at; cbn [snd].
  destruct (cancelling o); cbn [negb andb]; [by rewrite orb_false_r|].
  destruct (price o =? target); repeat case_match;
    cbn [sc_alreadyExists]; by rewrite ?orb_true_r, ?orb_false_r.
Qed.

Lemma buy_scan_step_exists target st e :
  sc_alreadyExists (buy_scan_step target st e)
  = sc_alreadyExists st || live_at target e.2.
Proof.
  destruct e as [k o]. unfold buy_scan_step, live_at; cbn [snd].
  destruct (cancelling o); cbn [negb andb]; [by rewrite orb_false_r|].
  destruct (price o =? target); repeat case_match;
    cbn [sc_alreadyExists]; by rewrite ?orb_true_r, ?orb_false_r.
Qed.

Lemma foldl_scan_exists (step : Scan -> Z * Order -> Scan) Q l :
  (forall st e, sc_alreadyExists (step st e) = sc_alreadyExists st || Q e.2) ->
  forall st,
    sc_alreadyExists (foldl step st l)
    = sc_alreadyExists st || existsb (fun e => Q e.2) l.
Proof.
  intros Hstep. induction l as [|e l IH]; intros st; cbn [foldl existsb].
  - by rewrite orb_false_r.
  - by rewrite IH, Hstep, orb_assoc.
Qed.

Lemma existsb_ledger Q (m : gmap Z Order) :
  existsb (fun e : Z * Order => Q e.2) (map_to_list m) = true
  <-> exists k o, m !! k = Some o /\ Q o = true.
Proof.
  rewrite existsb_exists. split.
  - intros [[k o] [Hin HQ]]. exists k, o. split; [|done].
    by apply elem_of_map_to_list, list_elem_of_In.
  - intros (k & o & Hk & HQ). exists (k, o). split; [|done].
    by apply list_elem_of_In, elem_of_map_to_list.
Qed.

Lemma make_room_exists sentinel n st :
  sc_alreadyExists (make_room sentinel n st) = sc_alreadyExists st.
Proof. unfold make_room. by case_match. Qed.

(** The flag of a pass says whether the ledger held a live order at the
    target before the pass. *)
Lemma sell_pass_exists target n asks :
  sc_alreadyExists (make_room MIN_ORDER n (sell_scan target asks)) = true
  <-> exists k o, asks !! k = Some o /\ live_at target o = true.
Proof.
  rewrite make_room_exists. unfold sell_scan.
  rewrite (foldl_scan_exists _ (live_at target)
             (map_to_list asks) (sell_scan_step_exists target)).
  cbn [sc_alreadyExists orb]. apply existsb_ledger.
Qed.

Lemma buy_pass_exists target n bids :
  sc_alreadyExists (make_room MAX_ORDER n (buy_scan target bids)) = true
  <-> exists k o, bids !! k = Some o /\ live_at target o = true.
Proof.
  rewrite make_room_exists. unfold buy_scan.
  rewrite (foldl_scan_exists _ (live_at target)
             (map_to_list bids) (buy_scan_step_exists target)).
  cbn [sc_alreadyExists orb]. apply existsb_ledger.
Qed.

(** The order a scan points at is an entry of the ledger that is live and
    was not pulled by the scan. *)
Lemma foldl_scan_target (step : Scan -> Z * Order -> Scan) P l0 l :
  (forall st e,
     sc_order (step st e) = sc_order st /\ sc_orderId (step st e) = sc_orderId st
     \/ sc_order (step st e) = PtrEntry e.1 /\ sc_orderId (step st e) = e.1
        /\ cancelling e.2 = false /\ P e.2 = false) ->
  (forall e, In e l -> In e l0) ->
  forall st,
    (sc_order st = PtrSentinel /\ sc_orderId st = 0
     \/ exists e, In e l0 /\ sc_order st = PtrEntry e.1 /\ sc_orderId st = e.1
                  /\ cancelling e.2 = false /\ P e.2 = false) ->
    sc_order (foldl step st l) = PtrSentinel /\ sc_orderId (foldl step st l) = 0
    \/ exists e, In e l0 /\ sc_order (foldl step st l) = PtrEntry e.1
                 /\ sc_orderId (foldl step st l) = e.1
                 /\ cancelling e.2 = false /\ P e.2 = false.
Proof.
  intros Hstep. induction l as [|e l IH]; intros Hsub st Hst; cbn [foldl];
    [done|].
  apply IH; [intros e' He'; apply Hsub; by right|].
  destruct (Hstep st e) as [[-> ->]|(-> & -> & Hl & HP)]; [done|].
  right. exists e. split; [apply Hsub; by left|done].
Qed.

Lemma sell_scan_target target asks :
  sc_orderId (sell_scan target asks) = 0
  \/ exists o,
       asks !! sc_orderId (sell_scan target asks) = Some o
       /\ sc_order (sell_scan target asks)
          = PtrEntry (sc_orderId (sell_scan target asks))
       /\ cancelling o = false /\ live_below target o = false.
Proof.
  unfold sell_scan.
  destruct (foldl_scan_target (sell_scan_step target) (live_below target)
              (map_to_list asks) (map_to_list asks)) with
    (st := mkScan asks [] 0 PtrSentinel false)
    as [[_ H0]|([k o] & Hin & Hp & Hid & Hl & HP)].
  - intros st [k o]. unfold sell_scan_step, live_below. cbn [fst snd].
    destruct (cancelling o) eqn:Hc; [by left|].
    destruct (price o <? target) eqn:Hlt; cbn [sc_order sc_orderId];
      [by left|].
    case_match; cbn [sc_order sc_orderId]; [|by left].
    by right.
  - done.
  - by left.
  - by left.
  - right. exists o. cbn [fst snd] in *. rewrite Hid.
    split; [by apply elem_of_map_to_list, list_elem_of_In|].
    by rewrite Hp.
Qed.

Lemma buy_scan_target target bids :
  sc_orderId (buy_scan target bids) = 0
  \/ exists o,
       bids !! sc_orderId (buy_scan target bids) = Some o
       /\ sc_order (buy_scan target bids)
          = PtrEntry (sc_orderId (buy_scan target bids))
       /\ cancelling o = false /\ live_above target o = false.
Proof.
  unfold buy_scan.
  destruct (foldl_scan_target (buy_scan_step target) (live_above target)
              (map_to_list bids) (map_to_list bids)) with
    (st := mkScan bids [] 0 PtrSentinel false)
    as [[_ H0]|([k o] & Hin & Hp & Hid & Hl & HP)].
  - intros st [k o]. unfold buy_scan_step, live_above. cbn [fst snd].
    destruct (cancelling o) eqn:Hc; [by left|].
    destruct (target <? price o) eqn:Hlt; cbn [sc_order sc_orderId];
      [by left|].
    case_match; cbn [sc_order sc_orderId]; [|by left].
    by right.
  - done.
  - by left.
  - by left.
  - right. exists o. cbn [fst snd] in *. rewrite Hid.
    split; [by apply elem_of_map_to_list, list_elem_of_In|].
    by rewrite Hp.
Qed.

(** *** What a pass leaves of the orders it found *)

Lemma make_room_lookup sentinel n st k :
  sc_ledger (make_room sentinel n st) !! k = sc_ledger st !! k
  \/ sc_ledger (make_room sentinel n st) !! k
     = set_cancelling <$> sc_ledger st !! k.
Proof.
  unfold make_room. case_match; cbn [sc_ledger]; [|by left].
  destruct (sc_order st) as [|k']; cbn [store_cancelling]; [by left|].
  rewrite lookup_alter. case_decide; [subst k'; by right|by left].
Qed.

Lemma pass_lookup P sentinel n st (m : gmap Z Order) k :
  sc_ledger st = pull_if P <$> m ->
  sc_ledger (make_room sentinel n st) !! k = m !! k
  \/ sc_ledger (make_room sentinel n st) !! k = set_cancelling <$> m !! k.
Proof.
  intros Hst.
  assert (sc_ledger st !! k = m !! k
          \/ sc_ledger st !! k = set_cancelling <$> m !! k) as Hscan.
  { rewrite Hst, lookup_fmap. destruct (m !! k) as [o|]; cbn; [|by left].
    unfold pull_if. destruct (P o); [by right|by left]. }
  destruct (make_room_lookup sentinel n st k) as [->| ->]; [done|].
  right. destruct Hscan as [->| ->]; [done|].
  destruct (m !! k) as [o|]; cbn; [|done]. by rewrite set_cancelling_idemp.
Qed.

Lemma pass_live_lookup P sentinel n st (m : gmap Z Order) k o :
  sc_ledger st = pull_if P <$> m ->
  sc_ledger (make_room sentinel n st) !! k = Some o -> cancelling o = false ->
  m !! k = Some o.
Proof.
  intros Hst Hk Hlive.
  destruct (pass_lookup P sentinel n st m k Hst) as [Heq|Heq];
    rewrite Heq in Hk; [done|].
  destruct (m !! k) as [o'|]; cbn in Hk; [|done].
  injection Hk as <-. cbn in Hlive. done.
Qed.

Lemma RepriceSellOrders_next ap av s :
  mNextMessageId (fst (RepriceSellOrders ap av s)) = mNextMessageId s
  \/ mNextMessageId (fst (RepriceSellOrders ap av s))
     = wrap64 (mNextMessageId s + 1).
Proof. unfold RepriceSellOrders. case_match; [by left|by right]. Qed.

Lemma RepriceSellOrders_keeps ap av s id o :
  id <> mNextMessageId s -> mAsks s !! id = Some o ->
  mAsks (fst (RepriceSellOrders ap av s)) !! id = Some o
  \/ cancelling o = false
     /\ mAsks (fst (RepriceSellOrders ap av s)) !! id = Some (set_cancelling o).
Proof.
  intros Hid Ho.
  assert (forall L : gmap Z Order,
            L !! id = mAsks s !! id \/ L !! id = set_cancelling <$> mAsks s !! id ->
            L !! id = Some o
            \/ cancelling o = false /\ L !! id = Some (set_cancelling o)) as Hcase.
  { intros L. rewrite Ho. cbn. intros [->| ->]; [by left|].
    destruct (cancelling o) eqn:Hc; [left|by right].
    by rewrite set_cancelling_live. }
  unfold RepriceSellOrders. case_match; cbn [fst mAsks].
  - apply Hcase, (pass_lookup (live_below (newAskPrice ap))), sell_scan_ledger.
  - rewrite lookup_insert_ne by done.
    apply Hcase, (pass_lookup (live_below (newAskPrice ap))), sell_scan_ledger.
Qed.

Lemma RepriceBuyOrders_keeps bp bv s id o :
  id <> mNextMessageId s -> mBids s !! id = Some o ->
  mBids (fst (RepriceBuyOrders bp bv s)) !! id = Some o
  \/ cancelling o = false
     /\ mBids (fst (RepriceBuyOrders bp bv s)) !! id = Some (set_cancelling o).
Proof.
  intros Hid Ho.
  assert (forall L : gmap Z Order,
            L !! id = mBids s !! id \/ L !! id = set_cancelling <$> mBids s !! id ->
            L !! id = Some o
            \/ cancelling o = false /\ L !! id = Some (set_cancelling o)) as Hcase.
  { intros L. rewrite Ho. cbn. intros [->| ->]; [by left|].
    destruct (cancelling o) eqn:Hc; [left|by right].
    by rewrite set_cancelling_live. }
  unfold RepriceBuyOrders. case_match; cbn [fst mBids].
  - apply Hcase, (pass_lookup (live_above (newBidPrice bp))), buy_scan_ledger.
  - rewrite lookup_insert_ne by done.
    apply Hcase, (pass_lookup (live_above (newBidPrice bp))), buy_scan_ledger.
Qed.

(** X1: a book update, of any instrument and sequence number, keeps every
    order it finds in a ledger under an id other than the next two message
    ids: the order stays under its id with its price and volumes, and the
    only thing that can change is its [cancelling] flag, from false to
    true. *)
Theorem book_update_keeps_orders i n ap av bp bv s id o :
  id <> mNextMessageId s -> id <> wrap64 (mNextMessageId s + 1) ->
  (mAsks s !! id = Some o ->
     mAsks (fst (OrderBookMessageHandler i n ap av bp bv s)) !! id = Some o
     \/ cancelling o = false
        /\ mAsks (fst (OrderBookMessageHandler i n ap av bp bv s)) !! id
           = Some (set_cancelling o))
  /\ (mBids s !! id = Some o ->
        mBids (fst (OrderBookMessageHandler i n ap av bp bv s)) !! id = Some o
        \/ cancelling o = false
           /\ mBids (fst (OrderBookMessageHandler i n ap av bp bv s)) !! id
              = Some (set_cancelling o)).
Proof.
  intros Hid1 Hid2. unfold OrderBookMessageHandler.
  destruct (n <=? mOrderBookSequence s); [split; by left|].
  destruct (negb (Instrument_eqb i FUTURE)); [split; by left|].
  generalize (RepriceSellOrders_frame ap av
    (mkAutoTrader (mNextMessageId s) n (mETFOrderPositionSell s)
       (mETFOrderPositionBuy s) (mETFOrderAskCount s) (mETFOrderBidCount s)
       (mETFPosition s) (mAsks s) (mBids s))).
  generalize (RepriceSellOrders_next ap av
    (mkAutoTrader (mNextMessageId s) n (mETFOrderPositionSell s)
       (mETFOrderPositionBuy s) (mETFOrderAskCount s) (mETFOrderBidCount s)
       (mETFPosition s) (mAsks s) (mBids s))).
  generalize (fun H => RepriceSellOrders_keeps ap av
    (mkAutoTrader (mNextMessageId s) n (mETFOrderPositionSell s)
       (mETFOrderPositionBuy s) (mETFOrderAskCount s) (mETFOrderBidCount s)
       (mETFPosition s) (mAsks s) (mBids s)) id o H).
  cbn [mAsks mBids mETFOrderAskCount mETFOrderBidCount mETFOrderPositionSell
       mETFOrderPositionBuy mETFPosition mOrderBookSequence mNextMessageId].
  destruct (RepriceSellOrders ap av _) as [s2 sent2]. cbv zeta. cbn [fst snd].
  intros Hkeep2 Hnext2 (F1 & _).
  pose proof (RepriceBuyOrders_frame bp bv s2) as (G1 & _).
  pose proof (RepriceBuyOrders_keeps bp bv s2 id o) as Hkeep3.
  destruct (RepriceBuyOrders bp bv s2) as [s3 sent3]. cbn [fst snd] in *.
  split.
  - intros Ho. rewrite G1. by apply Hkeep2.
  - intros Ho. apply Hkeep3; [|by rewrite F1].
    by destruct Hnext2 as [->| ->].
Qed.

(** *** The cancel requests of a pass *)

Lemma cancels_of_In P l id :
  In (SendCancelOrder id) (cancels_of P l)
  <-> exists o, In (id, o) l /\ P o = true.
Proof.
  unfold cancels_of. rewrite in_flat_map. split.
  - intros ([k o] & Hin & Hr). cbn [fst snd] in Hr.
    destruct (P o) eqn:HP; [|done]. destruct Hr as [[= ->]|[]]. by exists o.
  - intros (o & Hin & HP). exists (id, o). split; [done|].
    cbn [fst snd]. rewrite HP. by left.
Qed.

Lemma cancels_of_NoDup P (l : list (Z * Order)) :
  NoDup l.*1 -> NoDup (cancels_of P l).
Proof.
  induction l as [|[k o] l IH]; cbn [fmap list_fmap fst]; intros Hnd.
  - constructor.
  - apply NoDup_cons in Hnd as [Hk Hnd]. specialize (IH Hnd).
    unfold cancels_of. cbn [flat_map fst snd]. fold (cancels_of P l).
    destruct (P o); cbn [app]; [|done].
    apply NoDup_cons. split; [|done].
    intros Hin. apply list_elem_of_In, cancels_of_In in Hin as (o' & Hin & _).
    apply Hk. apply list_elem_of_fmap. exists (k, o'). split; [done|].
    by apply list_elem_of_In.
Qed.

Lemma pass_cancels P sentinel n (m : gmap Z Order) st :
  sc_sent st = cancels_of P (map_to_list m) ->
  (sc_orderId st = 0
   \/ exists o, m !! sc_orderId st = Some o
                /\ cancelling o = false /\ P o = false) ->
  (forall o, P o = true -> cancelling o = false) ->
  NoDup (sc_sent (make_room sentinel n st))
  /\ forall id, In (SendCancelOrder id) (sc_sent (make_room sentinel n st)) ->
       exists o, m !! id = Some o /\ cancelling o = false.
Proof.
  intros Hsent Htarget HP.
  assert (NoDup (sc_sent st)) as Hnd.
  { rewrite Hsent. apply cancels_of_NoDup, NoDup_fst_map_to_list. }
  assert (forall id, In (SendCancelOrder id) (sc_sent st) ->
            exists o, m !! id = Some o /\ P o = true) as Hscan.
  { intros id. rewrite Hsent, cancels_of_In. intros (o & Hin & Ho).
    exists o. split; [|done]. by apply elem_of_map_to_list, list_elem_of_In. }
  unfold make_room. destruct (_ && _ && _) eqn:Hroom; cbn [sc_sent].
  - apply andb_true_iff in Hroom as [Hroom _].
    apply andb_true_iff in Hroom as [Hid _].
    apply negb_true_iff, Z.eqb_neq in Hid.
    destruct Htarget as [H0|(o & Ho & Hlive & Hnot)]; [done|]. split.
    + apply NoDup_app. split; [done|]. split; [|apply NoDup_singleton].
      intros r Hr Hr'. apply list_elem_of_In in Hr.
      apply list_elem_of_In in Hr'. destruct Hr' as [<-|[]].
      apply Hscan in Hr as (o' & Ho' & HP'). congruence.
    + intros id Hin. apply in_app_or in Hin as [Hin|[[= <-]|[]]].
      * apply Hscan in Hin as (o' & Ho' & HP'). exists o'. auto.
      * by exists o.
  - split; [done|]. intros id Hin.
    apply Hscan in Hin as (o' & Ho' & HP'). exists o'. auto.
Qed.

Lemma NoDup_snoc_insert (l : list Request) r :
  NoDup l -> (forall x, In x l -> is_insert x = false) -> is_insert r = true ->
  NoDup (l ++ [r]).
Proof.
  intros Hnd Hl Hr. apply NoDup_app. split; [done|].
  split; [|apply NoDup_singleton].
  intros x Hx Hx'. apply list_elem_of_In in Hx. apply list_elem_of_In in Hx'.
  destruct Hx' as [<-|[]]. apply Hl in Hx. congruence.
Qed.

(** X2: a repricing pass never sends the same request twice, and every
    cancel request it sends names an order that was in the pass's ledger
    and was not cancelling when the pass began. *)
Theorem cancels_are_for_live_orders ap av bp bv s :
  (NoDup (snd (RepriceSellOrders ap av s))
   /\ forall id, In (SendCancelOrder id) (snd (RepriceSellOrders ap av s)) ->
        exists o, mAsks s !! id = Some o /\ cancelling o = false)
  /\ (NoDup (snd (RepriceBuyOrders bp bv s))
      /\ forall id, In (SendCancelOrder id) (snd (RepriceBuyOrders bp bv s)) ->
           exists o, mBids s !! id = Some o /\ cancelling o = false).
Proof.
  split.
  - destruct (pass_cancels (live_below (newAskPrice ap)) MIN_ORDER
                (mETFOrderAskCount s) (mAsks s)
                (sell_scan (newAskPrice ap) (mAsks s))) as [Hnd Hc].
    { apply sell_scan_sent. }
    { destruct (sell_scan_target (newAskPrice ap) (mAsks s))
        as [H0|(o & Ho & _ & Hl & HP)]; [by left|right; by exists o]. }
    { intros o Ho. unfold live_below in Ho.
      apply andb_true_iff in Ho as [Ho _]. by apply negb_true_iff. }
    unfold RepriceSellOrders. case_match; cbn [snd]; [done|]. split.
    + apply NoDup_snoc_insert; [done| |done].
      intros x Hx. by apply sell_pass_no_insert in Hx.
    + intros id Hin. apply in_app_or in Hin as [Hin|[[=]|[]]]. by apply Hc.
  - destruct (pass_cancels (live_above (newBidPrice bp)) MAX_ORDER
                (mETFOrderBidCount s) (mBids s)
                (buy_scan (newBidPrice bp) (mBids s))) as [Hnd Hc].
    { apply buy_scan_sent. }
    { destruct (buy_scan_target (newBidPrice bp) (mBids s))
        as [H0|(o & Ho & _ & Hl & HP)]; [by left|right; by exists o]. }
    { intros o Ho. unfold live_above in Ho.
      apply andb_true_iff in Ho as [Ho _]. by apply negb_true_iff. }
    unfold RepriceBuyOrders. case_match; cbn [snd]; [done|]. split.
    + apply NoDup_snoc_insert; [done| |done].
      intros x Hx. by apply buy_pass_no_insert in Hx.
    + intros id Hin. apply in_app_or in Hin as [Hin|[[=]|[]]]. by apply Hc.
Qed.

(** *** No two live quotes at one price *)

Lemma quotes_distinct_pass P sentinel n st (m : gmap Z Order) :
  sc_ledger st = pull_if P <$> m ->
  quotes_distinct m -> quotes_distinct (sc_ledger (make_room sentinel n st)).
Proof.
  intros Hst Hm i j oi oj Hi Hj Hli Hlj Hp.
  apply (Hm i j oi oj); try done.
  - by apply (pass_live_lookup P sentinel n st m i oi).
  - by apply (pass_live_lookup P sentinel n st m j oj).
Qed.

Lemma quotes_distinct_insert_new (m : gmap Z Order) k o :
  quotes_distinct m ->
  (forall j oj, m !! j = Some oj -> cancelling oj = false ->
                price oj <> price o) ->
  quotes_distinct (<[k := o]> m).
Proof.
  intros Hm Hnew i j oi oj. rewrite !lookup_insert.
  case_decide as Hi; case_decide as Hj; try congruence.
  - intros [= <-] Hoj _ Hlj Hp. exfalso. by apply (Hnew j oj).
  - intros Hoi [= <-] Hli _ Hp. exfalso. by apply (Hnew i oi).
  - apply Hm.
Qed.

Lemma quotes_distinct_update (m : gmap Z Order) k o r f :
  m !! k = Some o -> quotes_distinct m ->
  quotes_distinct (<[k := mkOrder (price o) r f (cancelling o)]> m).
Proof.
  intros Hk Hm i j oi oj. rewrite !lookup_insert.
  case_decide as Hi; case_decide as Hj; try congruence.
  - intros [= <-] Hoj Hli Hlj Hp. cbn in *. subst i.
    by apply (Hm k j o oj).
  - intros Hoi [= <-] Hli Hlj Hp. cbn in *. subst j.
    by apply (Hm i k oi o).
  - apply Hm.
Qed.

Lemma quotes_distinct_delete (m : gmap Z Order) k :
  quotes_distinct m -> quotes_distinct (delete k m).
Proof.
  intros Hm i j oi oj. rewrite !lookup_delete.
  case_decide; [done|]. case_decide; [done|]. apply Hm.
Qed.

Lemma RepriceSellOrders_distinct ap av s :
  quotes_distinct (mAsks s) ->
  quotes_distinct (mAsks (fst (RepriceSellOrders ap av s))).
Proof.
  intros Hm. unfold RepriceSellOrders.
  pose proof (quotes_distinct_pass (live_below (newAskPrice ap)) MIN_ORDER
                (mETFOrderAskCount s) _ (mAsks s)
                (sell_scan_ledger (newAskPrice ap) (mAsks s)) Hm) as HL.
  destruct (_ || _ || _ || _) eqn:Hgate; cbn [fst mAsks]; [done|].
  apply quotes_distinct_insert_new; [done|].
  intros j oj Hj Hlive Hp. cbn [price] in Hp.
  apply orb_false_iff in Hgate as [Hgate _].
  apply orb_false_iff in Hgate as [Hgate _].
  apply orb_false_iff in Hgate as [Hex _].
  apply not_true_iff_false in Hex. apply Hex, sell_pass_exists.
  exists j, oj. split.
  - by apply (pass_live_lookup (live_below (newAskPrice ap)) MIN_ORDER
                (mETFOrderAskCount s) _ (mAsks s) j oj
                (sell_scan_ledger (newAskPrice ap) (mAsks s))).
  - unfold live_at. rewrite Hlive, Hp. cbn [negb andb]. apply Z.eqb_refl.
Qed.

Lemma RepriceBuyOrders_distinct bp bv s :
  quotes_distinct (mBids s) ->
  quotes_distinct (mBids (fst (RepriceBuyOrders bp bv s))).
Proof.
  intros Hm. unfold RepriceBuyOrders.
  pose proof (quotes_distinct_pass (live_above (newBidPrice bp)) MAX_ORDER
                (mETFOrderBidCount s) _ (mBids s)
                (buy_scan_ledger (newBidPrice bp) (mBids s)) Hm) as HL.
  destruct (_ || _ || _ || _) eqn:Hgate; cbn [fst mBids]; [done|].
  apply quotes_distinct_insert_new; [done|].
  intros j oj Hj Hlive Hp. cbn [price] in Hp.
  apply orb_false_iff in Hgate as [Hgate _].
  apply orb_false_iff in Hgate as [Hgate _].
  apply orb_false_iff in Hgate as [Hex _].
  apply not_true_iff_false in Hex. apply Hex, buy_pass_exists.
  exists j, oj. split.
  - by apply (pass_live_lookup (live_above (newBidPrice bp)) MAX_ORDER
                (mETFOrderBidCount s) _ (mBids s) j oj
                (buy_scan_ledger (newBidPrice bp) (mBids s))).
  - unfold live_at. rewrite Hlive, Hp. cbn [negb andb]. apply Z.eqb_refl.
Qed.

Lemma OrderBookMessageHandler_distinct i n ap av bp bv s :
  quotes_distinct (mAsks s) /\ quotes_distinct (mBids s) ->
  quotes_distinct (mAsks (fst (OrderBookMessageHandler i n ap av bp bv s)))
  /\ quotes_distinct (mBids (fst (OrderBookMessageHandler i n ap av bp bv s))).
Proof.
  intros [Ha Hb]. unfold OrderBookMessageHandler.
  destruct (n <=? mOrderBookSequence s); [done|].
  destruct (negb (Instrument_eqb i FUTURE)); [done|].
  generalize (RepriceSellOrders_frame ap av
    (mkAutoTrader (mNextMessageId s) n (mETFOrderPositionSell s)
       (mETFOrderPositionBuy s) (mETFOrderAskCount s) (mETFOrderBidCount s)
       (mETFPosition s) (mAsks s) (mBids s))).
  generalize (fun H => RepriceSellOrders_distinct ap av
    (mkAutoTrader (mNextMessageId s) n (mETFOrderPositionSell s)
       (mETFOrderPositionBuy s) (mETFOrderAskCount s) (mETFOrderBidCount s)
       (mETFPosition s) (mAsks s) (mBids s)) H).
  cbn [mAsks mBids mETFOrderAskCount mETFOrderBidCount mETFOrderPositionSell
       mETFOrderPositionBuy mETFPosition mOrderBookSequence mNextMessageId].
  destruct (RepriceSellOrders ap av _) as [s2 sent2]. cbv zeta. cbn [fst snd].
  intros Hd2 (F1 & _).
  pose proof (RepriceBuyOrders_frame bp bv s2) as (G1 & _).
  pose proof (RepriceBuyOrders_distinct bp bv s2) as Hd3.
  destruct (RepriceBuyOrders bp bv s2) as [s3 sent3]. cbn [fst snd] in *.
  split; [rewrite G1; by apply Hd2|]. apply Hd3. by rewrite F1.
Qed.

Lemma OrderStatusMessageHandler_distinct id f r fees s :
  quotes_distinct (mAsks s) /\ quotes_distinct (mBids s) ->
  quotes_distinct (mAsks (fst (OrderStatusMessageHandler id f r fees s)))
  /\ quotes_distinct (mBids (fst (OrderStatusMessageHandler id f r fees s))).
Proof.
  intros [Ha Hb]. unfold OrderStatusMessageHandler, count.
  destruct (mAsks s !! id) as [o|] eqn:Hasks; cbn [Z.eqb negb andb].
  - rewrite (lookup_total_correct _ _ _ Hasks). cbn [fst mAsks mBids].
    split; [|done]. destruct (0 <? r); cbn [negb].
    + by apply quotes_distinct_update.
    + by apply quotes_distinct_delete.
  - destruct (mBids s !! id) as [o|] eqn:Hbids; cbn [Z.eqb negb andb]; [|done].
    rewrite (lookup_total_correct _ _ _ Hbids). cbn [fst mAsks mBids].
    split; [done|]. destruct (0 <? r); cbn [negb].
    + by apply quotes_distinct_update.
    + by apply quotes_distinct_delete.
Qed.

Lemma handle_distinct e s :
  quotes_distinct (mAsks s) /\ quotes_distinct (mBids s) ->
  quotes_distinct (mAsks (fst (handle e s)))
  /\ quotes_distinct (mBids (fst (handle e s))).
Proof.
  intros H. destruct e; cbn [handle]; try done.
  - by apply OrderBookMessageHandler_distinct.
  - by apply OrderStatusMessageHandler_distinct.
  - unfold ErrorMessageHandler. destruct (_ && _); [|done].
    by apply OrderStatusMessageHandler_distinct.
Qed.

(** X3: in every reachable state, two different orders of the same ledger
    that are both live (not cancelling) have different prices: the engine
    never holds two live quotes at one price on a side. *)
Theorem no_two_live_quotes_at_one_price s :
  reachable s -> quotes_distinct (mAsks s) /\ quotes_distinct (mBids s).
Proof.
  induction 1 as [|s e _ IH]; [|by apply handle_distinct].
  split; intros i j oi oj Hi; cbn [initial mAsks mBids] in Hi;
    by rewrite lookup_empty in Hi.
Qed.

(** *** The placement gates *)

Lemma no_live_at_iff target (m : gmap Z Order) :
  ~ (exists k o, m !! k = Some o /\ live_at target o = true)
  <-> forall k o, m !! k = Some o -> cancelling o = false -> price o <> target.
Proof.
  unfold live_at. split.
  - intros Hno k o Hk Hl Hp. apply Hno. exists k, o. split; [done|].
    rewrite Hl, Hp. cbn [negb andb]. apply Z.eqb_refl.
  - intros Hall (k & o & Hk & Hlive).
    apply andb_true_iff in Hlive as [Hl Hp].
    apply negb_true_iff in Hl. apply Z.eqb_eq in Hp. by apply (Hall k o).
Qed.

Lemma sell_gate_false_iff ap s :
  - 2 ^ 61 <= mETFPosition s < 2 ^ 61 ->
  - 2 ^ 61 <= mETFOrderPositionSell s < 2 ^ 61 ->
  sc_alreadyExists
    (make_room MIN_ORDER (mETFOrderAskCount s)
       (sell_scan (newAskPrice ap) (mAsks s)))
  || (sint64 (sint64 (mETFPosition s - mETFOrderPositionSell s) - LOT_SIZE)
      <? - POSITION_LIMIT)
  || (MAX_ORDER_DEPTH <=? mETFOrderAskCount s)
  || (at0 ap =? 0) = false
  <-> sell_gate_open ap s.
Proof.
  intros HP HS. unfold sell_gate_open, LOT_SIZE, POSITION_LIMIT.
  rewrite (sint64_small (mETFPosition s - mETFOrderPositionSell s)) by lia.
  rewrite sint64_small by lia.
  rewrite !orb_false_iff, Z.ltb_ge, Z.leb_gt, Z.eqb_neq.
  rewrite <- no_live_at_iff.
  rewrite <- (sell_pass_exists (newAskPrice ap) (mETFOrderAskCount s)).
  rewrite not_true_iff_false.
  tauto.
Qed.

Lemma buy_gate_false_iff bp s :
  - 2 ^ 61 <= mETFPosition s < 2 ^ 61 ->
  - 2 ^ 61 <= mETFOrderPositionBuy s < 2 ^ 61 ->
  sc_alreadyExists
    (make_room MAX_ORDER (mETFOrderBidCount s)
       (buy_scan (newBidPrice bp) (mBids s)))
  || (POSITION_LIMIT
      <? sint64 (sint64 (mETFPosition s + mETFOrderPositionBuy s) + LOT_SIZE))
  || (MAX_ORDER_DEPTH <=? mETFOrderBidCount s)
  || (at0 bp =? 0) = false
  <-> buy_gate_open bp s.
Proof.
  intros HP HS. unfold buy_gate_open, LOT_SIZE, POSITION_LIMIT.
  rewrite (sint64_small (mETFPosition s + mETFOrderPositionBuy s)) by lia.
  rewrite sint64_small by lia.
  rewrite !orb_false_iff, Z.ltb_ge, Z.leb_gt, Z.eqb_neq.
  rewrite <- no_live_at_iff.
  rewrite <- (buy_pass_exists (newBidPrice bp) (mETFOrderBidCount s)).
  rewrite not_true_iff_false.
  tauto.
Qed.

(** X4: the sell pass places a quote exactly when the best ask is not zero,
    fewer than 5 sell orders are counted, one more lot keeps
    [mETFPosition - mETFOrderPositionSell] at or above -100, and no live
    sell order is priced at the target.  Then it sends one insert request
    under the next message id, at the target, for 10 lots, records that
    order, and moves the counters; otherwise it sends no insert request and
    the message id, the order count, the committed volume and the ids of
    the ledger are as before. *)
Theorem sell_quote_placed_iff ap av s :
  - 2 ^ 61 <= mETFPosition s < 2 ^ 61 ->
  - 2 ^ 61 <= mETFOrderPositionSell s < 2 ^ 61 ->
  (sell_gate_open ap s ->
     In (SendInsertOrder (mNextMessageId s) SELL (newAskPrice ap) LOT_SIZE
           GOOD_FOR_DAY)
        (snd (RepriceSellOrders ap av s))
     /\ mAsks (fst (RepriceSellOrders ap av s)) !! mNextMessageId s
        = Some (mkOrder (newAskPrice ap) LOT_SIZE 0 false)
     /\ mNextMessageId (fst (RepriceSellOrders ap av s))
        = wrap64 (mNextMessageId s + 1)
     /\ mETFOrderAskCount (fst (RepriceSellOrders ap av s))
        = wrap32 (mETFOrderAskCount s + 1)
     /\ mETFOrderPositionSell (fst (RepriceSellOrders ap av s))
        = mETFOrderPositionSell s + LOT_SIZE)
  /\ (~ sell_gate_open ap s ->
        (forall r, In r (snd (RepriceSellOrders ap av s)) ->
                   is_insert r = false)
        /\ mNextMessageId (fst (RepriceSellOrders ap av s)) = mNextMessageId s
        /\ mETFOrderAskCount (fst (RepriceSellOrders ap av s))
           = mETFOrderAskCount s
        /\ mETFOrderPositionSell (fst (RepriceSellOrders ap av s))
           = mETFOrderPositionSell s
        /\ dom (mAsks (fst (RepriceSellOrders ap av s))) = dom (mAsks s)).
Proof.
  intros HP HS. pose proof (sell_gate_false_iff ap s HP HS) as Hgate.
  unfold RepriceSellOrders.
  destruct (_ || _ || _ || _) eqn:Hb; cbn [fst snd mAsks mNextMessageId
    mETFOrderAskCount mETFOrderPositionSell]; split.
  - intros Hopen. apply Hgate in Hopen. done.
  - intros _. split; [intros r Hr; by apply sell_pass_no_insert in Hr|].
    by rewrite make_room_dom, sell_scan_dom.
  - intros _. split; [apply in_or_app; right; by left|].
    split; [apply lookup_insert_eq|]. split; [done|]. split; [done|].
    apply sint64_small. unfold LOT_SIZE. lia.
  - intros Hclosed. exfalso. by apply Hclosed, Hgate.
Qed.

(** X5: the buy pass places a quote exactly when the best bid is not zero,
    fewer than 5 buy orders are counted, one more lot keeps
    [mETFPosition + mETFOrderPositionBuy] at or below 100, and no live buy
    order is priced at the target; the effects are those of the sell pass,
    on the buy side. *)
Theorem buy_quote_placed_iff bp bv s :
  - 2 ^ 61 <= mETFPosition s < 2 ^ 61 ->
  - 2 ^ 61 <= mETFOrderPositionBuy s < 2 ^ 61 ->
  (buy_gate_open bp s ->
     In (SendInsertOrder (mNextMessageId s) BUY (newBidPrice bp) LOT_SIZE
           GOOD_FOR_DAY)
        (snd (RepriceBuyOrders bp bv s))
     /\ mBids (fst (RepriceBuyOrders bp bv s)) !! mNextMessageId s
        = Some (mkOrder (newBidPrice bp) LOT_SIZE 0 false)
     /\ mNextMessageId (fst (RepriceBuyOrders bp bv s))
        = wrap64 (mNextMessageId s + 1)
     /\ mETFOrderBidCount (fst (RepriceBuyOrders bp bv s))
        = wrap32 (mETFOrderBidCount s + 1)
     /\ mETFOrderPositionBuy (fst (RepriceBuyOrders bp bv s))
        = mETFOrderPositionBuy s + LOT_SIZE)
  /\ (~ buy_gate_open bp s ->
        (forall r, In r (snd (RepriceBuyOrders bp bv s)) ->
                   is_insert r = false)
        /\ mNextMessageId (fst (RepriceBuyOrders bp bv s)) = mNextMessageId s
        /\ mETFOrderBidCount (fst (RepriceBuyOrders bp bv s))
           = mETFOrderBidCount s
        /\ mETFOrderPositionBuy (fst (RepriceBuyOrders bp bv s))
           = mETFOrderPositionBuy s
        /\ dom (mBids (fst (RepriceBuyOrders bp bv s))) = dom (mBids s)).
Proof.
  intros HP HS. pose proof (buy_gate_false_iff bp s HP HS) as Hgate.
  unfold RepriceBuyOrders.
  destruct (_ || _ || _ || _) eqn:Hb; cbn [fst snd mBids mNextMessageId
    mETFOrderBidCount mETFOrderPositionBuy]; split.
  - intros Hopen. apply Hgate in Hopen. done.
  - intros _. split; [intros r Hr; by apply buy_pass_no_insert in Hr|].
    by rewrite make_room_dom, buy_scan_dom.
  - intros _. split; [apply in_or_app; right; by left|].
    split; [apply lookup_insert_eq|]. split; [done|]. split; [done|].
    apply sint64_small. unfold LOT_SIZE. lia.
  - intros Hclosed. exfalso. by apply Hclosed, Hgate.
Qed.

(** *** The make-room rule *)

Lemma make_room_idle sentinel n st :
  n < MAX_ORDER_DEPTH - 1 -> make_room sentinel n st = st.
Proof.
  intros Hn. unfold make_room.
  destruct (MAX_ORDER_DEPTH - 1 <=? n) eqn:Hle;
    [apply Z.leb_le in Hle; lia|].
  by rewrite andb_false_r.
Qed.

Lemma idle_pass_untouched P (m : gmap Z Order) id o :
  m !! id = Some o -> P o = false ->
  ~ In (SendCancelOrder id) (cancels_of P (map_to_list m))
  /\ (pull_if P <$> m) !! id = Some o.
Proof.
  intros Hid HP. split.
  - rewrite cancels_of_In. intros (o' & Hin & HP').
    apply list_elem_of_In, elem_of_map_to_list in Hin. congruence.
  - rewrite lookup_fmap, Hid. cbn. unfold pull_if. by rewrite HP.
Qed.

(** X6: while fewer than 4 orders are counted on a side, the make-room
    rule does not fire: a repricing pass sends no cancel request for an
    order that is already cancelling or is priced at or behind the target
    (at or above it for a sell order, at or below it for a buy order), and
    leaves that order as it is (under an id other than the next message
    id). *)
Theorem make_room_needs_four_orders ap av bp bv s id o :
  (mETFOrderAskCount s < 4 -> mAsks s !! id = Some o ->
   cancelling o = true \/ newAskPrice ap <= price o ->
     ~ In (SendCancelOrder id) (snd (RepriceSellOrders ap av s))
     /\ (id <> mNextMessageId s ->
         mAsks (fst (RepriceSellOrders ap av s)) !! id = Some o))
  /\ (mETFOrderBidCount s < 4 -> mBids s !! id = Some o ->
      cancelling o = true \/ price o <= newBidPrice bp ->
        ~ In (SendCancelOrder id) (snd (RepriceBuyOrders bp bv s))
        /\ (id <> mNextMessageId s ->
            mBids (fst (RepriceBuyOrders bp bv s)) !! id = Some o)).
Proof.
  split.
  - intros Hn Hid Hkeep.
    assert (live_below (newAskPrice ap) o = false) as HP.
    { unfold live_below. destruct Hkeep as [->|Hp]; [done|].
      apply andb_false_iff. right. by apply Z.ltb_ge. }
    destruct (idle_pass_untouched _ _ _ _ Hid HP) as [Hno Hlk].
    unfold RepriceSellOrders. rewrite make_room_idle by done.
    rewrite sell_scan_sent, sell_scan_ledger.
    case_match; cbn [fst snd mAsks]; [done|]. split.
    + intros Hin. apply in_app_or in Hin as [Hin|[[=]|[]]]. done.
    + intros Hne. by rewrite lookup_insert_ne.
  - intros Hn Hid Hkeep.
    assert (live_above (newBidPrice bp) o = false) as HP.
    { unfold live_above. destruct Hkeep as [->|Hp]; [done|].
      apply andb_false_iff. right. by apply Z.ltb_ge. }
    destruct (idle_pass_untouched _ _ _ _ Hid HP) as [Hno Hlk].
    unfold RepriceBuyOrders. rewrite make_room_idle by done.
    rewrite buy_scan_sent, buy_scan_ledger.
    case_match; cbn [fst snd mBids]; [done|]. split.
    + intros Hin. apply in_app_or in Hin as [Hin|[[=]|[]]]. done.
    + intros Hne. by rewrite lookup_insert_ne.
Qed.

(** *** More on order-status updates and errors *)

(** X7: an order-status update for a tracked order (the sell ledger is
    looked up first) stores the reported volumes under the order's id and
    keeps its price and [cancelling] flag when the remaining volume is
    positive; otherwise it erases the order and takes one off the side's
    order count.  No other order of that ledger changes, and the other
    side's ledger, count and committed volume stay as they are. *)
Theorem order_status_updates_ledger id f r fees s o :
  (mAsks s !! id = Some o ->
     (0 < r ->
        mAsks (fst (OrderStatusMessageHandler id f r fees s)) !! id
        = Some (mkOrder (price o) r f (cancelling o))
        /\ mETFOrderAskCount (fst (OrderStatusMessageHandler id f r fees s))
           = mETFOrderAskCount s)
     /\ (r <= 0 ->
           mAsks (fst (OrderStatusMessageHandler id f r fees s)) !! id = None
           /\ mETFOrderAskCount (fst (OrderStatusMessageHandler id f r fees s))
              = wrap32 (mETFOrderAskCount s - 1))
     /\ (forall j, j <> id ->
           mAsks (fst (OrderStatusMessageHandler id f r fees s)) !! j
           = mAsks s !! j)
     /\ mBids (fst (OrderStatusMessageHandler id f r fees s)) = mBids s
     /\ mETFOrderBidCount (fst (OrderStatusMessageHandler id f r fees s))
        = mETFOrderBidCount s
     /\ mETFOrderPositionBuy (fst (OrderStatusMessageHandler id f r fees s))
        = mETFOrderPositionBuy s)
  /\ (mAsks s !! id = None -> mBids s !! id = Some o ->
        (0 < r ->
           mBids (fst (OrderStatusMessageHandler id f r fees s)) !! id
           = Some (mkOrder (price o) r f (cancelling o))
           /\ mETFOrderBidCount (fst (OrderStatusMessageHandler id f r fees s))
              = mETFOrderBidCount s)
        /\ (r <= 0 ->
              mBids (fst (OrderStatusMessageHandler id f r fees s)) !! id = None
              /\ mETFOrderBidCount
                   (fst (OrderStatusMessageHandler id f r fees s))
                 = wrap32 (mETFOrderBidCount s - 1))
        /\ (forall j, j <> id ->
              mBids (fst (OrderStatusMessageHandler id f r fees s)) !! j
              = mBids s !! j)
        /\ mAsks (fst (OrderStatusMessageHandler id f r fees s)) = mAsks s
        /\ mETFOrderAskCount (fst (OrderStatusMessageHandler id f r fees s))
           = mETFOrderAskCount s
        /\ mETFOrderPositionSell (fst (OrderStatusMessageHandler id f r fees s))
           = mETFOrderPositionSell s).
Proof.
  split.
  - intros Hasks. unfold OrderStatusMessageHandler, count.
    rewrite Hasks. cbn [Z.eqb negb andb].
    rewrite (lookup_total_correct _ _ _ Hasks).
    cbn [fst mAsks mBids mETFOrderAskCount mETFOrderBidCount
         mETFOrderPositionBuy].
    destruct (0 <? r) eqn:Hr; cbn [negb andb].
    + apply Z.ltb_lt in Hr. split; [intros _; by rewrite lookup_insert_eq|].
      split; [intros Hle; lia|]. split; [|done].
      intros j Hj. by rewrite lookup_insert_ne.
    + apply Z.ltb_ge in Hr. split; [intros Hlt; lia|].
      split; [intros _; by rewrite lookup_delete_eq|]. split; [|done].
      intros j Hj. by rewrite lookup_delete_ne.
  - intros Hasks Hbids. unfold OrderStatusMessageHandler, count.
    rewrite Hasks, Hbids. cbn [Z.eqb negb andb].
    rewrite (lookup_total_correct _ _ _ Hbids).
    cbn [fst mAsks mBids mETFOrderAskCount mETFOrderBidCount
         mETFOrderPositionSell].
    destruct (0 <? r) eqn:Hr; cbn [negb andb].
    + apply Z.ltb_lt in Hr. split; [intros _; by rewrite lookup_insert_eq|].
      split; [intros Hle; lia|]. split; [|done].
      intros j Hj. by rewrite lookup_insert_ne.
    + apply Z.ltb_ge in Hr. split; [intros Hlt; lia|].
      split; [intros _; by rewrite lookup_delete_eq|]. split; [|done].
      intros j Hj. by rewrite lookup_delete_ne.
Qed.

(** X8: when the reported fill volume is not below the stored one, the
    newly filled volume is hedged exactly: a sell fill moves [mETFPosition]
    down by it and sends one BUY hedge order for it at
    [MAX_ASK_NEAREST_TICK], a buy fill moves the position up by it and sends
    one SELL hedge order for it at [MIN_BID_NEARST_TICK], both under the
    next message id; when nothing was newly filled, the position stays and
    nothing is sent. *)
Theorem new_fill_is_hedged id f r fees s o :
  filledVolume o <= f -> f - filledVolume o < 2 ^ 64 ->
  (mAsks s !! id = Some o ->
   - 2 ^ 63 <= mETFPosition s - (f - filledVolume o) < 2 ^ 63 ->
     mETFPosition (fst (OrderStatusMessageHandler id f r fees s))
     = mETFPosition s - (f - filledVolume o)
     /\ snd (OrderStatusMessageHandler id f r fees s)
        = if 0 <? f - filledVolume o
          then [SendHedgeOrder (mNextMessageId s) BUY MAX_ASK_NEAREST_TICK
                  (f - filledVolume o)]
          else [])
  /\ (mAsks s !! id = None -> mBids s !! id = Some o ->
      - 2 ^ 63 <= mETFPosition s + (f - filledVolume o) < 2 ^ 63 ->
        mETFPosition (fst (OrderStatusMessageHandler id f r fees s))
        = mETFPosition s + (f - filledVolume o)
        /\ snd (OrderStatusMessageHandler id f r fees s)
           = if 0 <? f - filledVolume o
             then [SendHedgeOrder (mNextMessageId s) SELL MIN_BID_NEARST_TICK
                     (f - filledVolume o)]
             else []).
Proof.
  intros Hf Hd. split.
  - intros Hasks HP. unfold OrderStatusMessageHandler, count.
    rewrite Hasks. cbn [Z.eqb negb andb].
    rewrite (lookup_total_correct _ _ _ Hasks). cbn [fst snd mETFPosition].
    rewrite !(wrap64_small (f - filledVolume o)) by lia.
    rewrite sint64_add_wrap64.
    destruct (0 <? f - filledVolume o) eqn:Hpos; split; try done.
    + rewrite sint64_small by lia. lia.
    + apply Z.ltb_ge in Hpos. lia.
  - intros Hasks Hbids HP. unfold OrderStatusMessageHandler, count.
    rewrite Hasks, Hbids. cbn [Z.eqb negb andb].
    rewrite (lookup_total_correct _ _ _ Hbids). cbn [fst snd mETFPosition].
    rewrite !(wrap64_small (f - filledVolume o)) by lia.
    destruct (0 <? f - filledVolume o) eqn:Hpos; split; try done.
    + rewrite sint64_small by lia. lia.
    + apply Z.ltb_ge in Hpos. lia.
Qed.

(** X9: ids that are not tracked are ignored: an order-status update or an
    error for an id in neither ledger changes nothing and sends nothing,
    and so does an error with order id 0, whatever the ledgers hold. *)
Theorem unknown_ids_are_ignored id f r fees msg s :
  (mAsks s !! id = None -> mBids s !! id = None ->
     OrderStatusMessageHandler id f r fees s = (s, [])
     /\ ErrorMessageHandler id msg s = (s, []))
  /\ ErrorMessageHandler 0 msg s = (s, []).
Proof.
  split; [|done]. intros Ha Hb.
  split; [by apply OrderStatusMessageHandler_untracked|].
  unfold ErrorMessageHandler, count. rewrite Ha, Hb.
  cbn [Z.eqb orb]. by rewrite andb_false_r.
Qed.

(** X10: an error for a tracked order with no recorded fill (and a nonzero
    id) removes the order from its ledger, takes one off that side's order
    count and the order's remaining volume off that side's committed
    volume, and leaves [mETFPosition] and the message id as they are,
    sending nothing. *)
Theorem error_removes_unfilled_order id msg s o :
  id <> 0 -> filledVolume o = 0 -> 0 <= remainingVolume o < 2 ^ 62 ->
  - 2 ^ 63 <= mETFPosition s < 2 ^ 63 ->
  (mAsks s !! id = Some o ->
   - 2 ^ 62 <= mETFOrderPositionSell s < 2 ^ 62 ->
     ErrorMessageHandler id msg s
     = (mkAutoTrader (mNextMessageId s) (mOrderBookSequence s)
          (mETFOrderPositionSell s - remainingVolume o)
          (mETFOrderPositionBuy s)
          (wrap32 (mETFOrderAskCount s - 1)) (mETFOrderBidCount s)
          (mETFPosition s) (delete id (mAsks s)) (mBids s),
        []))
  /\ (mAsks s !! id = None -> mBids s !! id = Some o ->
      - 2 ^ 62 <= mETFOrderPositionBuy s < 2 ^ 62 ->
        ErrorMessageHandler id msg s
        = (mkAutoTrader (mNextMessageId s) (mOrderBookSequence s)
             (mETFOrderPositionSell s)
             (mETFOrderPositionBuy s - remainingVolume o)
             (mETFOrderAskCount s) (wrap32 (mETFOrderBidCount s - 1))
             (mETFPosition s) (mAsks s) (delete id (mBids s)),
           [])).
Proof.
  intros Hid Hf Hr HP. split.
  - intros Ha HS. by apply ErrorMessageHandler_unfilled_sell.
  - intros Ha Hb HB. by apply ErrorMessageHandler_unfilled_buy.
Qed.

(** *** The book sequence number *)

Lemma OrderBookMessageHandler_sequence i n ap av bp bv s :
  mOrderBookSequence (fst (OrderBookMessageHandler i n ap av bp bv s))
  = Z.max n (mOrderBookSequence s).
Proof.
  unfold OrderBookMessageHandler.
  destruct (n <=? mOrderBookSequence s) eqn:Hn.
  { apply Z.leb_le in Hn. cbn [fst]. lia. }
  apply Z.leb_gt in Hn. rewrite Z.max_l by lia.
  destruct (negb (Instrument_eqb i FUTURE)); [done|].
  generalize (RepriceSellOrders_frame ap av
    (mkAutoTrader (mNextMessageId s) n (mETFOrderPositionSell s)
       (mETFOrderPositionBuy s) (mETFOrderAskCount s) (mETFOrderBidCount s)
       (mETFPosition s) (mAsks s) (mBids s))).
  cbn [mAsks mBids mETFOrderAskCount mETFOrderBidCount mETFOrderPositionSell
       mETFOrderPositionBuy mETFPosition mOrderBookSequence mNextMessageId].
  destruct (RepriceSellOrders ap av _) as [s2 sent2]. cbv zeta. cbn [fst snd].
  intros (_ & _ & _ & _ & F).
  pose proof (RepriceBuyOrders_frame bp bv s2) as (_ & _ & _ & _ & G).
  destruct (RepriceBuyOrders bp bv s2) as [s3 sent3]. cbn [fst snd] in *.
  congruence.
Qed.

Lemma OrderStatusMessageHandler_sequence id f r fees s :
  mOrderBookSequence (fst (OrderStatusMessageHandler id f r fees s))
  = mOrderBookSequence s.
Proof. unfold OrderStatusMessageHandler. by case_match. Qed.

Lemma handle_sequence e s :
  mOrderBookSequence s <= mOrderBookSequence (fst (handle e s)).
Proof.
  destruct e; cbn [handle]; try done.
  - rewrite OrderBookMessageHandler_sequence. lia.
  - by rewrite OrderStatusMessageHandler_sequence.
  - unfold ErrorMessageHandler. destruct (_ && _); [|done].
    by rewrite OrderStatusMessageHandler_sequence.
Qed.

(** X11: after a book update for any instrument, [mOrderBookSequence] is the
    larger of the update's sequence number and the stored one, and over any
    sequence of events it never goes down. *)
Theorem book_sequence_never_decreases i n ap av bp bv es s :
  mOrderBookSequence (fst (OrderBookMessageHandler i n ap av bp bv s))
  = Z.max n (mOrderBookSequence s)
  /\ mOrderBookSequence s <= mOrderBookSequence (fst (run es s)).
Proof.
  split; [apply OrderBookMessageHandler_sequence|].
  revert s. induction es as [|e es IH]; intros s; cbn [run]; [done|].
  pose proof (handle_sequence e s) as He.
  destruct (handle e s) as [s1 sent1]. cbn [fst] in He.
  specialize (IH s1). destruct (run es s1) as [s2 sent2]. cbn [fst] in *.
  lia.
Qed.

(** *** Counters and ledgers *)

(** X12: in every reachable state each ledger holds no more orders than its
    counter says, so a side that tracks an order has a counter of at least
    1 and the decrements of lines 243 and 245 never take a counter below
    zero. *)
Theorem counters_cover_ledgers s :
  reachable s ->
  Z.of_nat (size (mAsks s)) <= mETFOrderAskCount s
  /\ Z.of_nat (size (mBids s)) <= mETFOrderBidCount s
  /\ (forall id, is_Some (mAsks s !! id) -> 1 <= mETFOrderAskCount s)
  /\ (forall id, is_Some (mBids s !! id) -> 1 <= mETFOrderBidCount s).
Proof.
  intros H. apply reachable_depth in H as [[Ha _] [Hb _]].
  split; [done|]. split; [done|]. split.
  - intros id [o Ho]. pose proof (size_delete_Some _ _ _ Ho). lia.
  - intros id [o Ho]. pose proof (size_delete_Some _ _ _ Ho). lia.
Qed.

(** X13: in every state reached by book updates, consistent order-status
    updates and errors for orders with no recorded fill, [mETFPosition] is
    between -100 and 100, the two committed-volume counters are between 0
    and 200 and are at least the remaining volume of the orders in their
    ledgers, and no order has a negative remaining volume. *)
Theorem consistent_states_are_bounded s :
  reachable_consistent s ->
  -100 <= mETFPosition s <= 100
  /\ 0 <= mETFOrderPositionSell s <= 200
  /\ 0 <= mETFOrderPositionBuy s <= 200
  /\ committed (mAsks s) <= mETFOrderPositionSell s
  /\ committed (mBids s) <= mETFOrderPositionBuy s
  /\ volumes_ok (mAsks s) /\ volumes_ok (mBids s).
Proof.
  intros H. apply reachable_consistent_limit in H.
  pose proof (limit_ok_bounds s H) as (HS & HB & HP).
  destruct H as (Va & Vb & Ca & Cb & _). auto 10.
Qed.

(** *** The hedge prices *)

(** X14: for framework constants that fit an [int], [MIN_BID_NEARST_TICK] is
    the least multiple of the tick size above [MINIMUM_BID] and
    [MAX_ASK_NEAREST_TICK] is the greatest multiple of the tick size that is
    not above [MAXIMUM_ASK]. *)
Theorem hedge_prices_are_nearest_ticks :
  0 <= MINIMUM_BID -> MINIMUM_BID + 100 < 2 ^ 31 ->
  0 <= MAXIMUM_ASK < 2 ^ 31 ->
  (MIN_BID_NEARST_TICK mod 100 = 0
   /\ MINIMUM_BID < MIN_BID_NEARST_TICK <= MINIMUM_BID + 100)
  /\ (MAX_ASK_NEAREST_TICK mod 100 = 0
      /\ MAXIMUM_ASK - 100 < MAX_ASK_NEAREST_TICK <= MAXIMUM_ASK).
Proof.
  intros Hb Hb' Ha.
  unfold MIN_BID_NEARST_TICK, MAX_ASK_NEAREST_TICK, TICK_SIZE_IN_CENTS.
  rewrite !Z.quot_div_nonneg by lia.
  pose proof (Z.div_mod (MINIMUM_BID + 100) 100).
  pose proof (Z.mod_pos_bound (MINIMUM_BID + 100) 100).
  pose proof (Z.div_mod MAXIMUM_ASK 100).
  pose proof (Z.mod_pos_bound MAXIMUM_ASK 100).
  rewrite !Z.mod_mul by lia. lia.
Qed.

(** *** Message ids and kinds of requests *)

Lemma ids_after_app n l1 l2 :
  ids_after n (l1 ++ l2)
  = match ids_after n l1 with
    | Some n' => ids_after n' l2
    | None => None
    end.
Proof.
  revert n. induction l1 as [|r l1 IH]; intros n; cbn [app ids_after]; [done|].
  destruct r; [apply IH|by case_match..].
Qed.

Lemma ids_after_cancels n l :
  (forall r, In r l -> is_cancel r = true) -> ids_after n l = Some n.
Proof.
  induction l as [|r l IH]; intros Hl; cbn [ids_after]; [done|].
  destruct r; try (discriminate (Hl _ (or_introl eq_refl))).
  apply IH. intros r Hr. apply Hl. by right.
Qed.

Lemma cancels_of_is_cancel P l r :
  In r (cancels_of P l) -> is_cancel r = true.
Proof.
  unfold cancels_of. intros H. apply in_flat_map in H as [e [_ H]].
  destruct (P e.2); cbn in H; [|done]. by destruct H as [<-|[]].
Qed.

Lemma make_room_sent_is_cancel sentinel n st :
  (forall r, In r (sc_sent st) -> is_cancel r = true) ->
  forall r, In r (sc_sent (make_room sentinel n st)) -> is_cancel r = true.
Proof.
  intros Hst r. unfold make_room. case_match; cbn [sc_sent]; [|apply Hst].
  intros Hin. apply in_app_or in Hin as [Hin|[<-|[]]]; [by apply Hst|done].
Qed.

Lemma sell_pass_sent_is_cancel target n asks r :
  In r (sc_sent (make_room MIN_ORDER n (sell_scan target asks))) ->
  is_cancel r = true.
Proof.
  apply make_room_sent_is_cancel. intros x. rewrite sell_scan_sent.
  apply cancels_of_is_cancel.
Qed.

Lemma buy_pass_sent_is_cancel target n bids r :
  In r (sc_sent (make_room MAX_ORDER n (buy_scan target bids))) ->
  is_cancel r = true.
Proof.
  apply make_room_sent_is_cancel. intros x. rewrite buy_scan_sent.
  apply cancels_of_is_cancel.
Qed.

Lemma RepriceSellOrders_ids ap av s :
  ids_after (mNextMessageId s) (snd (RepriceSellOrders ap av s))
  = Some (mNextMessageId (fst (RepriceSellOrders ap av s)))
  /\ forall r, In r (snd (RepriceSellOrders ap av s)) -> is_hedge r = false.
Proof.
  unfold RepriceSellOrders. case_match; cbn [fst snd mNextMessageId].
  - split; [apply ids_after_cancels; intros r; apply sell_pass_sent_is_cancel|].
    intros r Hr. apply sell_pass_sent_is_cancel in Hr. by destruct r.
  - split.
    + rewrite ids_after_app, ids_after_cancels
        by (intros r; apply sell_pass_sent_is_cancel).
      cbn [ids_after]. by rewrite Z.eqb_refl.
    + intros r Hr. apply in_app_or in Hr as [Hr|[<-|[]]]; [|done].
      apply sell_pass_sent_is_cancel in Hr. by destruct r.
Qed.

Lemma RepriceBuyOrders_ids bp bv s :
  ids_after (mNextMessageId s) (snd (RepriceBuyOrders bp bv s))
  = Some (mNextMessageId (fst (RepriceBuyOrders bp bv s)))
  /\ forall r, In r (snd (RepriceBuyOrders bp bv s)) -> is_hedge r = false.
Proof.
  unfold RepriceBuyOrders. case_match; cbn [fst snd mNextMessageId].
  - split; [apply ids_after_cancels; intros r; apply buy_pass_sent_is_cancel|].
    intros r Hr. apply buy_pass_sent_is_cancel in Hr. by destruct r.
  - split.
    + rewrite ids_after_app, ids_after_cancels
        by (intros r; apply buy_pass_sent_is_cancel).
      cbn [ids_after]. by rewrite Z.eqb_refl.
    + intros r Hr. apply in_app_or in Hr as [Hr|[<-|[]]]; [|done].
      apply buy_pass_sent_is_cancel in Hr. by destruct r.
Qed.

Lemma OrderBookMessageHandler_ids i n ap av bp bv s :
  ids_after (mNextMessageId s)
    (snd (OrderBookMessageHandler i n ap av bp bv s))
  = Some (mNextMessageId (fst (OrderBookMessageHandler i n ap av bp bv s)))
  /\ (forall r, In r (snd (OrderBookMessageHandler i n ap av bp bv s)) ->
                is_hedge r = false)
  /\ mETFPosition (fst (OrderBookMessageHandler i n ap av bp bv s))
     = mETFPosition s.
Proof.
  unfold OrderBookMessageHandler.
  destruct (n <=? mOrderBookSequence s); [done|].
  destruct (negb (Instrument_eqb i FUTURE)); [done|].
  generalize (RepriceSellOrders_frame ap av
    (mkAutoTrader (mNextMessageId s) n (mETFOrderPositionSell s)
       (mETFOrderPositionBuy s) (mETFOrderAskCount s) (mETFOrderBidCount s)
       (mETFPosition s) (mAsks s) (mBids s))).
  generalize (RepriceSellOrders_ids ap av
    (mkAutoTrader (mNextMessageId s) n (mETFOrderPositionSell s)
       (mETFOrderPositionBuy s) (mETFOrderAskCount s) (mETFOrderBidCount s)
       (mETFPosition s) (mAsks s) (mBids s))).
  cbn [mAsks mBids mETFOrderAskCount mETFOrderBidCount mETFOrderPositionSell
       mETFOrderPositionBuy mETFPosition mOrderBookSequence mNextMessageId].
  destruct (RepriceSellOrders ap av _) as [s2 sent2]. cbv zeta. cbn [fst snd].
  intros [Hids2 Hk2] (_ & _ & _ & F & _).
  pose proof (RepriceBuyOrders_frame bp bv s2) as (_ & _ & _ & G & _).
  pose proof (RepriceBuyOrders_ids bp bv s2) as [Hids3 Hk3].
  destruct (RepriceBuyOrders bp bv s2) as [s3 sent3]. cbn [fst snd] in *.
  split; [by rewrite ids_after_app, Hids2|]. split; [|congruence].
  intros r Hr. apply in_app_or in Hr as [Hr|Hr]; auto.
Qed.

Lemma OrderStatusMessageHandler_ids id f r fees s :
  ids_after (mNextMessageId s) (snd (OrderStatusMessageHandler id f r fees s))
  = Some (mNextMessageId (fst (OrderStatusMessageHandler id f r fees s)))
  /\ (length (snd (OrderStatusMessageHandler id f r fees s)) <= 1)%nat
  /\ forall x, In x (snd (OrderStatusMessageHandler id f r fees s)) ->
               is_hedge x = true.
Proof.
  unfold OrderStatusMessageHandler.
  destruct (_ && _); cbn [fst snd mNextMessageId].
  { split; [done|]. split; [cbn; lia|]. by intros x []. }
  destruct (0 <? _); cbn [ids_after length].
  - rewrite Z.eqb_refl. split; [done|]. split; [lia|].
    by intros x [<-|[]].
  - split; [done|]. split; [lia|]. by intros x [].
Qed.

Lemma handle_ids e s :
  ids_after (mNextMessageId s) (snd (handle e s))
  = Some (mNextMessageId (fst (handle e s))).
Proof.
  destruct e; cbn [handle]; try done.
  - apply OrderBookMessageHandler_ids.
  - apply OrderStatusMessageHandler_ids.
  - unfold ErrorMessageHandler. destruct (_ && _); [|done].
    apply OrderStatusMessageHandler_ids.
Qed.

(** X15: over any sequence of events, every insert request and every hedge
    order carries the value [mNextMessageId] has when it is sent, and each
    of them moves the counter on by one (modulo 2^64); cancel requests draw
    no id.  The counter ends where the requests sent leave it. *)
Theorem message_ids_follow_the_counter es s :
  ids_after (mNextMessageId s) (snd (run es s))
  = Some (mNextMessageId (fst (run es s))).
Proof.
  revert s. induction es as [|e es IH]; intros s; cbn [run]; [done|].
  pose proof (handle_ids e s) as He.
  destruct (handle e s) as [s1 sent1]. cbn [fst snd] in He.
  specialize (IH s1). destruct (run es s1) as [s2 sent2]. cbn [fst snd] in *.
  by rewrite ids_after_app, He.
Qed.

(** X16: a book update sends cancel and insert requests only, never a hedge
    order, and does not change [mETFPosition]; an order-status update or an
    error sends at most one request, and that request is a hedge order. *)
Theorem handlers_send_their_own_requests i n ap av bp bv id f r fees msg s :
  ((forall x, In x (snd (OrderBookMessageHandler i n ap av bp bv s)) ->
              is_hedge x = false)
   /\ mETFPosition (fst (OrderBookMessageHandler i n ap av bp bv s))
      = mETFPosition s)
  /\ ((length (snd (OrderStatusMessageHandler id f r fees s)) <= 1)%nat
      /\ forall x, In x (snd (OrderStatusMessageHandler id f r fees s)) ->
                   is_hedge x = true)
  /\ ((length (snd (ErrorMessageHandler id msg s)) <= 1)%nat
      /\ forall x, In x (snd (ErrorMessageHandler id msg s)) ->
                   is_hedge x = true).
Proof.
  split; [apply OrderBookMessageHandler_ids|].
  split; [apply OrderStatusMessageHandler_ids|].
  unfold ErrorMessageHandler. destruct (_ && _).
  - apply OrderStatusMessageHandler_ids.
  - cbn [snd length]. split; [lia|]. by intros x [].
Qed.

(** *** Committed volume under an order-status update *)

Lemma sint64_sub_wrap64 a b : sint64 (a - wrap64 b) = sint64 (a - b).
Proof.
  unfold sint64, wrap64. f_equal.
  replace (a - b mod 2 ^ 64 + 2 ^ 63) with ((a + 2 ^ 63) - b mod 2 ^ 64) by lia.
  rewrite Zminus_mod_idemp_r. f_equal. lia.
Qed.

(** X17: an order-status update moves the committed volume of the order's
    side by the change of the order's remaining volume, whatever its sign:
    the counter becomes counter - stored remaining + reported remaining
    whenever that value fits a [signed long], also when the reported
    remaining volume is above the stored one. *)
Theorem committed_volume_follows_remaining id f r fees s o :
  (mAsks s !! id = Some o ->
   - 2 ^ 63 <= mETFOrderPositionSell s - remainingVolume o + r < 2 ^ 63 ->
     mETFOrderPositionSell (fst (OrderStatusMessageHandler id f r fees s))
     = mETFOrderPositionSell s - remainingVolume o + r)
  /\ (mAsks s !! id = None -> mBids s !! id = Some o ->
      - 2 ^ 63 <= mETFOrderPositionBuy s - remainingVolume o + r < 2 ^ 63 ->
        mETFOrderPositionBuy (fst (OrderStatusMessageHandler id f r fees s))
        = mETFOrderPositionBuy s - remainingVolume o + r).
Proof.
  split.
  - intros Hasks HS. unfold OrderStatusMessageHandler, count.
    rewrite Hasks. cbn [Z.eqb negb andb].
    rewrite (lookup_total_correct _ _ _ Hasks).
    cbn [fst mETFOrderPositionSell].
    rewrite sint64_sub_wrap64, sint64_small by lia. lia.
  - intros Hasks Hbids HB. unfold OrderStatusMessageHandler, count.
    rewrite Hasks, Hbids. cbn [Z.eqb negb andb].
    rewrite (lookup_total_correct _ _ _ Hbids).
    cbn [fst mETFOrderPositionBuy].
    rewrite sint64_sub_wrap64, sint64_small by lia. lia.
Qed.

(** *** No live quote inside the target *)

Lemma pass_live_not_pulled P sentinel n st (m : gmap Z Order) k o :
  sc_ledger st = pull_if P <$> m ->
  sc_ledger (make_room sentinel n st) !! k = Some o -> cancelling o = false ->
  m !! k = Some o /\ P o = false.
Proof.
  intros Hst Hk Hlive.
  pose proof (pass_live_lookup P sentinel n st m k o Hst Hk Hlive) as Hm.
  split; [done|].
  destruct (P o) eqn:HP; [|done]. exfalso.
  assert (sc_ledger st !! k = Some (set_cancelling o)) as Hscan.
  { rewrite Hst, lookup_fmap, Hm. cbn. unfold pull_if. by rewrite HP. }
  destruct (make_room_lookup sentinel n st k) as [Heq|Heq];
    rewrite Heq, Hscan in Hk; cbn in Hk; injection Hk as Hk;
    apply (f_equal cancelling) in Hk; cbn in Hk; congruence.
Qed.

Lemma RepriceSellOrders_live_behind ap av s id o :
  mAsks (fst (RepriceSellOrders ap av s)) !! id = Some o ->
  cancelling o = false -> newAskPrice ap <= price o.
Proof.
  unfold RepriceSellOrders.
  assert (forall o', sc_ledger
            (make_room MIN_ORDER (mETFOrderAskCount s)
               (sell_scan (newAskPrice ap) (mAsks s))) !! id = Some o' ->
          cancelling o' = false -> newAskPrice ap <= price o') as Hold.
  { intros o' Hk Hlive.
    destruct (pass_live_not_pulled (live_below (newAskPrice ap)) MIN_ORDER
                (mETFOrderAskCount s) _ (mAsks s) id o'
                (sell_scan_ledger _ _) Hk Hlive) as [_ HP].
    unfold live_below in HP. rewrite Hlive in HP. cbn [negb andb] in HP.
    by apply Z.ltb_ge in HP. }
  case_match; cbn [fst mAsks]; [apply Hold|].
  rewrite lookup_insert. case_decide; [|apply Hold].
  intros [= <-] _. cbn [price]. lia.
Qed.

Lemma RepriceBuyOrders_live_behind bp bv s id o :
  mBids (fst (RepriceBuyOrders bp bv s)) !! id = Some o ->
  cancelling o = false -> price o <= newBidPrice bp.
Proof.
  unfold RepriceBuyOrders.
  assert (forall o', sc_ledger
            (make_room MAX_ORDER (mETFOrderBidCount s)
               (buy_scan (newBidPrice bp) (mBids s))) !! id = Some o' ->
          cancelling o' = false -> price o' <= newBidPrice bp) as Hold.
  { intros o' Hk Hlive.
    destruct (pass_live_not_pulled (live_above (newBidPrice bp)) MAX_ORDER
                (mETFOrderBidCount s) _ (mBids s) id o'
                (buy_scan_ledger _ _) Hk Hlive) as [_ HP].
    unfold live_above in HP. rewrite Hlive in HP. cbn [negb andb] in HP.
    by apply Z.ltb_ge in HP. }
  case_match; cbn [fst mBids]; [apply Hold|].
  rewrite lookup_insert. case_decide; [|apply Hold].
  intros [= <-] _. cbn [price]. lia.
Qed.

(** X18: after a book update that passes the sequence and instrument
    filters, no live order is priced inside the target: every sell order
    that is not cancelling is priced at or above the sell target and every
    buy order that is not cancelling at or below the buy target. *)
Theorem no_live_quote_inside_target n ap av bp bv s id o :
  mOrderBookSequence s < n -> cancelling o = false ->
  (mAsks (fst (OrderBookMessageHandler FUTURE n ap av bp bv s)) !! id = Some o ->
     newAskPrice ap <= price o)
  /\ (mBids (fst (OrderBookMessageHandler FUTURE n ap av bp bv s)) !! id
      = Some o ->
        price o <= newBidPrice bp).
Proof.
  intros Hn Hlive. rewrite (OrderBookMessageHandler_fresh n ap av bp bv s Hn).
  cbv zeta. cbn [fst snd].
  generalize (fun H => RepriceSellOrders_live_behind ap av
    (mkAutoTrader (mNextMessageId s) n (mETFOrderPositionSell s)
       (mETFOrderPositionBuy s) (mETFOrderAskCount s) (mETFOrderBidCount s)
       (mETFPosition s) (mAsks s) (mBids s)) id o H Hlive).
  destruct (RepriceSellOrders ap av _) as [s2 sent2]. cbn [fst snd].
  intros Hsell.
  pose proof (RepriceBuyOrders_frame bp bv s2) as (G1 & _).
  pose proof (fun H => RepriceBuyOrders_live_behind bp bv s2 id o H Hlive)
    as Hbuy.
  destruct (RepriceBuyOrders bp bv s2) as [s3 sent3]. cbn [fst snd] in *.
  split; [rewrite G1; apply Hsell|apply Hbuy].
Qed.

(** *** The position is hedged *)

Lemma net_hedged_app l1 l2 :
  net_hedged (l1 ++ l2) = net_hedged l1 + net_hedged l2.
Proof.
  induction l1 as [|r l1 IH]; cbn [app net_hedged]; [done|].
  destruct r as [| |? [] ? ?]; lia.
Qed.

Lemma net_hedged_no_hedge l :
  (forall r, In r l -> is_hedge r = false) -> net_hedged l = 0.
Proof.
  induction l as [|r l IH]; intros Hl; cbn [net_hedged]; [done|].
  assert (net_hedged l = 0) as Hl' by (apply IH; intros x Hx; apply Hl; by right).
  destruct r; try done. discriminate (Hl _ (or_introl eq_refl)).
Qed.

Lemma consistent_trace_reachable s sent :
  consistent_trace s sent -> reachable_consistent s.
Proof.
  induction 1; [constructor|]. by apply reachable_consistent_step.
Qed.

Lemma OrderStatusMessageHandler_hedged id f r fees s :
  limit_ok s -> status_consistent s id f r ->
  mETFPosition (fst (OrderStatusMessageHandler id f r fees s))
  = mETFPosition s + net_hedged (snd (OrderStatusMessageHandler id f r fees s)).
Proof.
  intros H. pose proof (limit_ok_bounds s H) as HB. revert H.
  unfold limit_ok, status_consistent, tracked, POSITION_LIMIT.
  intros (Va & Vb & Ca & Cb & Hu & Hl) Hc.
  destruct (mAsks s !! id) as [o|] eqn:Hasks.
  - destruct Hc as (Hr & Hf & Hd).
    pose proof (committed_lookup_le _ _ _ Va Hasks) as Hle.
    pose proof (Va _ _ Hasks) as Hro.
    rewrite (OrderStatusMessageHandler_sell id f r fees s o) by (done || lia).
    cbn [fst snd mETFPosition].
    destruct (0 <? f - filledVolume o) eqn:Hpos; cbn [net_hedged]; [lia|].
    apply Z.ltb_ge in Hpos. lia.
  - destruct (mBids s !! id) as [o|] eqn:Hbids.
    + destruct Hc as (Hr & Hf & Hd).
      pose proof (committed_lookup_le _ _ _ Vb Hbids) as Hle.
      pose proof (Vb _ _ Hbids) as Hro.
      rewrite (OrderStatusMessageHandler_buy id f r fees s o) by (done || lia).
      cbn [fst snd mETFPosition].
      destruct (0 <? f - filledVolume o) eqn:Hpos; cbn [net_hedged]; [lia|].
      apply Z.ltb_ge in Hpos. lia.
    + rewrite OrderStatusMessageHandler_untracked by done.
      cbn [fst snd net_hedged]. lia.
Qed.

Lemma handle_hedged e s :
  limit_ok s -> event_consistent s e ->
  mETFPosition (fst (handle e s))
  = mETFPosition s + net_hedged (snd (handle e s)).
Proof.
  intros H Hc. destruct e; cbn [handle]; try (cbn; lia).
  - destruct (OrderBookMessageHandler_ids instrument sequenceNumber askPrices
                askVolumes bidPrices bidVolumes s) as (_ & Hk & ->).
    rewrite net_hedged_no_hedge by done. lia.
  - by apply OrderStatusMessageHandler_hedged.
  - unfold ErrorMessageHandler. destruct (_ && _); [|cbn; lia].
    apply OrderStatusMessageHandler_hedged; [done|].
    revert Hc. cbn [event_consistent].
    unfold error_consistent, status_consistent, tracked.
    destruct H as (Va & Vb & _).
    destruct (mAsks s !! clientOrderId) as [o|] eqn:Hasks.
    + intros Hf. pose proof (Va _ _ Hasks). lia.
    + destruct (mBids s !! clientOrderId) as [o|] eqn:Hbids; [|done].
      intros Hf. pose proof (Vb _ _ Hbids). lia.
Qed.

(** X19: under book updates, consistent order-status updates and errors
    for orders with no recorded fill, the position is hedged at every
    moment: [mETFPosition] equals the volume of all SELL hedge orders sent so
    far minus the volume of all BUY hedge orders sent so far. *)
Theorem position_is_hedged s sent :
  consistent_trace s sent -> mETFPosition s = net_hedged sent.
Proof.
  induction 1 as [|s sent e Htr IH Hc]; [done|].
  rewrite net_hedged_app, <- IH.
  apply handle_hedged; [|done].
  by apply reachable_consistent_limit, (consistent_trace_reachable s sent).
Qed.

(** *** Convergence under a stable best ask *)

Lemma reachable_distinct s :
  reachable s -> quotes_distinct (mAsks s) /\ quotes_distinct (mBids s).
Proof.
  induction 1 as [|s e _ IH]; [|by apply handle_distinct].
  split; intros i j oi oj Hi; cbn [initial mAsks mBids] in Hi;
    by rewrite lookup_empty in Hi.
Qed.

Lemma cancels_of_none P (l : list (Z * Order)) :
  (forall e, In e l -> P e.2 = false) -> cancels_of P l = [].
Proof.
  induction l as [|e l IH]; intros Hl; [done|].
  unfold cancels_of. cbn [flat_map]. fold (cancels_of P l).
  rewrite (Hl e) by (by left). rewrite IH; [done|].
  intros e' He'. apply Hl. by right.
Qed.

(** A scan that finds no order to pull leaves the ledger as it is and sends
    nothing. *)
Lemma scan_nothing_to_pull P (m : gmap Z Order) :
  (forall k o, m !! k = Some o -> P o = false) ->
  pull_if P <$> m = m /\ cancels_of P (map_to_list m) = [].
Proof.
  intros Hm. split.
  - apply map_eq. intros k. rewrite lookup_fmap.
    destruct (m !! k) as [o|] eqn:Hk; cbn; [|done].
    unfold pull_if. by rewrite (Hm k o Hk).
  - apply cancels_of_none. intros [k o] Hin. cbn [snd].
    apply (Hm k). by apply elem_of_map_to_list, list_elem_of_In.
Qed.

Lemma pulled_ledger_live P (m : gmap Z Order) k o :
  (pull_if P <$> m) !! k = Some o -> cancelling o = false ->
  m !! k = Some o /\ P o = false.
Proof.
  rewrite lookup_fmap. destruct (m !! k) as [o0|] eqn:Hk; cbn; [|done].
  unfold pull_if. destruct (P o0) eqn:HP.
  - intros [= <-]. cbn. done.
  - intros [= <-] _. done.
Qed.

Lemma newAskPrice_ext ap ap' :
  at0 ap' = at0 ap -> newAskPrice ap' = newAskPrice ap.
Proof. intros H. unfold newAskPrice. by rewrite H. Qed.

(** The two outcomes of a pass, by its placement gate. *)
Lemma RepriceSellOrders_cases ap av s :
  - 2 ^ 61 <= mETFPosition s < 2 ^ 61 ->
  - 2 ^ 61 <= mETFOrderPositionSell s < 2 ^ 61 ->
  sell_gate_open ap s
  /\ RepriceSellOrders ap av s
     = (mkAutoTrader (wrap64 (mNextMessageId s + 1)) (mOrderBookSequence s)
          (mETFOrderPositionSell s + LOT_SIZE) (mETFOrderPositionBuy s)
          (wrap32 (mETFOrderAskCount s + 1)) (mETFOrderBidCount s)
          (mETFPosition s)
          (<[mNextMessageId s := mkOrder (newAskPrice ap) LOT_SIZE 0 false]>
             (sc_ledger (make_room MIN_ORDER (mETFOrderAskCount s)
                           (sell_scan (newAskPrice ap) (mAsks s)))))
          (mBids s),
        sc_sent (make_room MIN_ORDER (mETFOrderAskCount s)
                   (sell_scan (newAskPrice ap) (mAsks s)))
        ++ [SendInsertOrder (mNextMessageId s) SELL (newAskPrice ap) LOT_SIZE
              GOOD_FOR_DAY])
  \/ ~ sell_gate_open ap s
     /\ RepriceSellOrders ap av s
        = (mkAutoTrader (mNextMessageId s) (mOrderBookSequence s)
             (mETFOrderPositionSell s) (mETFOrderPositionBuy s)
             (mETFOrderAskCount s) (mETFOrderBidCount s)
             (mETFPosition s)
             (sc_ledger (make_room MIN_ORDER (mETFOrderAskCount s)
                           (sell_scan (newAskPrice ap) (mAsks s))))
             (mBids s),
           sc_sent (make_room MIN_ORDER (mETFOrderAskCount s)
                      (sell_scan (newAskPrice ap) (mAsks s)))).
Proof.
  intros HP HS. pose proof (sell_gate_false_iff ap s HP HS) as Hgate.
  unfold RepriceSellOrders. cbv zeta. destruct (_ || _ || _ || _) eqn:Hb.
  - right. split; [|done]. intros Hopen. apply Hgate in Hopen. congruence.
  - left. split; [by apply Hgate|].
    rewrite (sint64_small (_ + LOT_SIZE)) by (unfold LOT_SIZE; lia). done.
Qed.

Lemma RepriceBuyOrders_cases bp bv s :
  - 2 ^ 61 <= mETFPosition s < 2 ^ 61 ->
  - 2 ^ 61 <= mETFOrderPositionBuy s < 2 ^ 61 ->
  buy_gate_open bp s
  /\ RepriceBuyOrders bp bv s
     = (mkAutoTrader (wrap64 (mNextMessageId s + 1)) (mOrderBookSequence s)
          (mETFOrderPositionSell s) (mETFOrderPositionBuy s + LOT_SIZE)
          (mETFOrderAskCount s) (wrap32 (mETFOrderBidCount s + 1))
          (mETFPosition s) (mAsks s)
          (<[mNextMessageId s := mkOrder (newBidPrice bp) LOT_SIZE 0 false]>
             (sc_ledger (make_room MAX_ORDER (mETFOrderBidCount s)
                           (buy_scan (newBidPrice bp) (mBids s))))),
        sc_sent (make_room MAX_ORDER (mETFOrderBidCount s)
                   (buy_scan (newBidPrice bp) (mBids s)))
        ++ [SendInsertOrder (mNextMessageId s) BUY (newBidPrice bp) LOT_SIZE
              GOOD_FOR_DAY])
  \/ ~ buy_gate_open bp s
     /\ RepriceBuyOrders bp bv s
        = (mkAutoTrader (mNextMessageId s) (mOrderBookSequence s)
             (mETFOrderPositionSell s) (mETFOrderPositionBuy s)
             (mETFOrderAskCount s) (mETFOrderBidCount s)
             (mETFPosition s) (mAsks s)
             (sc_ledger (make_room MAX_ORDER (mETFOrderBidCount s)
                           (buy_scan (newBidPrice bp) (mBids s)))),
           sc_sent (make_room MAX_ORDER (mETFOrderBidCount s)
                      (buy_scan (newBidPrice bp) (mBids s)))).
Proof.
  intros HP HB. pose proof (buy_gate_false_iff bp s HP HB) as Hgate.
  unfold RepriceBuyOrders. cbv zeta. destruct (_ || _ || _ || _) eqn:Hb.
  - right. split; [|done]. intros Hopen. apply Hgate in Hopen. congruence.
  - left. split; [by apply Hgate|].
    rewrite (sint64_small (_ + LOT_SIZE)) by (unfold LOT_SIZE; lia). done.
Qed.

Lemma settled_at_behind target (m : gmap Z Order) k o :
  settled_at target m k o ->
  forall k' o', m !! k' = Some o' -> live_below target o' = false.
Proof.
  intros (Hk & Hl & Hp & Hothers) k' o' Hk'. unfold live_below.
  destruct (cancelling o') eqn:Hc; [done|]. cbn [negb andb].
  apply Z.ltb_ge. destruct (Hothers k' o' Hk' Hc) as [->|Hlt]; [|lia].
  rewrite Hk in Hk'. injection Hk' as <-. lia.
Qed.

(** On a settled sell ledger with fewer than 4 orders counted, the sell
    pass does nothing. *)
Lemma RepriceSellOrders_settled ap av s k o :
  settled_at (newAskPrice ap) (mAsks s) k o ->
  mETFOrderAskCount s < MAX_ORDER_DEPTH - 1 ->
  RepriceSellOrders ap av s = (s, []).
Proof.
  intros Hset Hn.
  assert (sc_alreadyExists
            (make_room MIN_ORDER (mETFOrderAskCount s)
               (sell_scan (newAskPrice ap) (mAsks s))) = true) as Hflag.
  { apply sell_pass_exists. destruct Hset as (Hk & Hl & Hp & _).
    exists k, o. split; [done|]. unfold live_at. rewrite Hl, Hp.
    cbn [negb andb]. apply Z.eqb_refl. }
  destruct (scan_nothing_to_pull (live_below (newAskPrice ap)) (mAsks s)
              (settled_at_behind _ _ _ _ Hset)) as [Hledger Hsent].
  unfold RepriceSellOrders. cbv zeta. rewrite Hflag. cbn [orb].
  rewrite make_room_idle by done.
  rewrite sell_scan_ledger, sell_scan_sent, Hledger, Hsent. by destruct s.
Qed.

(** One sell pass from a state of [sell_can_settle] leaves the ledger
    settled, with fewer than 4 orders counted. *)
Lemma RepriceSellOrders_settles ap av s :
  - 2 ^ 61 <= mETFPosition s < 2 ^ 61 ->
  - 2 ^ 61 <= mETFOrderPositionSell s < 2 ^ 61 ->
  sell_can_settle ap s ->
  mETFOrderAskCount (fst (RepriceSellOrders ap av s)) < MAX_ORDER_DEPTH - 1
  /\ exists k o,
       settled_at (newAskPrice ap) (mAsks (fst (RepriceSellOrders ap av s))) k o
       /\ (mAsks s !! k = Some o
           \/ k = mNextMessageId s
              /\ o = mkOrder (newAskPrice ap) LOT_SIZE 0 false
              /\ In (SendInsertOrder k SELL (newAskPrice ap) LOT_SIZE
                       GOOD_FOR_DAY)
                    (snd (RepriceSellOrders ap av s)))
       /\ forall k' o',
            mAsks (fst (RepriceSellOrders ap av s)) !! k' = Some o' ->
            cancelling o' = false -> k' <> k -> mAsks s !! k' = Some o'.
Proof.
  intros HP HS (Ha & Hd & H0 & Hcase).
  assert (mETFOrderAskCount s < MAX_ORDER_DEPTH - 1) as Hn.
  { unfold MAX_ORDER_DEPTH in *. destruct Hcase as [[_ Hc]|[_ Hc]]; lia. }
  assert (forall k o,
            (pull_if (live_below (newAskPrice ap)) <$> mAsks s) !! k = Some o ->
            cancelling o = false ->
            mAsks s !! k = Some o /\ newAskPrice ap <= price o) as HL.
  { intros k o Hk Hl.
    destruct (pulled_ledger_live _ _ _ _ Hk Hl) as [Hm Hb]. split; [done|].
    unfold live_below in Hb. rewrite Hl in Hb. cbn [negb andb] in Hb.
    by apply Z.ltb_ge. }
  destruct (RepriceSellOrders_cases ap av s HP HS)
    as [[Hopen Heq]|[Hclosed Heq]]; rewrite Heq;
    cbn [fst snd mAsks mETFOrderAskCount];
    rewrite make_room_idle by done; rewrite sell_scan_ledger.
  - assert (mETFOrderAskCount s < MAX_ORDER_DEPTH - 2) as Hn3.
    { destruct Hcase as [[(k & o & Hk & Hlive) _]|[_ Hc]]; [|done].
      exfalso. destruct Hopen as (_ & _ & _ & Hfree).
      apply andb_true_iff in Hlive as [Hl Hp].
      apply negb_true_iff in Hl. apply Z.eqb_eq in Hp.
      by apply (Hfree k o). }
    destruct Hopen as (_ & _ & _ & Hfree). split.
    { unfold wrap32. rewrite Z.mod_small; unfold MAX_ORDER_DEPTH in *; lia. }
    exists (mNextMessageId s), (mkOrder (newAskPrice ap) LOT_SIZE 0 false).
    split; [|split].
    + split; [apply lookup_insert_eq|]. split; [done|]. split; [done|].
      intros k' o'. rewrite lookup_insert. case_decide; [by left|].
      intros Hk' Hl'. right. destruct (HL k' o' Hk' Hl') as [Hm Hle].
      pose proof (Hfree k' o' Hm Hl'). lia.
    + right. split; [done|]. split; [done|]. apply in_or_app. right. by left.
    + intros k' o' Hk' Hl' Hne. rewrite lookup_insert_ne in Hk' by done.
      by destruct (HL k' o' Hk' Hl').
  - destruct Hcase as [[(k & o & Hk & Hlive) _]|[Hopen _]]; [|done].
    apply andb_true_iff in Hlive as [Hl Hp].
    apply negb_true_iff in Hl. apply Z.eqb_eq in Hp.
    split; [done|]. exists k, o. split; [|split].
    + split.
      { apply idle_pass_untouched; [done|]. unfold live_below.
        rewrite Hl, Hp. cbn [negb andb]. apply Z.ltb_irrefl. }
      split; [done|]. split; [done|].
      intros k' o' Hk' Hl'. destruct (HL k' o' Hk' Hl') as [Hm Hle].
      destruct (Z.eq_dec (price o') (newAskPrice ap)) as [He|Hne];
        [left|right; lia].
      apply (Hd k' k o' o); try done. congruence.
    + by left.
    + intros k' o' Hk' Hl' Hne. by destruct (HL k' o' Hk' Hl').
Qed.

(** On a quiet buy side the buy pass does nothing. *)
Lemma RepriceBuyOrders_quiet bp bv s :
  - 2 ^ 61 <= mETFPosition s < 2 ^ 61 ->
  - 2 ^ 61 <= mETFOrderPositionBuy s < 2 ^ 61 ->
  buy_quiet bp s -> RepriceBuyOrders bp bv s = (s, []).
Proof.
  intros HP HB (Hn & Hnone & Hclosed).
  destruct (scan_nothing_to_pull (live_above (newBidPrice bp)) (mBids s) Hnone)
    as [Hledger Hsent].
  destruct (RepriceBuyOrders_cases bp bv s HP HB) as [[Hopen _]|[_ Heq]];
    [done|].
  rewrite Heq. rewrite make_room_idle by done.
  rewrite buy_scan_ledger, buy_scan_sent, Hledger, Hsent. by destruct s.
Qed.

(** One buy pass from a state of [buy_can_calm] leaves the buy side
    quiet. *)
Lemma RepriceBuyOrders_calms bp bv s :
  - 2 ^ 60 <= mETFPosition s < 2 ^ 60 ->
  - 2 ^ 60 <= mETFOrderPositionBuy s < 2 ^ 60 ->
  buy_can_calm bp s ->
  buy_quiet bp (fst (RepriceBuyOrders bp bv s))
  /\ - 2 ^ 61 <= mETFOrderPositionBuy (fst (RepriceBuyOrders bp bv s))
     < 2 ^ 61.
Proof.
  intros HP HB (H0 & Hcase).
  assert (mETFOrderBidCount s < MAX_ORDER_DEPTH - 1) as Hn.
  { unfold MAX_ORDER_DEPTH in *. destruct Hcase as [Hc|[Hc _]]; lia. }
  assert (forall k o,
            mBids (fst (RepriceBuyOrders bp bv s)) !! k = Some o ->
            live_above (newBidPrice bp) o = false) as Hnone.
  { intros k o Hk. unfold live_above.
    destruct (cancelling o) eqn:Hc; [done|]. cbn [negb andb].
    apply Z.ltb_ge. by apply (RepriceBuyOrders_live_behind bp bv s k). }
  revert Hnone.
  destruct (RepriceBuyOrders_cases bp bv s) as [[Hopen Heq]|[Hclosed Heq]];
    [lia|lia| |]; rewrite Heq;
    cbn [fst mBids mETFOrderBidCount mETFOrderPositionBuy]; intros Hnone.
  - assert (mETFOrderBidCount s < MAX_ORDER_DEPTH - 2) as Hn3.
    { by destruct Hcase as [Hc|[_ Hc]]. }
    split; [|unfold LOT_SIZE; lia].
    split.
    { cbn [mETFOrderBidCount]. unfold wrap32.
      rewrite Z.mod_small; unfold MAX_ORDER_DEPTH in *; lia. }
    split; [exact Hnone|].
    intros (_ & _ & _ & Hfree). cbn [mBids] in Hfree.
    by apply (Hfree (mNextMessageId s)
                (mkOrder (newBidPrice bp) LOT_SIZE 0 false));
      [apply lookup_insert_eq| |].
  - split; [|lia].
    split; [done|]. split; [exact Hnone|].
    intros (A & B & C & D). apply Hclosed.
    cbn [mBids mETFOrderBidCount mETFOrderPositionBuy mETFPosition] in *.
    split; [done|]. split; [done|]. split; [done|].
    intros k o Hk Hlive Hp. apply (D k o); [|done|done].
    rewrite make_room_idle by done. rewrite buy_scan_ledger.
    apply idle_pass_untouched; [done|]. unfold live_above.
    rewrite Hlive, Hp. cbn [negb andb]. apply Z.ltb_irrefl.
Qed.

Lemma OrderBookMessageHandler_passes n ap av bp bv s :
  mOrderBookSequence s < n ->
  OrderBookMessageHandler FUTURE n ap av bp bv s
  = (fst (RepriceBuyOrders bp bv
            (fst (RepriceSellOrders ap av (with_sequence n s)))),
     snd (RepriceSellOrders ap av (with_sequence n s))
     ++ snd (RepriceBuyOrders bp bv
               (fst (RepriceSellOrders ap av (with_sequence n s))))).
Proof. intros Hn. exact (OrderBookMessageHandler_fresh n ap av bp bv s Hn). Qed.

(** On a settled sell side, a fresh book update of the traded instrument
    with the same best ask is the buy pass alone. *)
Lemma settled_update_is_buy_pass n ap ap' av bp bv s k o :
  settled_at (newAskPrice ap) (mAsks s) k o ->
  mETFOrderAskCount s < MAX_ORDER_DEPTH - 1 ->
  at0 ap' = at0 ap -> mOrderBookSequence s < n ->
  OrderBookMessageHandler FUTURE n ap' av bp bv s
  = RepriceBuyOrders bp bv (with_sequence n s).
Proof.
  intros Hset Hc Hap Hn. rewrite OrderBookMessageHandler_passes by done.
  rewrite (RepriceSellOrders_settled ap' av (with_sequence n s) k o);
    [|by rewrite (newAskPrice_ext ap ap')|done].
  cbn [fst snd app]. by destruct (RepriceBuyOrders bp bv _).
Qed.

(** The sell side of a settled state is untouched by every event that
    keeps the best ask. *)
Lemma settled_event_keeps_sell_side ap e s k o :
  settled_at (newAskPrice ap) (mAsks s) k o ->
  mETFOrderAskCount s < MAX_ORDER_DEPTH - 1 ->
  keeps_ask (at0 ap) e ->
  mAsks (fst (handle e s)) = mAsks s
  /\ mETFOrderAskCount (fst (handle e s)) = mETFOrderAskCount s
  /\ mETFOrderPositionSell (fst (handle e s)) = mETFOrderPositionSell s
  /\ mETFPosition (fst (handle e s)) = mETFPosition s.
Proof.
  intros Hset Hc He. destruct e; cbn [handle keeps_ask] in *; try done.
  destruct (Z.le_gt_cases sequenceNumber (mOrderBookSequence s)) as [Hn|Hn].
  { unfold OrderBookMessageHandler.
    destruct (sequenceNumber <=? mOrderBookSequence s) eqn:Hle; [done|].
    apply Z.leb_gt in Hle. lia. }
  destruct instrument.
  - rewrite (settled_update_is_buy_pass sequenceNumber ap askPrices askVolumes
               bidPrices bidVolumes s k o) by auto with zarith.
    destruct (RepriceBuyOrders_frame bidPrices bidVolumes
                (with_sequence sequenceNumber s)) as (G1 & G2 & G3 & G4 & _).
    done.
  - unfold OrderBookMessageHandler.
    destruct (sequenceNumber <=? mOrderBookSequence s) eqn:Hle; [done|].
    done.
Qed.

Lemma settled_run_keeps_sell_side ap k o es : forall s,
  settled_at (newAskPrice ap) (mAsks s) k o ->
  mETFOrderAskCount s < MAX_ORDER_DEPTH - 1 ->
  Forall (keeps_ask (at0 ap)) es ->
  mAsks (fst (run es s)) = mAsks s
  /\ mETFOrderAskCount (fst (run es s)) = mETFOrderAskCount s
  /\ mETFOrderPositionSell (fst (run es s)) = mETFOrderPositionSell s
  /\ mETFPosition (fst (run es s)) = mETFPosition s.
Proof.
  induction es as [|e es IH]; intros s Hset Hc Hes; [done|].
  apply Forall_cons in Hes as [He Hes]. cbn [run].
  pose proof (settled_event_keeps_sell_side ap e s k o Hset Hc He)
    as (E1 & E2 & E3 & E4).
  destruct (handle e s) as [s1 sent1]. cbn [fst] in *.
  assert (settled_at (newAskPrice ap) (mAsks s1) k o) as Hset1
    by (by rewrite E1).
  assert (mETFOrderAskCount s1 < MAX_ORDER_DEPTH - 1) as Hc1 by lia.
  pose proof (IH s1 Hset1 Hc1 Hes) as (I1 & I2 & I3 & I4).
  destruct (run es s1) as [s2 sent2]. cbn [fst] in *.
  repeat split; congruence.
Qed.

(** In a state with a settled sell side and a quiet buy side, a fresh book
    update that reports the same touch only stores its sequence number. *)
Lemma settled_quiet_update_is_idle n ap av bp bv s k o :
  settled_at (newAskPrice ap) (mAsks s) k o ->
  mETFOrderAskCount s < MAX_ORDER_DEPTH - 1 ->
  - 2 ^ 61 <= mETFPosition s < 2 ^ 61 ->
  - 2 ^ 61 <= mETFOrderPositionBuy s < 2 ^ 61 ->
  buy_quiet bp s ->
  mOrderBookSequence s < n ->
  OrderBookMessageHandler FUTURE n ap av bp bv s = (with_sequence n s, []).
Proof.
  intros Hset Hc HP HB Hq Hn.
  rewrite (settled_update_is_buy_pass n ap ap av bp bv s k o) by done.
  by apply RepriceBuyOrders_quiet.
Qed.

Lemma settled_quiet_updates_are_idle ap av bp bv k o ns : forall s,
  settled_at (newAskPrice ap) (mAsks s) k o ->
  mETFOrderAskCount s < MAX_ORDER_DEPTH - 1 ->
  - 2 ^ 61 <= mETFPosition s < 2 ^ 61 ->
  - 2 ^ 61 <= mETFOrderPositionBuy s < 2 ^ 61 ->
  buy_quiet bp s ->
  increasing_from (mOrderBookSequence s) ns ->
  run (repeated_updates ap av bp bv ns) s
  = (with_sequence (List.last ns (mOrderBookSequence s)) s, []).
Proof.
  induction ns as [|n ns IH]; intros s Hset Hc HP HB Hq Hinc.
  - cbn [repeated_updates map run List.last]. by destruct s.
  - destruct Hinc as [Hn Hinc]. cbn [repeated_updates map run handle].
    rewrite (settled_quiet_update_is_idle n ap av bp bv s k o) by done.
    change (map _ ns) with (repeated_updates ap av bp bv ns).
    rewrite (IH (with_sequence n s)) by done.
    cbn [app]. by rewrite last_cons_default.
Qed.

(** C7, as the code has it.  Take a state in which no two live sell orders
    share a price (as in every reachable state) and either a live sell
    order rests at P + 100 and fewer than 4 sell orders are counted, or none
    rests there, fewer than 3 are counted and one more quote keeps
    [mETFPosition - mETFOrderPositionSell] at or above -100.  After one
    fresh book update of the traded instrument with the nonzero best ask P:
    - exactly one live sell order is priced at P + 100 (in [unsigned long]
      arithmetic): the resting one, or a new one of 10 lots for which an
      insert request was sent; every other live sell order is priced above
      P + 100 and was in the ledger before;
    - over every further sequence of book updates that report the best ask
      P for the traded instrument (with any bids, volumes and sequence
      numbers), of book updates of other instruments and of events that are
      only logged, the sell ledger, the sell order count, the committed
      sell volume and the position stay as they are, and a further fresh
      update with best ask P is the buy pass alone: the sell pass sends no
      cancel and no insert request;
    - if fewer than 3 buy orders are counted (or fewer than 4 and the buy
      pass places nothing), every run of further identical updates with
      increasing sequence numbers sends no request and changes nothing but
      [mOrderBookSequence]. *)
Theorem stable_ask_converges n ap av bp bv s :
  - 2 ^ 60 <= mETFPosition s < 2 ^ 60 ->
  - 2 ^ 60 <= mETFOrderPositionSell s < 2 ^ 60 ->
  mOrderBookSequence s < n ->
  sell_can_settle ap s ->
  (exists k o,
     settled_at ((at0 ap + 100) mod 2 ^ 64)
       (mAsks (fst (OrderBookMessageHandler FUTURE n ap av bp bv s))) k o
     /\ (mAsks s !! k = Some o
         \/ k = mNextMessageId s
            /\ o = mkOrder ((at0 ap + 100) mod 2 ^ 64) 10 0 false
            /\ In (SendInsertOrder k SELL ((at0 ap + 100) mod 2 ^ 64) 10
                     GOOD_FOR_DAY)
                  (snd (OrderBookMessageHandler FUTURE n ap av bp bv s)))
     /\ forall k' o',
          mAsks (fst (OrderBookMessageHandler FUTURE n ap av bp bv s)) !! k'
          = Some o' ->
          cancelling o' = false -> k' <> k -> mAsks s !! k' = Some o')
  /\ (forall es,
        Forall (keeps_ask (at0 ap)) es ->
        mAsks (fst (run es (fst (OrderBookMessageHandler FUTURE n ap av bp bv s))))
        = mAsks (fst (OrderBookMessageHandler FUTURE n ap av bp bv s))
        /\ mETFOrderAskCount
             (fst (run es (fst (OrderBookMessageHandler FUTURE n ap av bp bv s))))
           = mETFOrderAskCount
               (fst (OrderBookMessageHandler FUTURE n ap av bp bv s))
        /\ mETFOrderPositionSell
             (fst (run es (fst (OrderBookMessageHandler FUTURE n ap av bp bv s))))
           = mETFOrderPositionSell
               (fst (OrderBookMessageHandler FUTURE n ap av bp bv s))
        /\ mETFPosition
             (fst (run es (fst (OrderBookMessageHandler FUTURE n ap av bp bv s))))
           = mETFPosition s
        /\ forall n' ap' av' bp' bv',
             at0 ap' = at0 ap ->
             mOrderBookSequence
               (fst (run es
                       (fst (OrderBookMessageHandler FUTURE n ap av bp bv s))))
             < n' ->
             OrderBookMessageHandler FUTURE n' ap' av' bp' bv'
               (fst (run es
                       (fst (OrderBookMessageHandler FUTURE n ap av bp bv s))))
             = RepriceBuyOrders bp' bv'
                 (with_sequence n'
                    (fst (run es
                            (fst (OrderBookMessageHandler FUTURE n ap av bp bv
                                    s))))))
  /\ (- 2 ^ 60 <= mETFOrderPositionBuy s < 2 ^ 60 ->
      buy_can_calm bp s ->
      forall ns,
        increasing_from n ns ->
        run (repeated_updates ap av bp bv ns)
          (fst (OrderBookMessageHandler FUTURE n ap av bp bv s))
        = (with_sequence (List.last ns n)
             (fst (OrderBookMessageHandler FUTURE n ap av bp bv s)),
           [])).
Proof.
  intros HP HS Hn Hready.
  pose proof Hready as (Ha & _).
  rewrite <- (newAskPrice_nonzero ap Ha).
  rewrite (OrderBookMessageHandler_passes n ap av bp bv s Hn). cbn [fst snd].
  assert (sell_can_settle ap (with_sequence n s)) as Hready' by exact Hready.
  destruct (RepriceSellOrders_settles ap av (with_sequence n s))
    as (Hc & k & o & Hset & Horigin & Hothers); [cbn; lia|cbn; lia|done|].
  pose proof (RepriceSellOrders_frame ap av (with_sequence n s))
    as (F1 & F2 & F3 & F4 & F5).
  cbv zeta in F1, F2, F3, F4, F5.
  cbn [with_sequence mAsks mBids mETFOrderAskCount mETFOrderBidCount
       mETFOrderPositionSell mETFOrderPositionBuy mETFPosition
       mOrderBookSequence mNextMessageId] in Horigin, Hothers, F1, F2, F3, F4, F5.
  destruct (RepriceSellOrders ap av (with_sequence n s)) as [sA sentA].
  cbn [fst snd] in *.
  pose proof (RepriceBuyOrders_frame bp bv sA) as (G1 & G2 & G3 & G4 & G5).
  cbv zeta in G1, G2, G3, G4, G5.
  assert (- 2 ^ 60 <= mETFOrderPositionBuy s < 2 ^ 60 -> buy_can_calm bp s ->
          buy_quiet bp (fst (RepriceBuyOrders bp bv sA))
          /\ - 2 ^ 61 <= mETFOrderPositionBuy (fst (RepriceBuyOrders bp bv sA))
             < 2 ^ 61) as Hcalm.
  { intros HB (B0 & Bcase). apply RepriceBuyOrders_calms; [lia|lia|].
    split; [lia|]. rewrite F2. destruct Bcase as [Bc|[Bc Bclosed]]; [by left|].
    right. split; [done|]. intros (A & B & C & D). apply Bclosed.
    rewrite F1, F2, F3, F4 in *. done. }
  destruct (RepriceBuyOrders bp bv sA) as [s1 sent1]. cbn [fst snd] in *.
  assert (settled_at (newAskPrice ap) (mAsks s1) k o) as Hset1
    by (by rewrite G1).
  assert (mETFOrderAskCount s1 < MAX_ORDER_DEPTH - 1) as Hc1 by lia.
  split; [|split].
  - exists k, o. split; [done|]. split.
    + destruct Horigin as [Hk|(-> & -> & Hin)]; [by left|right].
      split; [done|]. split; [done|]. apply in_or_app. by left.
    + intros k' o' Hk'. apply Hothers. by rewrite <- G1.
  - intros es Hes.
    pose proof (settled_run_keeps_sell_side ap k o es s1 Hset1 Hc1 Hes)
      as (E1 & E2 & E3 & E4).
    split; [done|]. split; [done|]. split; [done|]. split; [congruence|].
    intros n' ap' av' bp' bv' Hap Hn'.
    apply (settled_update_is_buy_pass n' ap ap' av' bp' bv' _ k o);
      [by rewrite E1|lia|done|done].
  - intros HB Bready ns Hinc.
    destruct (Hcalm HB Bready) as [Hq HB1].
    assert (mOrderBookSequence s1 = n) as Hseq by congruence.
    rewrite <- Hseq in Hinc |- *.
    apply (settled_quiet_updates_are_idle ap av bp bv k o ns s1);
      try done.
    rewrite G4, F4. lia.
Qed.

End WithFramework.

(** ** Concrete runs

    The statements below run the model on concrete events, with the
    framework constants at [MAX_ASK] and [MIN_BID]. *)

(** C1 fails for arbitrary order-status events: after a buy quote of 10 lots
    is placed, a status update that reports 200 lots filled and 10 remaining
    puts [mETFPosition + mETFOrderPositionBuy] at 210. *)
Lemma overfilled_buy_breaks_limit :
  reachable MAX_ASK MIN_BID (fst (run MAX_ASK MIN_BID overfilled_buy initial))
  /\ mETFPosition (fst (run MAX_ASK MIN_BID overfilled_buy initial)) = 200
  /\ mETFOrderPositionBuy (fst (run MAX_ASK MIN_BID overfilled_buy initial))
     = 10
  /\ ~ (mETFPosition (fst (run MAX_ASK MIN_BID overfilled_buy initial))
        + mETFOrderPositionBuy
            (fst (run MAX_ASK MIN_BID overfilled_buy initial))
        <= 100).
Proof.
  split; [apply reachable_run, reachable_initial|].
  vm_compute. repeat split. intros H. apply H. reflexivity.
Qed.

Lemma position_limit_respected_witness :
  reachable_consistent MAX_ASK MIN_BID
    (fst (run MAX_ASK MIN_BID partly_filled_buy initial))
  /\ (mETFPosition (fst (run MAX_ASK MIN_BID partly_filled_buy initial))
      + mETFOrderPositionBuy
          (fst (run MAX_ASK MIN_BID partly_filled_buy initial))
      <= 100
      /\ mETFPosition (fst (run MAX_ASK MIN_BID partly_filled_buy initial))
         - mETFOrderPositionSell
             (fst (run MAX_ASK MIN_BID partly_filled_buy initial))
         >= -100).
Proof.
  assert (reachable_consistent MAX_ASK MIN_BID
            (fst (run MAX_ASK MIN_BID partly_filled_buy initial))) as H.
  { change (fst (run MAX_ASK MIN_BID partly_filled_buy initial))
      with (fst (handle MAX_ASK MIN_BID (OrderStatus 1 3 7 0)
                   (fst (handle MAX_ASK MIN_BID bid_10000 initial)))).
    apply reachable_consistent_step.
    - apply reachable_consistent_step; [apply reachable_consistent_initial|].
      exact I.
    - vm_compute. repeat split; discriminate. }
  split; [exact H|]. exact (position_limit_respected MAX_ASK MIN_BID _ H).
Defined.

Lemma resting_orders_capped_witness :
  reachable MAX_ASK MIN_BID (fst (handle MAX_ASK MIN_BID ask_10000 initial))
  /\ (Z.of_nat
        (size (mAsks (fst (handle MAX_ASK MIN_BID ask_10000 initial)))) <= 5
      /\ Z.of_nat
           (size (mBids (fst (handle MAX_ASK MIN_BID ask_10000 initial))))
         <= 5
      /\ mETFOrderAskCount (fst (handle MAX_ASK MIN_BID ask_10000 initial))
         <= 5
      /\ mETFOrderBidCount (fst (handle MAX_ASK MIN_BID ask_10000 initial))
         <= 5).
Proof.
  assert (reachable MAX_ASK MIN_BID
            (fst (handle MAX_ASK MIN_BID ask_10000 initial))) as H.
  { apply reachable_step, reachable_initial. }
  split; [exact H|]. exact (resting_orders_capped MAX_ASK MIN_BID _ H).
Defined.

Lemma order_status_idempotent_witness :
  ~ (is_Some
       (mAsks (fst (run MAX_ASK MIN_BID partly_filled_buy initial)) !! 1)
     /\ is_Some
          (mBids (fst (run MAX_ASK MIN_BID partly_filled_buy initial)) !! 1))
  /\ OrderStatusMessageHandler MAX_ASK MIN_BID 1 5 5 0
       (fst (OrderStatusMessageHandler MAX_ASK MIN_BID 1 5 5 0
               (fst (run MAX_ASK MIN_BID partly_filled_buy initial))))
     = (fst (OrderStatusMessageHandler MAX_ASK MIN_BID 1 5 5 0
               (fst (run MAX_ASK MIN_BID partly_filled_buy initial))),
        []).
Proof.
  assert (~ (is_Some
               (mAsks (fst (run MAX_ASK MIN_BID partly_filled_buy initial))
                  !! 1)
             /\ is_Some
                  (mBids (fst (run MAX_ASK MIN_BID partly_filled_buy initial))
                     !! 1)))
    as H.
  { vm_compute. intros [[o Ho] _]. discriminate Ho. }
  split; [exact H|].
  exact (order_status_idempotent MAX_ASK MIN_BID 1 5 5 0 _ H).
Defined.

Lemma stale_book_update_dropped_witness :
  0 <= mOrderBookSequence initial
  /\ OrderBookMessageHandler MAX_ASK FUTURE 0
       (levels 10000) (levels 50) (levels 9800) (levels 50) initial
     = (initial, []).
Proof.
  assert (0 <= mOrderBookSequence initial) as H by (simpl; lia).
  split; [exact H|].
  exact (stale_book_update_dropped MAX_ASK FUTURE 0
           (levels 10000) (levels 50) (levels 9800) (levels 50) initial H).
Defined.

(** C9 fails where it says that nothing is mutated: a first book update for
    the ETF with sequence number 1 moves [mOrderBookSequence] from 0 to 1. *)
Lemma foreign_book_update_moves_sequence :
  mOrderBookSequence initial = 0
  /\ mOrderBookSequence
       (fst (OrderBookMessageHandler MAX_ASK ETF 1
               (levels 10000) (levels 50) (levels 9800) (levels 50) initial))
     = 1
  /\ fst (OrderBookMessageHandler MAX_ASK ETF 1
            (levels 10000) (levels 50) (levels 9800) (levels 50) initial)
     <> initial.
Proof. vm_compute. repeat split. discriminate. Qed.

Lemma foreign_book_update_only_moves_sequence_witness :
  ETF <> FUTURE
  /\ OrderBookMessageHandler MAX_ASK ETF 1
       (levels 10000) (levels 50) (levels 9800) (levels 50) initial
     = (mkAutoTrader (mNextMessageId initial)
          (Z.max 1 (mOrderBookSequence initial))
          (mETFOrderPositionSell initial) (mETFOrderPositionBuy initial)
          (mETFOrderAskCount initial) (mETFOrderBidCount initial)
          (mETFPosition initial) (mAsks initial) (mBids initial),
        []).
Proof.
  assert (ETF <> FUTURE) as H by discriminate.
  split; [exact H|].
  exact (foreign_book_update_only_moves_sequence MAX_ASK ETF 1
           (levels 10000) (levels 50) (levels 9800) (levels 50) initial H).
Defined.

(** C7 fails from a reachable state: the best ask steps down from 10000 to
    9700 and then stays at 9700 for eight updates.  The make-room rule pulls
    the resting sell orders one per update, the quote at 9800 included, and
    the counter, which falls only on a status update, stays at the cap: the
    engine ends with five sell orders, all cancelling, none live at 9800,
    and a further identical update changes nothing but the sequence number. *)
Lemma falling_then_stable_ask_leaves_no_live_order :
  mAsks (fst (run MAX_ASK MIN_BID falling_then_stable_ask initial))
  = list_to_map
      [(1, mkOrder 10100 10 0 true); (2, mkOrder 10000 10 0 true);
       (3, mkOrder 9900 10 0 true); (4, mkOrder 9800 10 0 true);
       (5, mkOrder 9800 10 0 true)]
  /\ mETFOrderAskCount
       (fst (run MAX_ASK MIN_BID falling_then_stable_ask initial)) = 5
  /\ snd (run MAX_ASK MIN_BID falling_then_stable_ask initial)
     = [SendInsertOrder 1 SELL 10100 10 GOOD_FOR_DAY;
        SendInsertOrder 2 SELL 10000 10 GOOD_FOR_DAY;
        SendInsertOrder 3 SELL 9900 10 GOOD_FOR_DAY;
        SendInsertOrder 4 SELL 9800 10 GOOD_FOR_DAY;
        SendCancelOrder 1; SendCancelOrder 2; SendCancelOrder 3;
        SendCancelOrder 4;
        SendInsertOrder 5 SELL 9800 10 GOOD_FOR_DAY;
        SendCancelOrder 5]
  /\ OrderBookMessageHandler MAX_ASK FUTURE 12
       (levels 9700) (levels 50) (levels 0) (levels 0)
       (fst (run MAX_ASK MIN_BID falling_then_stable_ask initial))
     = (mkAutoTrader 6 12 50 0 5 0 0
          (mAsks (fst (run MAX_ASK MIN_BID falling_then_stable_ask initial)))
          ∅,
        []).
Proof. vm_compute. repeat split; reflexivity. Qed.

Lemma stable_ask_converges_witness :
  - 2 ^ 60 <= mETFPosition (refilled MAX_ASK MIN_BID) < 2 ^ 60
  /\ - 2 ^ 60 <= mETFOrderPositionSell (refilled MAX_ASK MIN_BID) < 2 ^ 60
  /\ mOrderBookSequence (refilled MAX_ASK MIN_BID) < 3
  /\ sell_can_settle MAX_ASK (levels 10200) (refilled MAX_ASK MIN_BID)
  /\ - 2 ^ 60 <= mETFOrderPositionBuy (refilled MAX_ASK MIN_BID) < 2 ^ 60
  /\ buy_can_calm (levels 9900) (refilled MAX_ASK MIN_BID)
  /\ increasing_from 3 [4; 5]
  /\ (exists k o,
        settled_at 10300
          (mAsks (fst (OrderBookMessageHandler MAX_ASK FUTURE 3
                         (levels 10200) (levels 50) (levels 9900) (levels 50)
                         (refilled MAX_ASK MIN_BID)))) k o)
  /\ run MAX_ASK MIN_BID
       (repeated_updates (levels 10200) (levels 50) (levels 9900) (levels 50)
          [4; 5])
       (fst (OrderBookMessageHandler MAX_ASK FUTURE 3
               (levels 10200) (levels 50) (levels 9900) (levels 50)
               (refilled MAX_ASK MIN_BID)))
     = (with_sequence 5
          (fst (OrderBookMessageHandler MAX_ASK FUTURE 3
                  (levels 10200) (levels 50) (levels 9900) (levels 50)
                  (refilled MAX_ASK MIN_BID))),
        []).
Proof.
  assert (- 2 ^ 60 <= mETFPosition (refilled MAX_ASK MIN_BID) < 2 ^ 60) as HP
    by (vm_compute; split; [discriminate|reflexivity]).
  assert (- 2 ^ 60 <= mETFOrderPositionSell (refilled MAX_ASK MIN_BID) < 2 ^ 60)
    as HS by (vm_compute; split; [discriminate|reflexivity]).
  assert (mOrderBookSequence (refilled MAX_ASK MIN_BID) < 3) as Hn
    by (vm_compute; reflexivity).
  assert (mAsks (refilled MAX_ASK MIN_BID) = {[4 := mkOrder 10200 10 0 false]})
    as Hasks by (vm_compute; reflexivity).
  assert (sell_can_settle MAX_ASK (levels 10200) (refilled MAX_ASK MIN_BID))
    as Hready.
  { split; [vm_compute; discriminate|]. split.
    { apply (reachable_distinct MAX_ASK MIN_BID).
      apply reachable_run, reachable_initial. }
    split; [vm_compute; discriminate|]. right.
    split; [|vm_compute; reflexivity].
    split; [vm_compute; discriminate|].
    split; [vm_compute; reflexivity|].
    split; [vm_compute; discriminate|].
    intros k o Hk Hl Hp. rewrite Hasks in Hk.
    apply lookup_singleton_Some in Hk as [_ <-]. vm_compute in Hp.
    discriminate Hp. }
  assert (- 2 ^ 60 <= mETFOrderPositionBuy (refilled MAX_ASK MIN_BID) < 2 ^ 60)
    as HB by (vm_compute; split; [discriminate|reflexivity]).
  assert (buy_can_calm (levels 9900) (refilled MAX_ASK MIN_BID)) as Bready.
  { split; [vm_compute; discriminate|]. left. vm_compute. reflexivity. }
  assert (increasing_from 3 [4; 5]) as Hinc by (simpl; lia).
  split; [exact HP|]. split; [exact HS|]. split; [exact Hn|].
  split; [exact Hready|]. split; [exact HB|]. split; [exact Bready|].
  split; [exact Hinc|].
  pose proof (stable_ask_converges MAX_ASK MIN_BID 3
                (levels 10200) (levels 50) (levels 9900) (levels 50)
                (refilled MAX_ASK MIN_BID) HP HS Hn Hready)
    as ((k & o & Hset & _) & _ & Hidle).
  split; [exists k, o; exact Hset|].
  exact (Hidle HB Bready [4; 5] Hinc).
Defined.

Lemma identical_updates_from_initial_run :
  at0 (levels 10000) <> 0
  /\ increasing_from 0 [1; 2; 3]
  /\ (fst (run MAX_ASK MIN_BID
             (repeated_updates (levels 10000) (levels 50)
                (levels 9800) (levels 50) [1; 2; 3]) initial)
      = settled_on MAX_ASK (levels 10000) (levels 9800) 3
      /\ mAsks (fst (run MAX_ASK MIN_BID
                       (repeated_updates (levels 10000) (levels 50)
                          (levels 9800) (levels 50) [1; 2; 3]) initial))
         = {[1 := mkOrder ((at0 (levels 10000) + 100) mod 2 ^ 64) 10 0 false]}
      /\ snd (run MAX_ASK MIN_BID
                (repeated_updates (levels 10000) (levels 50)
                   (levels 9800) (levels 50) [2; 3])
                (fst (OrderBookMessageHandler MAX_ASK FUTURE 1
                        (levels 10000) (levels 50) (levels 9800) (levels 50)
                        initial)))
         = []).
Proof.
  assert (at0 (levels 10000) <> 0) as Ha by (vm_compute; discriminate).
  assert (increasing_from 0 [1; 2; 3]) as Hinc by (simpl; lia).
  split; [exact Ha|]. split; [exact Hinc|].
  pose proof (identical_updates_from_initial MAX_ASK MIN_BID
                (levels 10000) (levels 50) (levels 9800) (levels 50)
                1 [2; 3] Ha Hinc) as (H1 & H2 & H3 & _).
  split; [exact H1|]. split; [exact H2|exact H3].
Defined.

(** C8 fails where it gives the buy target as the best bid minus 100: for a
    best bid of 50 the subtraction of line 151 wraps, the target is
    [2^64 - 50], not -50, and a first book update places a buy order at that
    price. *)
Lemma bid_below_one_tick_wraps :
  at0 (levels 50) <> 0
  /\ newBidPrice (levels 50) = 18446744073709551566
  /\ newBidPrice (levels 50) <> at0 (levels 50) - 100
  /\ snd (OrderBookMessageHandler MAX_ASK FUTURE 1
            (levels 0) (levels 0) (levels 50) (levels 10) initial)
     = [SendInsertOrder 1 BUY 18446744073709551566 10 GOOD_FOR_DAY]
  /\ mBids (fst (OrderBookMessageHandler MAX_ASK FUTURE 1
                   (levels 0) (levels 0) (levels 50) (levels 10) initial))
     = {[1 := mkOrder 18446744073709551566 10 0 false]}.
Proof. vm_compute. repeat split; discriminate. Qed.

Lemma quote_targets_witness :
  mOrderBookSequence initial < 1
  /\ newAskPrice MAX_ASK (levels 10000) = 10100
  /\ newBidPrice (levels 9800) = 9700
  /\ newAskPrice MAX_ASK (levels 0) = MAX_ASK
  /\ newBidPrice (levels 0) = 0
  /\ newBidPrice (levels 50) = 50 - 100 + 2 ^ 64.
Proof.
  assert (mOrderBookSequence initial < 1) as H by (simpl; lia).
  split; [exact H|].
  pose proof (quote_targets MAX_ASK 1 (levels 10000) (levels 50)
                (levels 9800) (levels 50) initial H)
    as (_ & Hask & _ & _ & Hbid & _).
  pose proof (quote_targets MAX_ASK 1 (levels 0) (levels 0)
                (levels 0) (levels 0) initial H)
    as (_ & _ & Hask0 & _ & _ & Hbid0 & _).
  pose proof (quote_targets MAX_ASK 1 (levels 10000) (levels 50)
                (levels 50) (levels 50) initial H)
    as (_ & _ & _ & _ & _ & _ & _ & _ & _ & Hwrap & _).
  split; [apply Hask; vm_compute; reflexivity|].
  split; [apply Hbid; vm_compute; split; [discriminate|reflexivity]|].
  split; [apply Hask0; reflexivity|].
  split; [apply Hbid0; reflexivity|].
  apply Hwrap. vm_compute. split; reflexivity.
Defined.

Lemma empty_touch_pulls_quotes_witness :
  mOrderBookSequence (quoted_sell MAX_ASK MIN_BID) < 2
  /\ mOrderBookSequence (quoted_buy MAX_ASK MIN_BID) < 2
  /\ cancelling (mkOrder 10100 10 0 false) = false
  /\ cancelling (mkOrder 9900 10 0 false) = false
  /\ (In (SendCancelOrder 1)
         (snd (OrderBookMessageHandler MAX_ASK FUTURE 2
                 (levels 0) (levels 0) (levels 0) (levels 0)
                 (quoted_sell MAX_ASK MIN_BID)))
      /\ mAsks (fst (OrderBookMessageHandler MAX_ASK FUTURE 2
                       (levels 0) (levels 0) (levels 0) (levels 0)
                       (quoted_sell MAX_ASK MIN_BID))) !! 1
         = Some (mkOrder 10100 10 0 true)
      /\ cancelling
           <$> mAsks (fst (OrderBookMessageHandler MAX_ASK FUTURE 2
                             (levels 0) (levels 0) (levels 0) (levels 0)
                             (quoted_sell MAX_ASK MIN_BID))) !! 1
         = Some true)
  /\ (In (SendCancelOrder 1)
         (snd (OrderBookMessageHandler MAX_ASK FUTURE 2
                 (levels 0) (levels 0) (levels 0) (levels 0)
                 (quoted_buy MAX_ASK MIN_BID)))
      /\ mBids (fst (OrderBookMessageHandler MAX_ASK FUTURE 2
                       (levels 0) (levels 0) (levels 0) (levels 0)
                       (quoted_buy MAX_ASK MIN_BID))) !! 1
         = Some (mkOrder 9900 10 0 true)
      /\ cancelling
           <$> mBids (fst (OrderBookMessageHandler MAX_ASK FUTURE 2
                             (levels 0) (levels 0) (levels 0) (levels 0)
                             (quoted_buy MAX_ASK MIN_BID))) !! 1
         = Some true).
Proof.
  assert (mOrderBookSequence (quoted_sell MAX_ASK MIN_BID) < 2) as Hs
    by (vm_compute; reflexivity).
  assert (mOrderBookSequence (quoted_buy MAX_ASK MIN_BID) < 2) as Hb
    by (vm_compute; reflexivity).
  assert (cancelling (mkOrder 10100 10 0 false) = false) as Hls by reflexivity.
  assert (cancelling (mkOrder 9900 10 0 false) = false) as Hlb by reflexivity.
  split; [exact Hs|]. split; [exact Hb|].
  split; [exact Hls|]. split; [exact Hlb|].
  pose proof (empty_touch_pulls_quotes MAX_ASK 2
                (levels 0) (levels 0) (levels 0) (levels 0)
                (quoted_sell MAX_ASK MIN_BID) 1
                (mkOrder 10100 10 0 false) Hs Hls) as [Hsell _].
  pose proof (empty_touch_pulls_quotes MAX_ASK 2
                (levels 0) (levels 0) (levels 0) (levels 0)
                (quoted_buy MAX_ASK MIN_BID) 1
                (mkOrder 9900 10 0 false) Hb Hlb) as [_ Hbuy].
  split; [apply Hsell; vm_compute; reflexivity|].
  apply Hbuy; vm_compute; reflexivity.
Defined.

(** ** Concrete runs for the further properties *)

Lemma book_update_keeps_orders_witness :
  1 <> mNextMessageId (quoted_sell MAX_ASK MIN_BID)
  /\ 1 <> wrap64 (mNextMessageId (quoted_sell MAX_ASK MIN_BID) + 1)
  /\ mAsks (quoted_sell MAX_ASK MIN_BID) !! 1
     = Some (mkOrder 10100 10 0 false)
  /\ (mAsks (fst (OrderBookMessageHandler MAX_ASK FUTURE 2
                    (levels 9900) (levels 50) (levels 0) (levels 0)
                    (quoted_sell MAX_ASK MIN_BID))) !! 1
      = Some (mkOrder 10100 10 0 false)
      \/ cancelling (mkOrder 10100 10 0 false) = false
         /\ mAsks (fst (OrderBookMessageHandler MAX_ASK FUTURE 2
                          (levels 9900) (levels 50) (levels 0) (levels 0)
                          (quoted_sell MAX_ASK MIN_BID))) !! 1
            = Some (set_cancelling (mkOrder 10100 10 0 false))).
Proof.
  assert (1 <> mNextMessageId (quoted_sell MAX_ASK MIN_BID)) as H1
    by (vm_compute; discriminate).
  assert (1 <> wrap64 (mNextMessageId (quoted_sell MAX_ASK MIN_BID) + 1))
    as H2 by (vm_compute; discriminate).
  assert (mAsks (quoted_sell MAX_ASK MIN_BID) !! 1
          = Some (mkOrder 10100 10 0 false)) as H3
    by (vm_compute; reflexivity).
  split; [exact H1|]. split; [exact H2|]. split; [exact H3|].
  exact (proj1 (book_update_keeps_orders MAX_ASK FUTURE 2
                  (levels 9900) (levels 50) (levels 0) (levels 0)
                  (quoted_sell MAX_ASK MIN_BID) 1
                  (mkOrder 10100 10 0 false) H1 H2) H3).
Defined.

Lemma no_two_live_quotes_at_one_price_witness :
  reachable MAX_ASK MIN_BID (quoted_sell MAX_ASK MIN_BID)
  /\ quotes_distinct (mAsks (quoted_sell MAX_ASK MIN_BID))
  /\ quotes_distinct (mBids (quoted_sell MAX_ASK MIN_BID)).
Proof.
  assert (reachable MAX_ASK MIN_BID (quoted_sell MAX_ASK MIN_BID)) as H.
  { apply reachable_step, reachable_initial. }
  split; [exact H|].
  exact (no_two_live_quotes_at_one_price MAX_ASK MIN_BID _ H).
Defined.

Lemma sell_quote_placed_iff_witness :
  - 2 ^ 61 <= mETFPosition initial < 2 ^ 61
  /\ - 2 ^ 61 <= mETFOrderPositionSell initial < 2 ^ 61
  /\ sell_gate_open MAX_ASK (levels 10000) initial
  /\ In (SendInsertOrder (mNextMessageId initial) SELL
           (newAskPrice MAX_ASK (levels 10000)) LOT_SIZE GOOD_FOR_DAY)
        (snd (RepriceSellOrders MAX_ASK (levels 10000) (levels 50) initial)).
Proof.
  assert (- 2 ^ 61 <= mETFPosition initial < 2 ^ 61) as HP
    by (simpl; lia).
  assert (- 2 ^ 61 <= mETFOrderPositionSell initial < 2 ^ 61) as HS
    by (simpl; lia).
  assert (sell_gate_open MAX_ASK (levels 10000) initial) as Hopen.
  { unfold sell_gate_open.
    split; [vm_compute; discriminate|]. split; [vm_compute; reflexivity|].
    split; [vm_compute; discriminate|].
    intros k o Hk. discriminate Hk. }
  split; [exact HP|]. split; [exact HS|]. split; [exact Hopen|].
  exact (proj1 (proj1 (sell_quote_placed_iff MAX_ASK (levels 10000)
                         (levels 50) initial HP HS) Hopen)).
Defined.

Lemma buy_quote_placed_iff_witness :
  - 2 ^ 61 <= mETFPosition initial < 2 ^ 61
  /\ - 2 ^ 61 <= mETFOrderPositionBuy initial < 2 ^ 61
  /\ buy_gate_open (levels 10000) initial
  /\ In (SendInsertOrder (mNextMessageId initial) BUY
           (newBidPrice (levels 10000)) LOT_SIZE GOOD_FOR_DAY)
        (snd (RepriceBuyOrders MAX_ASK (levels 10000) (levels 50) initial)).
Proof.
  assert (- 2 ^ 61 <= mETFPosition initial < 2 ^ 61) as HP
    by (simpl; lia).
  assert (- 2 ^ 61 <= mETFOrderPositionBuy initial < 2 ^ 61) as HS
    by (simpl; lia).
  assert (buy_gate_open (levels 10000) initial) as Hopen.
  { unfold buy_gate_open.
    split; [vm_compute; discriminate|]. split; [vm_compute; reflexivity|].
    split; [vm_compute; discriminate|].
    intros k o Hk. discriminate Hk. }
  split; [exact HP|]. split; [exact HS|]. split; [exact Hopen|].
  exact (proj1 (proj1 (buy_quote_placed_iff MAX_ASK (levels 10000)
                         (levels 50) initial HP HS) Hopen)).
Defined.

Lemma make_room_needs_four_orders_witness :
  mETFOrderAskCount (quoted_sell MAX_ASK MIN_BID) < 4
  /\ mAsks (quoted_sell MAX_ASK MIN_BID) !! 1
     = Some (mkOrder 10100 10 0 false)
  /\ newAskPrice MAX_ASK (levels 10000) <= price (mkOrder 10100 10 0 false)
  /\ ~ In (SendCancelOrder 1)
          (snd (RepriceSellOrders MAX_ASK (levels 10000) (levels 50)
                  (quoted_sell MAX_ASK MIN_BID))).
Proof.
  assert (mETFOrderAskCount (quoted_sell MAX_ASK MIN_BID) < 4) as H1
    by (vm_compute; reflexivity).
  assert (mAsks (quoted_sell MAX_ASK MIN_BID) !! 1
          = Some (mkOrder 10100 10 0 false)) as H2
    by (vm_compute; reflexivity).
  assert (newAskPrice MAX_ASK (levels 10000)
          <= price (mkOrder 10100 10 0 false)) as H3
    by (vm_compute; discriminate).
  split; [exact H1|]. split; [exact H2|]. split; [exact H3|].
  exact (proj1 (proj1 (make_room_needs_four_orders MAX_ASK
                         (levels 10000) (levels 50) (levels 0) (levels 0)
                         (quoted_sell MAX_ASK MIN_BID) 1
                         (mkOrder 10100 10 0 false))
                  H1 H2 (or_intror H3))).
Defined.

Lemma order_status_updates_ledger_witness :
  mAsks (quoted_buy MAX_ASK MIN_BID) !! 1 = None
  /\ mBids (quoted_buy MAX_ASK MIN_BID) !! 1 = Some (mkOrder 9900 10 0 false)
  /\ 0 < 7
  /\ mBids (fst (OrderStatusMessageHandler MAX_ASK MIN_BID 1 3 7 0
                   (quoted_buy MAX_ASK MIN_BID))) !! 1
     = Some (mkOrder 9900 7 3 false).
Proof.
  assert (mAsks (quoted_buy MAX_ASK MIN_BID) !! 1 = None) as H1
    by (vm_compute; reflexivity).
  assert (mBids (quoted_buy MAX_ASK MIN_BID) !! 1
          = Some (mkOrder 9900 10 0 false)) as H2
    by (vm_compute; reflexivity).
  assert (0 < 7) as H3 by lia.
  split; [exact H1|]. split; [exact H2|]. split; [exact H3|].
  exact (proj1 (proj1 (proj2 (order_status_updates_ledger MAX_ASK MIN_BID
                                1 3 7 0 (quoted_buy MAX_ASK MIN_BID)
                                (mkOrder 9900 10 0 false)) H1 H2) H3)).
Defined.

Lemma new_fill_is_hedged_witness :
  filledVolume (mkOrder 9900 10 0 false) <= 3
  /\ 3 - filledVolume (mkOrder 9900 10 0 false) < 2 ^ 64
  /\ mAsks (quoted_buy MAX_ASK MIN_BID) !! 1 = None
  /\ mBids (quoted_buy MAX_ASK MIN_BID) !! 1 = Some (mkOrder 9900 10 0 false)
  /\ - 2 ^ 63 <= mETFPosition (quoted_buy MAX_ASK MIN_BID)
                 + (3 - filledVolume (mkOrder 9900 10 0 false)) < 2 ^ 63
  /\ mETFPosition (fst (OrderStatusMessageHandler MAX_ASK MIN_BID 1 3 7 0
                          (quoted_buy MAX_ASK MIN_BID)))
     = mETFPosition (quoted_buy MAX_ASK MIN_BID)
       + (3 - filledVolume (mkOrder 9900 10 0 false))
  /\ snd (OrderStatusMessageHandler MAX_ASK MIN_BID 1 3 7 0
            (quoted_buy MAX_ASK MIN_BID))
     = (if 0 <? 3 - filledVolume (mkOrder 9900 10 0 false)
        then [SendHedgeOrder (mNextMessageId (quoted_buy MAX_ASK MIN_BID))
                SELL (MIN_BID_NEARST_TICK MIN_BID)
                (3 - filledVolume (mkOrder 9900 10 0 false))]
        else []).
Proof.
  assert (filledVolume (mkOrder 9900 10 0 false) <= 3) as H1
    by (simpl; lia).
  assert (3 - filledVolume (mkOrder 9900 10 0 false) < 2 ^ 64) as H2
    by (simpl; lia).
  assert (mAsks (quoted_buy MAX_ASK MIN_BID) !! 1 = None) as H3
    by (vm_compute; reflexivity).
  assert (mBids (quoted_buy MAX_ASK MIN_BID) !! 1
          = Some (mkOrder 9900 10 0 false)) as H4
    by (vm_compute; reflexivity).
  assert (- 2 ^ 63 <= mETFPosition (quoted_buy MAX_ASK MIN_BID)
                      + (3 - filledVolume (mkOrder 9900 10 0 false))
          < 2 ^ 63) as H5
    by (vm_compute; split; [discriminate|reflexivity]).
  split; [exact H1|]. split; [exact H2|]. split; [exact H3|].
  split; [exact H4|]. split; [exact H5|].
  exact (proj2 (new_fill_is_hedged MAX_ASK MIN_BID 1 3 7 0
                  (quoted_buy MAX_ASK MIN_BID) (mkOrder 9900 10 0 false)
                  H1 H2) H3 H4 H5).
Defined.

Lemma unknown_ids_are_ignored_witness :
  mAsks initial !! 7 = None
  /\ mBids initial !! 7 = None
  /\ OrderStatusMessageHandler MAX_ASK MIN_BID 7 3 7 0 initial = (initial, [])
  /\ ErrorMessageHandler MAX_ASK MIN_BID 7 "rejected" initial = (initial, []).
Proof.
  assert (mAsks initial !! 7 = None) as H1 by reflexivity.
  assert (mBids initial !! 7 = None) as H2 by reflexivity.
  split; [exact H1|]. split; [exact H2|].
  exact (proj1 (unknown_ids_are_ignored MAX_ASK MIN_BID 7 3 7 0 "rejected"
                  initial) H1 H2).
Defined.

Lemma error_removes_unfilled_order_witness :
  1 <> 0
  /\ filledVolume (mkOrder 9900 10 0 false) = 0
  /\ 0 <= remainingVolume (mkOrder 9900 10 0 false) < 2 ^ 62
  /\ - 2 ^ 63 <= mETFPosition (quoted_buy MAX_ASK MIN_BID) < 2 ^ 63
  /\ mAsks (quoted_buy MAX_ASK MIN_BID) !! 1 = None
  /\ mBids (quoted_buy MAX_ASK MIN_BID) !! 1 = Some (mkOrder 9900 10 0 false)
  /\ - 2 ^ 62 <= mETFOrderPositionBuy (quoted_buy MAX_ASK MIN_BID) < 2 ^ 62
  /\ ErrorMessageHandler MAX_ASK MIN_BID 1 "rejected"
       (quoted_buy MAX_ASK MIN_BID)
     = (mkAutoTrader (mNextMessageId (quoted_buy MAX_ASK MIN_BID))
          (mOrderBookSequence (quoted_buy MAX_ASK MIN_BID))
          (mETFOrderPositionSell (quoted_buy MAX_ASK MIN_BID))
          (mETFOrderPositionBuy (quoted_buy MAX_ASK MIN_BID)
           - remainingVolume (mkOrder 9900 10 0 false))
          (mETFOrderAskCount (quoted_buy MAX_ASK MIN_BID))
          (wrap32 (mETFOrderBidCount (quoted_buy MAX_ASK MIN_BID) - 1))
          (mETFPosition (quoted_buy MAX_ASK MIN_BID))
          (mAsks (quoted_buy MAX_ASK MIN_BID))
          (delete 1 (mBids (quoted_buy MAX_ASK MIN_BID))),
        []).
Proof.
  assert (1 <> 0) as H1 by lia.
  assert (filledVolume (mkOrder 9900 10 0 false) = 0) as H2 by reflexivity.
  assert (0 <= remainingVolume (mkOrder 9900 10 0 false) < 2 ^ 62) as H3
    by (simpl; lia).
  assert (- 2 ^ 63 <= mETFPosition (quoted_buy MAX_ASK MIN_BID) < 2 ^ 63)
    as H4 by (vm_compute; split; [discriminate|reflexivity]).
  assert (mAsks (quoted_buy MAX_ASK MIN_BID) !! 1 = None) as H5
    by (vm_compute; reflexivity).
  assert (mBids (quoted_buy MAX_ASK MIN_BID) !! 1
          = Some (mkOrder 9900 10 0 false)) as H6
    by (vm_compute; reflexivity).
  assert (- 2 ^ 62 <= mETFOrderPositionBuy (quoted_buy MAX_ASK MIN_BID)
          < 2 ^ 62)
    as H7 by (vm_compute; split; [discriminate|reflexivity]).
  split; [exact H1|]. split; [exact H2|]. split; [exact H3|].
  split; [exact H4|]. split; [exact H5|]. split; [exact H6|].
  split; [exact H7|].
  exact (proj2 (error_removes_unfilled_order MAX_ASK MIN_BID 1 "rejected"
                  (quoted_buy MAX_ASK MIN_BID) (mkOrder 9900 10 0 false)
                  H1 H2 H3 H4) H5 H6 H7).
Defined.

Lemma counters_cover_ledgers_witness :
  reachable MAX_ASK MIN_BID (quoted_sell MAX_ASK MIN_BID)
  /\ Z.of_nat (size (mAsks (quoted_sell MAX_ASK MIN_BID)))
     <= mETFOrderAskCount (quoted_sell MAX_ASK MIN_BID)
  /\ Z.of_nat (size (mBids (quoted_sell MAX_ASK MIN_BID)))
     <= mETFOrderBidCount (quoted_sell MAX_ASK MIN_BID).
Proof.
  assert (reachable MAX_ASK MIN_BID (quoted_sell MAX_ASK MIN_BID)) as H.
  { apply reachable_step, reachable_initial. }
  split; [exact H|].
  pose proof (counters_cover_ledgers MAX_ASK MIN_BID _ H) as (Ha & Hb & _).
  split; [exact Ha|exact Hb].
Defined.

Lemma consistent_states_are_bounded_witness :
  reachable_consistent MAX_ASK MIN_BID (quoted_buy MAX_ASK MIN_BID)
  /\ -100 <= mETFPosition (quoted_buy MAX_ASK MIN_BID) <= 100
  /\ 0 <= mETFOrderPositionSell (quoted_buy MAX_ASK MIN_BID) <= 200
  /\ 0 <= mETFOrderPositionBuy (quoted_buy MAX_ASK MIN_BID) <= 200.
Proof.
  assert (reachable_consistent MAX_ASK MIN_BID (quoted_buy MAX_ASK MIN_BID))
    as H.
  { apply reachable_consistent_step; [apply reachable_consistent_initial|].
    exact I. }
  split; [exact H|].
  pose proof (consistent_states_are_bounded MAX_ASK MIN_BID _ H)
    as (HP & HS & HB & _).
  split; [exact HP|]. split; [exact HS|exact HB].
Defined.

Lemma hedge_prices_are_nearest_ticks_witness :
  0 <= MIN_BID
  /\ MIN_BID + 100 < 2 ^ 31
  /\ 0 <= MAX_ASK < 2 ^ 31
  /\ (MIN_BID_NEARST_TICK MIN_BID mod 100 = 0
      /\ MIN_BID < MIN_BID_NEARST_TICK MIN_BID <= MIN_BID + 100)
  /\ (MAX_ASK_NEAREST_TICK MAX_ASK mod 100 = 0
      /\ MAX_ASK - 100 < MAX_ASK_NEAREST_TICK MAX_ASK <= MAX_ASK).
Proof.
  assert (0 <= MIN_BID) as H1 by (vm_compute; discriminate).
  assert (MIN_BID + 100 < 2 ^ 31) as H2 by (vm_compute; reflexivity).
  assert (0 <= MAX_ASK < 2 ^ 31) as H3
    by (vm_compute; split; [discriminate|reflexivity]).
  split; [exact H1|]. split; [exact H2|]. split; [exact H3|].
  exact (hedge_prices_are_nearest_ticks MAX_ASK MIN_BID H1 H2 H3).
Defined.

Lemma committed_volume_follows_remaining_witness :
  mAsks (quoted_buy MAX_ASK MIN_BID) !! 1 = None
  /\ mBids (quoted_buy MAX_ASK MIN_BID) !! 1 = Some (mkOrder 9900 10 0 false)
  /\ - 2 ^ 63 <= mETFOrderPositionBuy (quoted_buy MAX_ASK MIN_BID)
                 - remainingVolume (mkOrder 9900 10 0 false) + 7 < 2 ^ 63
  /\ mETFOrderPositionBuy
       (fst (OrderStatusMessageHandler MAX_ASK MIN_BID 1 3 7 0
               (quoted_buy MAX_ASK MIN_BID)))
     = mETFOrderPositionBuy (quoted_buy MAX_ASK MIN_BID)
       - remainingVolume (mkOrder 9900 10 0 false) + 7.
Proof.
  assert (mAsks (quoted_buy MAX_ASK MIN_BID) !! 1 = None) as H1
    by (vm_compute; reflexivity).
  assert (mBids (quoted_buy MAX_ASK MIN_BID) !! 1
          = Some (mkOrder 9900 10 0 false)) as H2
    by (vm_compute; reflexivity).
  assert (- 2 ^ 63 <= mETFOrderPositionBuy (quoted_buy MAX_ASK MIN_BID)
                      - remainingVolume (mkOrder 9900 10 0 false) + 7
          < 2 ^ 63) as H3
    by (vm_compute; split; [discriminate|reflexivity]).
  split; [exact H1|]. split; [exact H2|]. split; [exact H3|].
  exact (proj2 (committed_volume_follows_remaining MAX_ASK MIN_BID 1 3 7 0
                  (quoted_buy MAX_ASK MIN_BID) (mkOrder 9900 10 0 false))
           H1 H2 H3).
Defined.

Lemma no_live_quote_inside_target_witness :
  mOrderBookSequence initial < 1
  /\ cancelling (mkOrder 10100 10 0 false) = false
  /\ mAsks (fst (OrderBookMessageHandler MAX_ASK FUTURE 1
                   (levels 10000) (levels 50) (levels 0) (levels 0)
                   initial)) !! 1
     = Some (mkOrder 10100 10 0 false)
  /\ newAskPrice MAX_ASK (levels 10000) <= price (mkOrder 10100 10 0 false).
Proof.
  assert (mOrderBookSequence initial < 1) as H1 by (simpl; lia).
  assert (cancelling (mkOrder 10100 10 0 false) = false) as H2
    by reflexivity.
  assert (mAsks (fst (OrderBookMessageHandler MAX_ASK FUTURE 1
                        (levels 10000) (levels 50) (levels 0) (levels 0)
                        initial)) !! 1
          = Some (mkOrder 10100 10 0 false)) as H3
    by (vm_compute; reflexivity).
  split; [exact H1|]. split; [exact H2|]. split; [exact H3|].
  exact (proj1 (no_live_quote_inside_target MAX_ASK 1
                  (levels 10000) (levels 50) (levels 0) (levels 0)
                  initial 1 (mkOrder 10100 10 0 false) H1 H2) H3).
Defined.

Lemma position_is_hedged_witness :
  consistent_trace MAX_ASK MIN_BID
    (fst (handle MAX_ASK MIN_BID (OrderStatus 1 3 7 0)
            (fst (handle MAX_ASK MIN_BID bid_10000 initial))))
    (([] ++ snd (handle MAX_ASK MIN_BID bid_10000 initial))
     ++ snd (handle MAX_ASK MIN_BID (OrderStatus 1 3 7 0)
               (fst (handle MAX_ASK MIN_BID bid_10000 initial))))
  /\ mETFPosition
       (fst (handle MAX_ASK MIN_BID (OrderStatus 1 3 7 0)
               (fst (handle MAX_ASK MIN_BID bid_10000 initial))))
     = net_hedged
         (([] ++ snd (handle MAX_ASK MIN_BID bid_10000 initial))
          ++ snd (handle MAX_ASK MIN_BID (OrderStatus 1 3 7 0)
                    (fst (handle MAX_ASK MIN_BID bid_10000 initial)))).
Proof.
  assert (consistent_trace MAX_ASK MIN_BID
            (fst (handle MAX_ASK MIN_BID (OrderStatus 1 3 7 0)
                    (fst (handle MAX_ASK MIN_BID bid_10000 initial))))
            (([] ++ snd (handle MAX_ASK MIN_BID bid_10000 initial))
             ++ snd (handle MAX_ASK MIN_BID (OrderStatus 1 3 7 0)
                       (fst (handle MAX_ASK MIN_BID bid_10000 initial)))))
    as H.
  { apply consistent_trace_step.
    - apply consistent_trace_step; [apply consistent_trace_initial|].
      exact I.
    - vm_compute. repeat split; discriminate. }
  split; [exact H|]. exact (position_is_hedged MAX_ASK MIN_BID _ _ H).
Defined.
